(** * graphic_pomme_env: the sprite-compositing pipeline of [PommeGraphic]

    A shallow embedding of [src/graphic_pomme_env/graphic_pomme_env.py].

    - numpy arrays are a shape together with the row-major (C order) list of
      their elements, so that [reshape] keeps the element list and
      [transpose] permutes it, as numpy does;
    - Python exceptions are the [Raise] results of a small error monad;
    - arrays reachable from an observation live in a store of array objects
      and are named by references, because [preprocess_board] copies the
      board and then assigns into the copy in place;
    - PIL images are a width, a height and the row-major list of RGB pixels;
    - array elements are integers; the boards of the simulator are uint8
      arrays, so the array that line 115 assigns into the copy of the board
      is cast to uint8 (the scalars assigned at lines 120 and 123 are agent
      codes, which a uint8 holds).

    The tile-code tables of the simulator ([constants.FILE_NAMES],
    [constants.BOMB_FILE_NAMES]) are not part of this repository: the
    functions take their lengths as parameters. *)

From stdpp Require Import base numbers list option.
From Stdlib Require Import Arith ZArith Lia ZifyNat.

Open Scope nat_scope.

(** ** Python results *)

Inductive exn : Type :=
| IndexError
| ValueError
| KeyError
| TypeError
| ZeroDivisionError
| ResetNeeded.

Inductive result (A : Type) : Type :=
| Ok (a : A)
| Raise (e : exn).
Arguments Ok {A} a.
Arguments Raise {A} e.

#[global] Instance result_ret : MRet result := λ A a, Ok a.
#[global] Instance result_bind : MBind result := λ A B f m,
  match m with
  | Ok a => f a
  | Raise e => Raise e
  end.

#[global] Instance result_fmap : FMap result := λ A B f m,
  match m with
  | Ok a => Ok (f a)
  | Raise e => Raise e
  end.

(** [[f(x) for x in l]], stopping at the first exception. *)
Fixpoint for_each {A B} (f : A → result B) (l : list A) : result (list B) :=
  match l with
  | [] => Ok []
  | x :: l' => y ← f x; ys ← for_each f l'; Ok (y :: ys)
  end.

(** ** numpy arrays *)

Record ndarray : Type := NDArray { shape : list nat; data : list Z }.

(** Number of elements of an array of shape [sh]. *)
Definition size_of (sh : list nat) : nat := foldr Nat.mul 1 sh.

Definition wf_array (a : ndarray) : Prop := length (data a) = size_of (shape a).

(** Row-major offset of a multi-index, and its inverse
    ([np.ravel_multi_index], [np.unravel_index]). *)
Fixpoint ravel (sh idx : list nat) : nat :=
  match sh, idx with
  | _ :: sh', i :: idx' => i * size_of sh' + ravel sh' idx'
  | _, _ => 0
  end.

Fixpoint unravel (sh : list nat) (p : nat) : list nat :=
  match sh with
  | [] => []
  | _ :: sh' => p / size_of sh' :: unravel sh' (p mod size_of sh')
  end.

Fixpoint in_bounds (sh idx : list nat) : bool :=
  match sh, idx with
  | [], [] => true
  | d :: sh', i :: idx' => (i <? d) && in_bounds sh' idx'
  | _, _ => false
  end.

(** [a[i0, ..., ik]] for a full, in-range, non-negative multi-index. *)
Definition item (a : ndarray) (idx : list nat) : option Z :=
  if in_bounds (shape a) idx then data a !! ravel (shape a) idx else None.

(** [t[k]] on a shape tuple. *)
Definition shape_at (a : ndarray) (k : nat) : result nat :=
  match shape a !! k with
  | Some d => Ok d
  | None => Raise IndexError
  end.

(** An integer index into an axis of length [n]: negative indices count
    from the end, anything outside [-n, n) raises. *)
Definition norm_index (n : nat) (i : Z) : result nat :=
  if ((0 <=? i) && (i <? Z.of_nat n))%Z then Ok (Z.to_nat i)
  else if ((- Z.of_nat n <=? i) && (i <? 0))%Z then Ok (Z.to_nat (i + Z.of_nat n))
  else Raise IndexError.

(** The position a valid Python index denotes on an axis of length [n]. *)
Definition wrap (n : nat) (c : Z) : nat :=
  Z.to_nat (if (c <? 0)%Z then c + Z.of_nat n else c).

(** A slice bound on an axis of length [n]: negative bounds count from the
    end, and the result is clipped to [0, n]. *)
Definition slice_bound (n : nat) (i : Z) : nat :=
  if (i <? 0)%Z then Z.to_nat (Z.max 0 (Z.of_nat n + i))
  else Z.to_nat (Z.min i (Z.of_nat n)).

(** [a[i]]: the sub-array at integer index [i] of the first axis. *)
Definition subarray (a : ndarray) (i : Z) : result ndarray :=
  match shape a with
  | [] => Raise IndexError
  | n :: rest =>
      k ← norm_index n i;
      Ok (NDArray rest (take (size_of rest) (drop (k * size_of rest) (data a))))
  end.

(** [resources[board]]: integer-array indexing of the first axis; the result
    has shape [board.shape + resources.shape[1:]]. *)
Definition take_index (resources board : ndarray) : result ndarray :=
  match shape resources with
  | [] => Raise IndexError
  | _ :: rest =>
      chunks ← for_each (λ c, data <$> subarray resources c) (data board);
      Ok (NDArray (shape board ++ rest) (concat chunks))
  end.

(** [a.transpose(0, 2, 1, 3, 4)]: element [(i0,i1,i2,i3,i4)] of the result is
    element [(i0,i2,i1,i3,i4)] of [a]. *)
Definition transpose_02134 (a : ndarray) : result ndarray :=
  match shape a with
  | [d0; d1; d2; d3; d4] =>
      let sh' := [d0; d2; d1; d3; d4] in
      Ok (NDArray sh'
            ((λ p, match unravel sh' p with
                   | [i0; i1; i2; i3; i4] =>
                       nth (ravel (shape a) [i0; i2; i1; i3; i4]) (data a) 0%Z
                   | _ => 0%Z
                   end) <$> seq 0 (size_of sh')))
  | _ => Raise ValueError
  end.

(** [a.reshape(sh)]: same elements in C order, provided the sizes agree. *)
Definition reshape (a : ndarray) (sh : list nat) : result ndarray :=
  if size_of sh =? size_of (shape a) then Ok (NDArray sh (data a))
  else Raise ValueError.

(** ** The board compositor *)

Definition render_preprocessed_board (board resources : ndarray) : result ndarray :=
  inter1 ← take_index resources board;
  inter2 ← transpose_02134 inter1;
  b0 ← shape_at board 0;
  r1 ← shape_at resources 1;
  b1 ← shape_at board 1;
  r2 ← shape_at resources 2;
  r3 ← shape_at resources 3;
  reshape inter2 [b0 * r1; b1 * r2; r3].

(** The 2-sprite atlas of 1x1 sprites and the 2x2 coded grid of the
    hand-traced example. *)
Definition atlas2 (grey white : Z) : ndarray :=
  NDArray [2; 1; 1; 3] [grey; grey; grey; white; white; white].

Definition checker_codes : ndarray := NDArray [2; 2] [0; 1; 1; 0]%Z.

Definition checkerboard (grey white : Z) : ndarray :=
  NDArray [2; 2; 3]
    [grey; grey; grey; white; white; white;
     white; white; white; grey; grey; grey].

(** ** Boolean masks *)

Record boolarray : Type := BoolArray { bshape : list nat; bdata : list bool }.

(** [a != 0], [~m], [m1 & m2], [a == v] *)
Definition ne_zero (a : ndarray) : boolarray :=
  BoolArray (shape a) ((λ v, negb (v =? 0)%Z) <$> data a).

Definition mask_not (m : boolarray) : boolarray :=
  BoolArray (bshape m) (negb <$> bdata m).

(** Operands of different shapes are outside the observation format; the
    model raises for all of them. *)
Definition mask_and (m1 m2 : boolarray) : result boolarray :=
  if decide (bshape m1 = bshape m2)
  then Ok (BoolArray (bshape m1) (zip_with andb (bdata m1) (bdata m2)))
  else Raise ValueError.

Definition eq_scalar (a : ndarray) (v : Z) : boolarray :=
  BoolArray (shape a) ((λ x, (x =? v)%Z) <$> data a).

(** [np.any(m)] *)
Definition np_any (m : boolarray) : bool := existsb id (bdata m).

(** Elements of [xs] at the true positions of [bs], in C order. *)
Fixpoint select (bs : list bool) (xs : list Z) : list Z :=
  match bs, xs with
  | b :: bs', x :: xs' => if b then x :: select bs' xs' else select bs' xs'
  | _, _ => []
  end.

(** [xs] with the true positions of [bs] overwritten, in C order, by the
    successive elements of [vals]. *)
Fixpoint scatter (bs : list bool) (xs vals : list Z) : list Z :=
  match bs, xs with
  | b :: bs', x :: xs' =>
      if b then
        match vals with
        | v :: vals' => v :: scatter bs' xs' vals'
        | [] => x :: scatter bs' xs' []
        end
      else x :: scatter bs' xs' vals
  | _, _ => xs
  end.

Definition count_true (bs : list bool) : nat := length (filter (λ b, b = true) bs).

(** [a[m]] *)
Definition bool_index (a : ndarray) (m : boolarray) : result ndarray :=
  if decide (shape a = bshape m)
  then Ok (NDArray [count_true (bdata m)] (select (bdata m) (data a)))
  else Raise IndexError.

(** [a + k] *)
Definition add_scalar (a : ndarray) (k : Z) : ndarray :=
  NDArray (shape a) ((λ v, (v + k)%Z) <$> data a).

(** The boards of the simulator have the dtype uint8, and so has a copy of
    one.  An assignment of an array into such an array casts the values to
    the dtype of the target, which reduces an integer modulo 256. *)
Definition uint8 (v : Z) : Z := (v mod 256)%Z.

Definition astype_uint8 (a : ndarray) : ndarray := NDArray (shape a) (uint8 <$> data a).

(** [a[m] = vals] for a one-dimensional [vals] with one element per true
    position, and [a[m] = v] for a scalar. *)
Definition bool_assign (a : ndarray) (m : boolarray) (vals : ndarray) : result ndarray :=
  if decide (shape a = bshape m) then
    if decide (shape vals = [count_true (bdata m)])
    then Ok (NDArray (shape a) (scatter (bdata m) (data a) (data vals)))
    else Raise ValueError
  else Raise IndexError.

Definition bool_assign_scalar (a : ndarray) (m : boolarray) (v : Z) : result ndarray :=
  if decide (shape a = bshape m)
  then Ok (NDArray (shape a) (zip_with (λ (b : bool) x, if b then v else x) (bdata m) (data a)))
  else Raise IndexError.

(** [a[r, c]] and [a[r, c] = v] on a two-dimensional array, with Python's
    negative indices. *)
Definition get_item2 (a : ndarray) (rc : Z * Z) : result Z :=
  match shape a with
  | [R; C] =>
      r ← norm_index R rc.1;
      c ← norm_index C rc.2;
      Ok (nth (r * C + c) (data a) 0%Z)
  | _ => Raise IndexError
  end.

Definition set_item2 (a : ndarray) (rc : Z * Z) (v : Z) : result ndarray :=
  match shape a with
  | [R; C] =>
      r ← norm_index R rc.1;
      c ← norm_index C rc.2;
      Ok (NDArray (shape a) (<[r * C + c := v]> (data a)))
  | _ => Raise IndexError
  end.

(** [a[r, lo:hi] = v] on a two-dimensional array. *)
Definition fill_row (a : ndarray) (r lo hi : Z) (v : Z) : result ndarray :=
  match shape a with
  | [R; C] =>
      i ← norm_index R r;
      let c0 := slice_bound C lo in
      let c1 := slice_bound C hi in
      Ok (NDArray (shape a)
            (imap (λ p x, if (p / C =? i) && (c0 <=? p mod C) && (p mod C <? c1)
                          then v else x) (data a)))
  | _ => Raise IndexError
  end.

(** The view [a[:, ::-1]] (or [a[:, ::-1, :]]): axis 1 read backwards.  An
    assignment through the view is the assignment on the flipped array,
    flipped back. *)
Definition flip_axis1 (a : ndarray) : result ndarray :=
  match shape a with
  | d0 :: d1 :: rest =>
      let sh := [d0; d1; size_of rest] in
      Ok (NDArray (shape a)
            ((λ p, match unravel sh p with
                   | [y; x; o] => nth (ravel sh [y; d1 - 1 - x; o]) (data a) 0%Z
                   | _ => 0%Z
                   end) <$> seq 0 (size_of sh)))
  | _ => Raise IndexError
  end.

(** ** Block assignment on images *)

(** numpy broadcasting of a three-dimensional source onto a block. *)
Definition broadcastable (src block : list nat) : bool :=
  match src, block with
  | [h; w; c], [bh; bw; bc] =>
      ((h =? bh) || (h =? 1)) && ((w =? bw) || (w =? 1)) && ((c =? bc) || (c =? 1))
  | _, _ => false
  end.

Definition bcast (d i : nat) : nat := if d =? 1 then 0 else i.

(** [dst[y0:y1, x0:x1, :] = src] for three-dimensional [dst] and [src]. *)
Definition assign_block (dst : ndarray) (y0 y1 x0 x1 : Z) (src : ndarray) : result ndarray :=
  match shape dst, shape src with
  | [H; W; C], [h; w; c] =>
      let ya := slice_bound H y0 in
      let yb := slice_bound H y1 in
      let xa := slice_bound W x0 in
      let xb := slice_bound W x1 in
      if broadcastable [h; w; c] [yb - ya; xb - xa; C] then
        Ok (NDArray (shape dst)
              (imap (λ p v,
                 match unravel [H; W; C] p with
                 | [y; x; k] =>
                     if (ya <=? y) && (y <? yb) && (xa <=? x) && (x <? xb)
                     then nth (ravel [h; w; c]
                                 [bcast h (y - ya); bcast w (x - xa); bcast c k])
                              (data src) 0%Z
                     else v
                 | _ => v
                 end) (data dst)))
      else Raise ValueError
  | [_; _; _], _ => Raise ValueError
  | _, _ => Raise IndexError
  end.

(** [dst[:, x0:x1, :] = v] for a scalar [v]. *)
Definition fill_cols (dst : ndarray) (x0 x1 : Z) (v : Z) : result ndarray :=
  match shape dst with
  | [H; W; C] =>
      let xa := slice_bound W x0 in
      let xb := slice_bound W x1 in
      Ok (NDArray (shape dst)
            (imap (λ p old,
               match unravel [H; W; C] p with
               | [y; x; k] => if (xa <=? x) && (x <? xb) then v else old
               | _ => old
               end) (data dst)))
  | _ => Raise IndexError
  end.

(** [a[e:, :, :]] for a three-dimensional array. *)
Definition rows_from (a : ndarray) (e : Z) : result ndarray :=
  match shape a with
  | [h; w; c] =>
      let e' := slice_bound h e in
      Ok (NDArray [h - e'; w; c] (drop (e' * (w * c)) (data a)))
  | _ => Raise IndexError
  end.

(** [a.mean(axis=2, keepdims=True)] as it is stored back into the 8-bit
    image: the channel sum divided by the channel count, fraction dropped.
    (The sum of a pixel's channels is exact in floating point and its
    quotient by the channel count is never rounded across an integer.) *)
Definition sum_list (l : list Z) : Z := foldr Z.add 0%Z l.

Definition mean_axis2 (a : ndarray) : result ndarray :=
  match shape a with
  | [H; W; C] =>
      Ok (NDArray [H; W; 1]
            ((λ q, (sum_list (take C (drop (q * C) (data a))) / Z.of_nat C)%Z)
             <$> seq 0 (H * W)))
  | _ => Raise IndexError
  end.

(** [np.concatenate([a, b], axis=0)] *)
Definition concatenate0 (a b : ndarray) : result ndarray :=
  match shape a, shape b with
  | d0 :: rest, e0 :: rest' =>
      if decide (rest = rest') then Ok (NDArray (d0 + e0 :: rest) (data a ++ data b))
      else Raise ValueError
  | _, _ => Raise ValueError
  end.

(** ** Observations and the object store *)

(** Arrays and observation dicts are Python objects: a reference is the
    position of the object in the store. *)
Definition ref := nat.

(** One agent's observation dict.  ['my_sprite'] is absent until [redraw]
    writes it. *)
Record observation : Type := Observation {
  board : ref;
  bomb_life : ref;
  position : Z * Z;
  alive : list Z;
  blast_strength : Z;
  ammo : Z;
  can_kick : Z;
  my_sprite : option Z
}.

Record store : Type := Store { arrays : list ndarray; dicts : list observation }.

(** ** Small helpers of the module *)

Definition STD_BOARD_SIZE : nat := 11.
Definition STD_GRID_SIZE : nat := 8.
(** [constants.Item.Agent1.value], 11 by the source's own comment. *)
Definition KEEP_MY_AGENT_SPRITE : Z := 11.

Definition __has_players (ppboard : ndarray) : boolarray :=
  BoolArray (shape ppboard) ((λ v, (9 <=? v) && (v <=? 13))%Z <$> data ppboard).

(** [np.transpose(np.nonzero(m)).tolist()]: the multi-indices of the true
    cells, in C order. *)
Definition nonzero (m : boolarray) : list (list nat) :=
  unravel (bshape m) <$> filter (λ p, bdata m !! p = Some true) (seq 0 (length (bdata m))).

Definition __where_agent (ppboard : ndarray) : list (list nat) :=
  nonzero (__has_players ppboard).

Definition __get_texture (res : ndarray) (index : Z) : result ndarray := subarray res index.
Definition __offset (x scale : Z) : Z := x * scale.
Definition __half_texture (scale : Z) : Z := scale / 2.
Definition __quarter_texture (scale : Z) : Z := scale / 4 + scale / 8.

(** [l[k]] on a Python list. *)
Definition index_list (l : list nat) (k : nat) : result nat :=
  match l !! k with
  | Some x => Ok x
  | None => Raise IndexError
  end.

(** [for x in l: s = body(s, x)] *)
Fixpoint for_loop {A S} (body : S → A → result S) (s : S) (l : list A) : result S :=
  match l with
  | [] => Ok s
  | x :: l' => s' ← body s x; for_loop body s' l'
  end.

Definition min3 (a b c : Z) : Z := Z.min a (Z.min b c).

Section constants.
(** [len(constants.FILE_NAMES)], [len(constants.BOMB_FILE_NAMES)] and
    [constants.Item.Agent0.value] of the simulator. *)
Context (len_FILE_NAMES len_BOMB_FILE_NAMES : nat) (Agent0 : Z).

Definition __get_bomb (res : ndarray) (state : Z) : result ndarray :=
  subarray res (Z.of_nat len_FILE_NAMES + state).

(** *** The bomb-marker overlay *)

(** One iteration of the loop over [players]. *)
Definition postprocess_player (res bombs : ndarray) (scale : Z)
    (rendered_board : ndarray) (player : list nat) : result ndarray :=
  p0 ← index_list player 0;
  p1 ← index_list player 1;
  b ← get_item2 bombs (Z.of_nat p0, Z.of_nat p1);
  if (b =? 0)%Z then Ok rendered_board
  else
    sprite ← __get_bomb res b;
    bar ← rows_from sprite (__half_texture scale + __quarter_texture scale);
    assign_block rendered_board
      (__offset (Z.of_nat p0) scale + __half_texture scale + __quarter_texture scale)
      (__offset (Z.of_nat p0 + 1) scale)
      (__offset (Z.of_nat p1) scale)
      (__offset (Z.of_nat p1 + 1) scale)
      bar.

Definition postprocess_board (rendered_board res bombs ppboard : ndarray)
    : result ndarray :=
  scale ← shape_at res 1;
  r0 ← shape_at rendered_board 0;
  if scale =? 0 then Raise ZeroDivisionError
  else
    let board_size := r0 / scale in
    let players := __where_agent ppboard in
    for_loop (postprocess_player res bombs (Z.of_nat scale)) rendered_board players.

(** *** The dashboard *)

Definition bs_sprite : Z := 4.
Definition ammo_sprite : Z := 3.

(** The board-size bounds of the two clamps. *)
Definition blast_bound (board_size : nat) : Z :=
  Z.of_nat board_size - (if (Z.of_nat board_size mod 2 =? 1)%Z then 1 else 0).
Definition ammo_bound (board_size : nat) : Z :=
  Z.of_nat board_size - (if (Z.of_nat board_size mod 2 =? 1)%Z then 1 else 2).

(** The local [blast_strength] and [ammo] after clamping. *)
Definition dash_blast_strength (obs : observation) (board_size : nat) : Z :=
  min3 (blast_strength obs) (Z.of_nat len_BOMB_FILE_NAMES) (blast_bound board_size).
Definition dash_ammo (obs : observation) (board_size : nat) : Z :=
  min3 (ammo obs) (Z.of_nat len_BOMB_FILE_NAMES) (ammo_bound board_size).

(** [conversion_array] as it is handed to the compositor. *)
Definition conversion_array (obs : observation) (board_size : nat) : result ndarray :=
  let a0 := NDArray [1; board_size] (replicate board_size (-1)%Z) in
  a1 ← fill_row a0 0 0 ((dash_blast_strength obs board_size + 1) / 2) bs_sprite;
  v ← flip_axis1 a1;
  v' ← fill_row v 0 0 ((dash_ammo obs board_size + 1) / 2) ammo_sprite;
  a2 ← flip_axis1 v';
  set_item2 a2 (0, Z.of_nat board_size / 2)%Z (if (0 <? can_kick obs)%Z then 8 else -1)%Z.

Definition assign_all (dst src : ndarray) : result ndarray :=
  h ← shape_at dst 0;
  w ← shape_at dst 1;
  assign_block dst 0 (Z.of_nat h) 0 (Z.of_nat w) src.

(** The two [if] blocks that turn the last icon of an odd count into a
    half icon: the left one on the array itself, the right one through
    the view with the columns reversed. *)
Definition half_icon_left (count sc : Z) (rendered_array : ndarray) : result ndarray :=
  if (count mod 2 =? 1)%Z then
    let bs := (count / 2)%Z in
    fill_cols rendered_array (__offset bs sc + __half_texture sc) (__offset (bs + 1) sc) 0
  else Ok rendered_array.

Definition half_icon_right (count sc : Z) (rendered_array : ndarray) : result ndarray :=
  if (count mod 2 =? 1)%Z then
    let am := (count / 2)%Z in
    v ← flip_axis1 rendered_array;
    v' ← fill_cols v (__offset am sc + __half_texture sc) (__offset (am + 1) sc) 0;
    flip_axis1 v'
  else Ok rendered_array.

Definition prepare_dashboard (obs : observation) (res : ndarray)
    (scale board_size : nat) : result ndarray :=
  let blast_strength := dash_blast_strength obs board_size in
  let ammo := dash_ammo obs board_size in
  codes ← conversion_array obs board_size;
  rendered_array ← render_preprocessed_board codes res;
  rendered_array ← half_icon_left blast_strength (Z.of_nat scale) rendered_array;
  rendered_array ← half_icon_right ammo (Z.of_nat scale) rendered_array;
  grey ← mean_axis2 rendered_array;
  assign_all rendered_array grey.

(** *** Code that reads and writes objects of the store *)

(** A computation over the store.  An exception leaves the store as it
    was when it was raised. *)
Definition M (A : Type) : Type := store → result A * store.

#[global] Instance M_ret : MRet M := λ A a st, (Ok a, st).
#[global] Instance M_bind : MBind M := λ A B f m st,
  match m st with
  | (Ok a, st') => f a st'
  | (Raise e, st') => (Raise e, st')
  end.

Definition lift {A} (r : result A) : M A := λ st, (r, st).

(** Reading the array or dict behind a reference.  (Python has no
    dangling references; the model raises on one.) *)
Definition load (r : ref) : M ndarray := λ st,
  match arrays st !! r with
  | Some a => (Ok a, st)
  | None => (Raise KeyError, st)
  end.

Definition obs_get {A} (o : ref) (key : observation → A) : M A := λ st,
  match dicts st !! o with
  | Some d => (Ok (key d), st)
  | None => (Raise KeyError, st)
  end.

(** [obs['my_sprite']]: a key that may be absent. *)
Definition obs_key {A} (o : ref) (key : observation → option A) : M A := λ st,
  match dicts st !! o ≫= key with
  | Some v => (Ok v, st)
  | None => (Raise KeyError, st)
  end.

(** A new array object. *)
Definition new_array (a : ndarray) : M ref := λ st,
  (Ok (length (arrays st)), Store (arrays st ++ [a]) (dicts st)).

(** In-place change of the contents of an array object. *)
Definition write (r : ref) (a : ndarray) : M unit := λ st,
  (Ok (), Store (<[r := a]> (arrays st)) (dicts st)).

(** [o['my_sprite'] = v] *)
Definition set_my_sprite (o : ref) (v : Z) : M unit := λ st,
  (Ok (),
   Store (arrays st)
     (alter (λ d, Observation (board d) (bomb_life d) (position d) (alive d)
                    (blast_strength d) (ammo d) (can_kick d) (Some v)) o (dicts st))).

(** [a.copy()] *)
Definition np_copy (r : ref) : M ref := a ← load r; new_array a.

Fixpoint for_eachM {A B} (f : A → M B) (l : list A) : M (list B) :=
  match l with
  | [] => mret []
  | x :: l' => y ← f x; ys ← for_eachM f l'; mret (y :: ys)
  end.

(** *** The board preprocessor *)

(** [(bombs != 0) & ~__has_players(board)] *)
Definition bomb_mask (bombs board' : ndarray) : result boolarray :=
  mask_and (ne_zero bombs) (mask_not (__has_players board')).

(** Line 115,
    [board[mask] = bombs[mask] + len(constants.FILE_NAMES)] with
    [mask = (bombs != 0) & ~__has_players(board)]: the right-hand side is
    evaluated first, then the mask of the target; the values are stored
    into the copy of the board, a uint8 array. *)
Definition assign_bombs (board' bombs : ref) : M unit :=
  bv ← load bombs;
  cur ← load board';
  m ← lift (bomb_mask bv cur);
  sel ← lift (bool_index bv m);
  cur ← load board';
  m' ← lift (bomb_mask bv cur);
  new ← lift (bool_assign cur m'
                (astype_uint8 (add_scalar sel (Z.of_nat len_FILE_NAMES))));
  write board' new.

Definition preprocess_board (obs : ref) : M ref :=
  src ← obs_get obs board;
  board' ← np_copy src;
  bombs ← obs_get obs bomb_life;
  assign_bombs board' bombs;;
  my_idx ← obs_key obs my_sprite;
  (* substitute the other agent *)
  cur ← load board';
  (if np_any (eq_scalar cur KEEP_MY_AGENT_SPRITE) then
     new ← lift (bool_assign_scalar cur (eq_scalar cur KEEP_MY_AGENT_SPRITE) my_idx);
     write board' new
   else mret ());;
  (* substitute self *)
  al ← obs_get obs alive;
  (if bool_decide (my_idx ∈ al) then
     pos ← obs_get obs position;
     cur ← load board';
     new ← lift (set_item2 cur pos KEEP_MY_AGENT_SPRITE);
     write board' new
   else mret ());;
  mret board'.

(** *** The environment *)

Section env.
(** The simulator [Pomme], the superclass, is not part of this
    repository: its state, its [reset] and [step], which put the new
    observation dicts and arrays into the store, and its [_board_size]. *)
Context {sim action extra : Type}.
Context (Pomme_reset : sim → store → list ref * sim * store).
Context (Pomme_step : action → sim → store → list ref * extra * sim * store).
Context (Pomme_board_size : sim → nat).

Record PommeGraphic : Type := {
  pomme : sim;
  sprite_size : nat;
  renres : ndarray;
  lastobs_raw : option (list ref)
}.

(** [__init__], given the atlas that [load_resources] returns. *)
Definition init (s : sim) (size : nat) (resources : ndarray) : PommeGraphic :=
  {| pomme := s; sprite_size := size; renres := resources; lastobs_raw := None |}.

Definition redraw (self : PommeGraphic) (obs : list ref) : M (list ndarray) :=
  for_eachM (λ io, set_my_sprite io.2 (Agent0 + Z.of_nat io.1)%Z)
    (imap (λ i o, (i, o)) obs);;
  ppboards ← for_eachM preprocess_board obs;
  raw_board_views ←
    for_eachM (λ po,
        pp ← load po.1;
        rendered ← lift (render_preprocessed_board pp (renres self));
        bl ← obs_get po.2 bomb_life;
        bombs ← load bl;
        lift (postprocess_board rendered (renres self) bombs pp))
      (zip ppboards obs);
  dash_views ←
    for_eachM (λ o,
        d ← obs_get o id;
        lift (prepare_dashboard d (renres self) (sprite_size self)
                (Pomme_board_size (pomme self))))
      obs;
  for_eachM (λ bd, lift (concatenate0 bd.1 bd.2)) (zip raw_board_views dash_views).

Definition reset (self : PommeGraphic) (st : store)
    : result (list ndarray) * PommeGraphic * store :=
  let '(obs, s', st1) := Pomme_reset (pomme self) st in
  let self' := {| pomme := s'; sprite_size := sprite_size self;
                  renres := renres self; lastobs_raw := Some obs |} in
  let '(views, st2) := redraw self' obs st1 in
  (views, self', st2).

Definition step (self : PommeGraphic) (actions : action) (st : store)
    : result (list ndarray * extra) * PommeGraphic * store :=
  let '(obs, rest, s', st1) := Pomme_step actions (pomme self) st in
  let self' := {| pomme := s'; sprite_size := sprite_size self;
                  renres := renres self; lastobs_raw := Some obs |} in
  let '(views, st2) := redraw self' obs st1 in
  ((λ v, (v, rest)) <$> views, self', st2).

(** [if self.lastobs_raw:] is false for [None] and for an empty list. *)
Definition get_last_step_raw (self : PommeGraphic) : result (list ref) :=
  match lastobs_raw self with
  | Some obs => if bool_decide (obs = []) then Raise ResetNeeded else Ok obs
  | None => Raise ResetNeeded
  end.
End env.

End constants.

Arguments PommeGraphic sim : clear implicits.

(** ** PIL images and the frame assembler *)

Definition pixel : Type := Z * Z * Z.
Definition black : pixel := (0, 0, 0)%Z.

Record Image : Type := { width : nat; height : nat; pixels : list pixel }.

Definition wf_image (im : Image) : Prop := length (pixels im) = width im * height im.

(** [Image.new('RGB', (w, h))] *)
Definition Image_new (w h : nat) : Image :=
  {| width := w; height := h; pixels := replicate (w * h) black |}.

Definition getpixel (im : Image) (xy : nat * nat) : option pixel :=
  if (xy.1 <? width im) && (xy.2 <? height im)
  then pixels im !! (xy.2 * width im + xy.1) else None.

(** [dst.paste(im, box)]: the part of [im] that falls inside [dst]. *)
Definition paste (dst im : Image) (box : nat * nat) : Image :=
  {| width := width dst; height := height dst;
     pixels :=
       imap (λ p old,
         let x := p mod width dst in
         let y := p / width dst in
         if (box.1 <=? x) && (x <? box.1 + width im)
            && (box.2 <=? y) && (y <? box.2 + height im)
         then nth ((y - box.2) * width im + (x - box.1)) (pixels im) black
         else old) (pixels dst) |}.

Fixpoint group3 (l : list Z) : list pixel :=
  match l with
  | r :: g :: b :: l' => (r, g, b) :: group3 l'
  | _ => []
  end.

(** [Image.fromarray(o)] for the frames [redraw] returns: height x width x 3
    arrays of bytes. *)
Definition fromarray (o : ndarray) : result Image :=
  match shape o with
  | [h; w; 3] => Ok {| width := w; height := h; pixels := group3 (data o) |}
  | _ => Raise TypeError
  end.

Definition get_concat_h (im1 im2 : Image) : Image :=
  let dst := Image_new (width im1 + width im2) (height im1) in
  let dst := paste dst im1 (0, 0) in
  paste dst im2 (width im1, 0).

Definition get_concat_v (im1 im2 : Image) : Image :=
  let dst := Image_new (width im1) (height im1 + height im2) in
  let dst := paste dst im1 (0, 0) in
  paste dst im2 (0, height im1).

Definition index_image (ims : list Image) (k : nat) : result Image :=
  match ims !! k with
  | Some im => Ok im
  | None => Raise IndexError
  end.

Definition tile_four_images (ims : list Image) : result Image :=
  im0 ← index_image ims 0;
  im1 ← index_image ims 1;
  let left := get_concat_v im0 im1 in
  im2 ← index_image ims 2;
  im3 ← index_image ims 3;
  let right := get_concat_v im2 im3 in
  Ok (get_concat_h left right).

(** The method of [PommeGraphic]; it does not use [self].  A Python function
    that falls off its end returns [None]. *)
Definition render_tiled_observations (obs : list ndarray) : result (option Image) :=
  images ← for_each fromarray obs;
  if length images =? 4 then Some <$> tile_four_images images
  else if length images =? 2 then
    match images with
    | [im1; im2] => Ok (Some (get_concat_h im1 im2))
    | _ => Raise TypeError
    end
  else Ok None.


(** ** The blackened slivers *)

(** Column [x] of an image [W] pixels wide lies in the slice that a
    half-icon block sets to black for the count [count]. *)
Definition sliver (count sc : Z) (W x : nat) : bool :=
  (count mod 2 =? 1)%Z
  && (slice_bound W (__offset (count / 2) sc + __half_texture sc) <=? x)
  && (x <? slice_bound W (__offset (count / 2 + 1) sc)).

(** ** The coded grid, cell by cell *)

(** What line 115 of the source leaves in a cell with countdown [bomb] and
    raw code [cell], and what the substitution of the other agent leaves
    in a cell that holds [cell]. *)
Definition mark_bomb (len_FILE_NAMES : nat) (bomb cell : Z) : Z :=
  if negb (bomb =? 0)%Z && negb ((9 <=? cell) && (cell <=? 13))%Z
  then uint8 (bomb + Z.of_nat len_FILE_NAMES) else cell.

Definition substitute_other (my_idx cell : Z) : Z :=
  if (cell =? KEEP_MY_AGENT_SPRITE)%Z then my_idx else cell.

(** An observation whose board and bomb grid are in the store and have one
    shape, and whose ['my_sprite'] has been written. *)
Record observed (st : store) (o : ref) (d : observation) (b bl : ndarray) (my : Z) : Prop := {
  obs_dict : dicts st !! o = Some d;
  obs_board : arrays st !! board d = Some b;
  obs_bombs : arrays st !! bomb_life d = Some bl;
  obs_shape : shape b = shape bl;
  obs_length : length (data b) = length (data bl);
  obs_sprite : my_sprite d = Some my
}.

(** The grid after the bomb step and the substitution of the other agent. *)
Definition substituted (K : nat) (b bl : ndarray) (my : Z) : ndarray :=
  NDArray (shape b) (substitute_other my <$> zip_with (mark_bomb K) (data bl) (data b)).

(** ** The bomb bar *)

(** The row of a sprite at which the bar under a player starts:
    [__half_texture(scale) + __quarter_texture(scale)]. *)
Definition bar_offset (s : nat) : nat := s / 2 + (s / 4 + s / 8).

(** ** Example inputs *)

(** Four 1x1 images, three 1x1 frames. *)
Definition dot (v : Z) : Image := {| width := 1; height := 1; pixels := [(v, v, v)] |}.

Definition three_frames : list ndarray :=
  [NDArray [1; 1; 3] [1; 2; 3]%Z; NDArray [1; 1; 3] [4; 5; 6]%Z;
   NDArray [1; 1; 3] [7; 8; 9]%Z].

(** A simulator without agents, whose observation list is empty, and one
    with a single agent whose observation is the dict at reference 0. *)
Definition no_agent_reset (s : unit) (st : store) : list ref * unit * store := ([], s, st).
Definition one_agent_reset (s : unit) (st : store) : list ref * unit * store := ([0], s, st).
Definition one_agent_step (a : unit) (s : unit) (st : store)
  : list ref * unit * unit * store := ([0], tt, s, st).

(** A 2x2 board with a bomb under agent 10 and one on a wood tile, seen by
    agent 10 while alive and after its death. *)
Definition sample_board : ndarray := NDArray [2; 2] [0; 10; 2; 11]%Z.
Definition sample_bombs : ndarray := NDArray [2; 2] [0; 5; 4; 0]%Z.
Definition alive_obs : observation := Observation 0 1 (0, 1)%Z [10; 11]%Z 2 1 0 (Some 10%Z).
Definition dead_obs : observation := Observation 0 1 (0, 1)%Z [11]%Z 2 1 0 (Some 10%Z).
Definition alive_store : store := Store [sample_board; sample_bombs] [alive_obs].
Definition dead_store : store := Store [sample_board; sample_bombs] [dead_obs].

(** One cell with agent 10 standing on a bomb with countdown 1, rendered
    at scale 8 as a uniform block of value 200; an atlas of three 8x8
    sprites in which row [i] of sprite [n] has the value [8 * n + i]. *)
Definition player_cell : ndarray := NDArray [1; 1] [10]%Z.
Definition one_bomb : ndarray := NDArray [1; 1] [1]%Z.
Definition plain_frame : ndarray := NDArray [1 * 8; 1 * 8; 3] (replicate 192 200%Z).
Definition row_atlas : ndarray :=
  NDArray [3; 8; 8; 3] ((λ i, Z.of_nat (i / 24)) <$> seq 0 576).

Definition blank_atlas : ndarray := NDArray [1; 1; 1; 3] [0; 0; 0]%Z.

(** An atlas of nine 1x1 sprites and two status records. *)
Definition small_atlas : ndarray := NDArray [9; 1; 1; 3] (Z.of_nat <$> seq 0 27).
Definition idle_status : observation := Observation 0 1 (0, 0)%Z [] 0 0 0 None.
Definition armed_status : observation := Observation 0 1 (0, 0)%Z [] 5 3 1 None.

(** ** Board-generation parameters *)

(** The attributes [_num_rigid], [_num_wood] and [_num_items] that
    [set_num_board_params] writes, and the six assertions it makes, each
    named after what it checks. *)
Record board_params : Type := BoardParams {
  _num_rigid : Z;
  _num_wood : Z;
  _num_items : Z
}.

Inductive assertion : Type :=
| RigidNotEven
| RigidBelowTwo
| WoodNotEven
| WoodBelowSix
| WoodBelowTenOneVsOne
| ItemsNotBelowWood.

(** [one_vs_one] is the test [self.spec.id == 'GraphicOneVsOne-v0'].  The
    result is the assertion that failed, if any, and the attributes as the
    call leaves them: an attribute assigned before a failing assertion
    stays assigned. *)
Definition set_num_board_params (one_vs_one : bool) (self : board_params)
    (num_rigid num_wood num_items : Z) : option assertion * board_params :=
  let after_rigid : option assertion * board_params :=
    if (0 <? num_rigid)%Z then
      if negb (num_rigid mod 2 =? 0)%Z then (Some RigidNotEven, self)
      else if negb (2 <=? num_rigid)%Z then (Some RigidBelowTwo, self)
      else (None, BoardParams num_rigid (_num_wood self) (_num_items self))
    else (None, self) in
  match after_rigid with
  | (Some e, self) => (Some e, self)
  | (None, self) =>
      let after_wood : option assertion * board_params :=
        if (0 <? num_wood)%Z then
          if negb (num_wood mod 2 =? 0)%Z then (Some WoodNotEven, self)
          else if negb (6 <=? num_wood)%Z then (Some WoodBelowSix, self)
          else if one_vs_one && negb (10 <=? num_wood)%Z
               then (Some WoodBelowTenOneVsOne, self)
          else (None, BoardParams (_num_rigid self) num_wood (_num_items self))
        else (None, self) in
      match after_wood with
      | (Some e, self) => (Some e, self)
      | (None, self) =>
          if (0 <? num_items)%Z then
            if negb (num_items <? _num_wood self)%Z then (Some ItemsNotBelowWood, self)
            else (None, BoardParams (_num_rigid self) (_num_wood self) num_items)
          else (None, self)
      end
  end.

(** ** Loading the atlas *)

(** [a[i, :, :, :] = src] on a four-dimensional array, for a source of the
    shape of one entry. *)
Definition set_entry (a : ndarray) (i : Z) (src : ndarray) : result ndarray :=
  match shape a with
  | n :: rest =>
      k ← norm_index n i;
      if decide (shape src = rest)
      then Ok (NDArray (shape a)
                 (take (k * size_of rest) (data a) ++ data src
                  ++ drop ((k + 1) * size_of rest) (data a)))
      else Raise ValueError
  | [] => Raise IndexError
  end.

Section resources.
(** The sprite names [constants.FILE_NAMES] and [constants.BOMB_FILE_NAMES]
    and the image files are outside the repository: [open_sprite name size]
    stands for the array of
    [Image.open(<resource path of name>).resize((size, size),
    resample=NEAREST).convert('RGB')], or the exception that opening the
    file raises. *)
Context {name : Type} (FILE_NAMES BOMB_FILE_NAMES : list name).
Context (open_sprite : name → nat → result ndarray).

Definition load_resources (sprite_size : nat) : result ndarray :=
  let names := FILE_NAMES ++ BOMB_FILE_NAMES in
  let resource_array :=
    NDArray [length names + 1; sprite_size; sprite_size; 3]
      (replicate ((length names + 1) * (sprite_size * sprite_size * 3)) 0%Z) in
  for_loop (λ resource_array (ix : nat * name),
      sprite_n ← open_sprite ix.2 sprite_size;
      set_entry resource_array (Z.of_nat ix.1) sprite_n)
    resource_array (imap (λ i x, (i, x)) names).
End resources.

(** [get_board_and_bombs]: the board and bomb arrays of every observation,
    as the same objects. *)
Definition get_board_and_bombs (obs : list ref) : M (list (ref * ref)) :=
  for_eachM (λ o, b ← obs_get o board; bl ← obs_get o bomb_life; mret (b, bl)) obs.

(** ** Relations between stores *)

(** [d'] is [d] up to the key ['my_sprite']. *)
Definition same_raw_fields (d d' : observation) : Prop :=
  board d' = board d ∧ bomb_life d' = bomb_life d ∧ position d' = position d ∧
  alive d' = alive d ∧ blast_strength d' = blast_strength d ∧ ammo d' = ammo d ∧
  can_kick d' = can_kick d.

(** No array object of [st] was changed on the way to [st'], only new ones
    were added. *)
Definition arrays_kept (st st' : store) : Prop := arrays st `prefix_of` arrays st'.

(** A computation that started from [st0] has so far kept its arrays and
    its dicts. *)
Definition untouched (st0 st : store) : Prop :=
  dicts st = dicts st0 ∧ arrays_kept st0 st.

(** Run from any store reached from [st0] without touching it, [m] does
    not touch [st0] either, and its value satisfies [Q]. *)
Definition framed (st0 : store) {A} (m : M A) (Q : A → Prop) : Prop :=
  ∀ st r st', untouched st0 st → m st = (r, st') →
    untouched st0 st' ∧ ∀ a, r = Ok a → Q a.

(** ** Pixels of a frame, and sprite files for the examples *)

(** The RGB pixel of row [y] and column [x] of a height x width x 3 array. *)
Definition array_pixel (o : ndarray) (y x : nat) : option pixel :=
  r ← item o [y; x; 0]; g ← item o [y; x; 1]; b ← item o [y; x; 2]; Some (r, g, b).

(** Sprite files named by numbers: file [x] is a sprite of the uniform
    value [x], and the files from 100 on are missing. *)
Definition solid_sprite (x : nat) (s : nat) : result ndarray :=
  if x <? 100 then Ok (NDArray [s; s; 3] (replicate (s * s * 3) (Z.of_nat x)))
  else Raise KeyError.

(** ** One agent's frame *)

(** The dict [d] after [d['my_sprite'] = v]. *)
Definition with_sprite (v : Z) (d : observation) : observation :=
  Observation (board d) (bomb_life d) (position d) (alive d)
    (blast_strength d) (ammo d) (can_kick d) (Some v).

(** The dicts after the first loop of [redraw] over the observations [obs],
    the first of which has the index [k]. *)
Definition inject_sprites (Agent0 : Z) (k : nat) (obs : list ref)
    (ds : list observation) : list observation :=
  foldl (λ ds (io : nat * ref), alter (with_sprite (Agent0 + Z.of_nat io.1)) io.2 ds) ds
    (imap (λ i o, (k + i, o)) obs).

(** The coded grid of a board [b] with countdowns [bl] for the agent with
    code [my], alive list [al] and position [pos]. *)
Definition coded_grid (K : nat) (b bl : ndarray) (my : Z) (al : list Z) (pos : Z * Z)
    : result ndarray :=
  if bool_decide (my ∈ al)
  then set_item2 (substituted K b bl my) pos KEEP_MY_AGENT_SPRITE
  else Ok (substituted K b bl my).

(** [redraw] after its first loop: the four list comprehensions, for an
    atlas [res], a sprite size [s] and a board size [n]. *)
Definition draw_frames (K NB : nat) (res : ndarray) (s n : nat) (obs : list ref)
    : M (list ndarray) :=
  ppboards ← for_eachM (preprocess_board K) obs;
  raw_board_views ←
    for_eachM (λ po : ref * ref,
        pp ← load po.1;
        rendered ← lift (render_preprocessed_board pp res);
        bl ← obs_get po.2 bomb_life;
        bombs ← load bl;
        lift (postprocess_board K rendered res bombs pp))
      (zip ppboards obs);
  dash_views ←
    for_eachM (λ o : ref,
        d ← obs_get o id;
        lift (prepare_dashboard NB d res s n))
      obs;
  for_eachM (λ bd : ndarray * ndarray, lift (concatenate0 bd.1 bd.2))
    (zip raw_board_views dash_views).

(** The values one agent's frame goes through. *)
Record frame_parts : Type := FrameParts {
  fp_dict : observation;
  fp_board : ndarray;
  fp_bombs : ndarray;
  fp_grid : ndarray;
  fp_rendered : ndarray;
  fp_view : ndarray;
  fp_dash : ndarray;
  fp_frame : ndarray
}.

(** [p] holds the stages of the frame of the [i]-th observation [o] of the
    store [st]: its dict and arrays, the coded grid for the agent code
    [Agent0 + i], the rendered grid, the view with the bomb bars, the
    dashboard, and the two stacked. *)
Record drawn (K NB : nat) (Agent0 : Z) (res : ndarray) (s n : nat) (st : store)
    (i : nat) (o : ref) (p : frame_parts) : Prop := {
  drawn_dict : dicts st !! o = Some (fp_dict p);
  drawn_board : arrays st !! board (fp_dict p) = Some (fp_board p);
  drawn_bombs : arrays st !! bomb_life (fp_dict p) = Some (fp_bombs p);
  drawn_shape : shape (fp_board p) = shape (fp_bombs p);
  drawn_length : length (data (fp_board p)) = length (data (fp_bombs p));
  drawn_grid :
    coded_grid K (fp_board p) (fp_bombs p) (Agent0 + Z.of_nat i)
      (alive (fp_dict p)) (position (fp_dict p)) = Ok (fp_grid p);
  drawn_rendered : render_preprocessed_board (fp_grid p) res = Ok (fp_rendered p);
  drawn_view :
    postprocess_board K (fp_rendered p) res (fp_bombs p) (fp_grid p) = Ok (fp_view p);
  drawn_dash : prepare_dashboard NB (fp_dict p) res s n = Ok (fp_dash p);
  drawn_frame : concatenate0 (fp_view p) (fp_dash p) = Ok (fp_frame p)
}.

(** Two agents on the sample board, as the simulator hands them over:
    without the key ['my_sprite'].  The atlas has 14 board sprites, 5 bomb
    sprites and the blank one, 2x2 pixels each, sprite [i] of the uniform
    value [i]. *)
Definition raw_obs0 : observation := Observation 0 1 (0, 1)%Z [10; 11]%Z 2 1 0 None.
Definition raw_obs1 : observation := Observation 0 1 (1, 1)%Z [10; 11]%Z 1 2 1 None.
Definition two_agent_store : store := Store [sample_board; sample_bombs] [raw_obs0; raw_obs1].
Definition uniform_atlas : ndarray :=
  NDArray [20; 2; 2; 3] (concat ((λ i, replicate 12 (Z.of_nat i)) <$> seq 0 20)).
Definition two_agent_env : PommeGraphic unit := init tt 2 uniform_atlas.
Definition two_agent_reset (s : unit) (st : store) : list ref * unit * store :=
  ([0; 1], s, two_agent_store).
Definition two_agent_step (a : unit) (s : unit) (st : store)
  : list ref * unit * unit * store := ([0; 1], tt, s, two_agent_store).

(** The stages of the frames of the two agents, computed with the functions
    of the source. *)
Definition example_parts (i : nat) (d : observation) : result frame_parts :=
  g ← coded_grid 14 sample_board sample_bombs (10 + Z.of_nat i) (alive d) (position d);
  rendered ← render_preprocessed_board g uniform_atlas;
  view ← postprocess_board 14 rendered uniform_atlas sample_bombs g;
  dash ← prepare_dashboard 5 d uniform_atlas 2 2;
  frame ← concatenate0 view dash;
  Ok (FrameParts d sample_board sample_bombs g rendered view dash frame).

Definition two_agent_parts : list frame_parts :=
  Eval vm_compute in
    match p0 ← example_parts 0 raw_obs0; p1 ← example_parts 1 raw_obs1; Ok [p0; p1] with
    | Ok l => l
    | Raise _ => []
    end.

(** An observation that [redraw] can draw as the [i]-th of its list on an
    n x n board: its dict and its two arrays are in the store, the board
    holds codes of named sprites, the countdowns are at most the number of
    bomb sprites, the agent's code [Agent0 + i] is the code of a named
    sprite, and a living agent stands on the board. *)
Definition well_formed_observation (K NB : nat) (A0 : Z) (n : nat) (st : store)
    (i : nat) (o : ref) : Prop :=
  ∃ d b bl,
    dicts st !! o = Some d ∧
    arrays st !! board d = Some b ∧ arrays st !! bomb_life d = Some bl ∧
    shape b = [n; n] ∧ wf_array b ∧ shape bl = [n; n] ∧ wf_array bl ∧
    Forall (λ v, (0 ≤ v < Z.of_nat K)%Z) (data b) ∧
    Forall (λ v, (0 ≤ v ≤ Z.of_nat NB)%Z) (data bl) ∧
    (0 ≤ A0 + Z.of_nat i < Z.of_nat K)%Z ∧
    ((A0 + Z.of_nat i)%Z ∈ alive d →
     (- Z.of_nat n ≤ (position d).1 < Z.of_nat n)%Z ∧
     (- Z.of_nat n ≤ (position d).2 < Z.of_nat n)%Z).

(** * Properties *)

(** Linear arithmetic with divisions and remainders by constants. *)
Ltac dlia := zify; Z.div_mod_to_equations; lia.

(** ** Index arithmetic *)

Lemma size_of_app sh1 sh2 : size_of (sh1 ++ sh2) = size_of sh1 * size_of sh2.
Proof.
  induction sh1 as [|d sh1 IH]; simpl; [lia|]. rewrite IH. lia.
Qed.

Lemma digit_lt a b m n : a < m → b < n → a * n + b < m * n.
Proof.
  intros Ha Hb. pose proof (Nat.mul_le_mono_r (S a) m n Ha). lia.
Qed.

Lemma ravel_lt sh idx : in_bounds sh idx = true → ravel sh idx < size_of sh.
Proof.
  revert idx. induction sh as [|d sh IH]; intros [|i idx]; simpl; try done.
  - lia.
  - intros [Hi Hb]%andb_true_iff. apply Nat.ltb_lt in Hi.
    specialize (IH _ Hb). nia.
Qed.

Lemma unravel_ravel sh idx : in_bounds sh idx = true → unravel sh (ravel sh idx) = idx.
Proof.
  revert idx. induction sh as [|d sh IH]; intros [|i idx]; simpl; try done.
  intros [Hi Hb]%andb_true_iff.
  pose proof (ravel_lt _ _ Hb) as Hlt.
  assert (size_of sh ≠ 0) by lia.
  f_equal.
  - rewrite Nat.div_add_l by done. rewrite Nat.div_small by done. lia.
  - rewrite Nat.add_comm, Nat.Div0.mod_add, Nat.mod_small by done. by apply IH.
Qed.

Lemma item_Some a idx v :
  item a idx = Some v ↔ in_bounds (shape a) idx = true ∧ data a !! ravel (shape a) idx = Some v.
Proof. unfold item. destruct (in_bounds _ _); split; intros; destruct_and?; done. Qed.

(** ** Chunked lists *)

Lemma lookup_concat_uniform {A} (ls : list (list A)) m q o :
  Forall (λ l, length l = m) ls → o < m →
  concat ls !! (q * m + o) = ls !! q ≫= (.!! o).
Proof.
  intros Hall Ho. revert q. induction Hall as [|l ls Hl _ IH]; intros q; simpl.
  - by rewrite !lookup_nil.
  - destruct q as [|q]; simpl.
    + rewrite lookup_app_l by lia. done.
    + rewrite lookup_app_r by lia.
      replace (m + q * m + o - length l) with (q * m + o) by lia. apply IH.
Qed.

Lemma for_each_Ok {A B} (f : A → result B) (g : A → B) l :
  Forall (λ x, f x = Ok (g x)) l → for_each f l = Ok (g <$> l).
Proof.
  induction 1 as [|x l Hx _ IH]; simpl; [done|]. by rewrite Hx, IH.
Qed.

Lemma lookup_take_drop {A} (l : list A) m q o :
  o < m → take m (drop (q * m) l) !! o = l !! (q * m + o).
Proof. intros Ho. by rewrite lookup_take_lt, lookup_drop. Qed.

Lemma length_take_drop {A} (l : list A) m q :
  (q + 1) * m ≤ length l → length (take m (drop (q * m) l)) = m.
Proof. intros Hl. rewrite length_take, length_drop. lia. Qed.

(** ** Gathering sprites *)

Lemma norm_index_wrap n c :
  (- Z.of_nat n ≤ c < Z.of_nat n)%Z → norm_index n c = Ok (wrap n c).
Proof.
  intros [H0 H1]. unfold norm_index, wrap.
  destruct (Z.ltb_spec c 0) as [Hneg|Hpos].
  - replace (0 <=? c)%Z with false by (symmetry; apply Z.leb_gt; lia).
    replace (- Z.of_nat n <=? c)%Z with true by (symmetry; apply Z.leb_le; lia).
    done.
  - replace (0 <=? c)%Z with true by (symmetry; apply Z.leb_le; lia).
    replace (c <? Z.of_nat n)%Z with true by (symmetry; apply Z.ltb_lt; lia).
    done.
Qed.

Lemma wrap_lt n c : (- Z.of_nat n ≤ c < Z.of_nat n)%Z → wrap n c < n.
Proof. intros [H0 H1]. unfold wrap. destruct (Z.ltb_spec c 0); lia. Qed.

Lemma wrap_nonneg n c : (0 ≤ c)%Z → wrap n c = Z.to_nat c.
Proof. intros H. unfold wrap. destruct (Z.ltb_spec c 0); [lia|done]. Qed.

Lemma subarray_wrap a n rest c :
  shape a = n :: rest → (- Z.of_nat n ≤ c < Z.of_nat n)%Z →
  subarray a c =
    Ok (NDArray rest (take (size_of rest) (drop (wrap n c * size_of rest) (data a)))).
Proof.
  intros Hsh Hc. unfold subarray. rewrite Hsh. simpl.
  by rewrite norm_index_wrap.
Qed.

Lemma take_index_wrap resources board n rest :
  shape resources = n :: rest →
  Forall (λ c, (- Z.of_nat n ≤ c < Z.of_nat n)%Z) (data board) →
  take_index resources board =
    Ok (NDArray (shape board ++ rest)
          (concat ((λ c, take (size_of rest)
                           (drop (wrap n c * size_of rest) (data resources)))
                   <$> data board))).
Proof.
  intros Hsh Hall. unfold take_index. rewrite Hsh.
  rewrite (for_each_Ok _ (λ c, take (size_of rest)
             (drop (wrap n c * size_of rest) (data resources)))); [done|].
  eapply List.Forall_impl; [|exact Hall]. intros c Hc. simpl.
  by erewrite subarray_wrap.
Qed.

(** ** The compositor, pixel by pixel *)

Lemma transpose_02134_lookup a d0 d1 d2 d3 d4 :
  shape a = [d0; d1; d2; d3; d4] →
  ∃ t, transpose_02134 a = Ok t ∧ shape t = [d0; d2; d1; d3; d4] ∧
    length (data t) = size_of [d0; d2; d1; d3; d4] ∧
    ∀ i0 i1 i2 i3 i4, i0 < d0 → i1 < d1 → i2 < d2 → i3 < d3 → i4 < d4 →
      data t !! ravel [d0; d2; d1; d3; d4] [i0; i2; i1; i3; i4] =
      Some (nth (ravel [d0; d1; d2; d3; d4] [i0; i1; i2; i3; i4]) (data a) 0%Z).
Proof.
  intros Hsh. unfold transpose_02134. rewrite Hsh.
  eexists. split; [reflexivity|]. split; [reflexivity|]. split.
  { cbn [data]. by rewrite length_fmap, length_seq. }
  intros i0 i1 i2 i3 i4 H0 H1 H2 H3 H4. cbn [data].
  assert (Hin : in_bounds [d0; d2; d1; d3; d4] [i0; i2; i1; i3; i4] = true).
  { simpl. rewrite !andb_true_iff, !Nat.ltb_lt. done. }
  rewrite list_lookup_fmap, lookup_seq_lt by (by apply ravel_lt).
  rewrite Nat.add_0_l. cbn [fmap option_fmap option_map].
  by rewrite (unravel_ravel _ _ Hin).
Qed.

Lemma render_preprocessed_board_pixels board resources rows cols n h w ch :
  shape board = [rows; cols] → wf_array board →
  shape resources = [n; h; w; ch] → wf_array resources →
  Forall (λ c, (- Z.of_nat n ≤ c < Z.of_nat n)%Z) (data board) →
  ∃ img, render_preprocessed_board board resources = Ok img ∧
    shape img = [rows * h; cols * w; ch] ∧ wf_array img ∧
    ∀ r c i j k code, r < rows → c < cols → i < h → j < w → k < ch →
      data board !! (r * cols + c) = Some code →
      data img !! (((r * h + i) * (cols * w) + (c * w + j)) * ch + k) =
      data resources !! (((wrap n code * h + i) * w + j) * ch + k).
Proof.
  intros Hb Hwb Hr Hwr Hall.
  unfold render_preprocessed_board.
  rewrite (take_index_wrap _ _ _ _ Hr Hall). rewrite Hb.
  cbn [mbind result_bind app].
  match goal with |- context [transpose_02134 ?a] => set (inter1 := a) end.
  destruct (transpose_02134_lookup inter1 rows cols h w ch eq_refl)
    as (t & -> & Hst & Hlt & Ht).
  unfold shape_at. rewrite Hb, Hr. cbn [mbind result_bind lookup list_lookup].
  unfold reshape. rewrite Hst.
  assert (Hsz : size_of [rows * h; cols * w; ch] = size_of [rows; h; cols; w; ch])
    by (simpl; ring).
  rewrite Hsz, Nat.eqb_refl.
  eexists. split; [done|]. split; [done|]. split.
  { unfold wf_array. cbn [data shape]. rewrite Hlt. simpl. lia. }
  intros r c i j k code Hr' Hc' Hi Hj Hk Hcode. cbn [data].
  replace (((r * h + i) * (cols * w) + (c * w + j)) * ch + k)
    with (ravel [rows; h; cols; w; ch] [r; i; c; j; k]) by (simpl; ring).
  rewrite Ht by done.
  rewrite nth_lookup. subst inter1. cbn [data].
  replace (ravel [rows; cols; h; w; ch] [r; c; i; j; k])
    with ((r * cols + c) * size_of [h; w; ch] + ((i * w + j) * ch + k)) by (simpl; ring).
  assert (Ho : (i * w + j) * ch + k < size_of [h; w; ch]).
  { simpl. rewrite Nat.mul_1_r, Nat.mul_assoc. apply digit_lt; [by apply digit_lt|done]. }
  assert (Hwrap : wrap n code < n).
  { apply wrap_lt. rewrite Forall_lookup in Hall. by apply (Hall _ _ Hcode). }
  rewrite (lookup_concat_uniform _ (size_of [h; w; ch])); [|..|done].
  2:{ apply Forall_fmap. eapply List.Forall_impl; [|exact Hall].
      intros x Hx. cbn beta. apply length_take_drop.
      pose proof (wrap_lt _ _ Hx) as Hx'. unfold wf_array in Hwr. rewrite Hwr, Hr.
      change (size_of [n; h; w; ch]) with (n * size_of [h; w; ch]).
      apply Nat.mul_le_mono_r. lia. }
  rewrite list_lookup_fmap, Hcode. cbn [fmap option_fmap option_map mbind option_bind].
  rewrite lookup_take_drop by done.
  replace (((wrap n code * h + i) * w + j) * ch + k)
    with (wrap n code * size_of [h; w; ch] + ((i * w + j) * ch + k)) by (simpl; ring).
  destruct (lookup_lt_is_Some_2 (data resources)
              (wrap n code * size_of [h; w; ch] + ((i * w + j) * ch + k))) as [v Hv].
  { unfold wf_array in Hwr. rewrite Hwr, Hr.
    change (size_of [n; h; w; ch]) with (n * size_of [h; w; ch]).
    by apply digit_lt. }
  by rewrite Hv.
Qed.


(** C1: on a coded grid of valid atlas indices the compositor returns an
    image of shape (rows*sprite_size, cols*sprite_size, 3) in which the
    block of rows [r*s, (r+1)*s) and columns [c*s, (c+1)*s) is the sprite
    of cell (r, c), pixel for pixel; and the 2x2 grid [[0,1],[1,0]] over a
    (grey, white) atlas of 1x1 sprites composites to the checkerboard. *)
Theorem render_preprocessed_board_blocks :
  (∀ board resources rows cols n s,
     shape board = [rows; cols] → wf_array board →
     shape resources = [n; s; s; 3] → wf_array resources →
     Forall (λ c, (0 ≤ c < Z.of_nat n)%Z) (data board) →
     ∃ img, render_preprocessed_board board resources = Ok img ∧
       shape img = [rows * s; cols * s; 3] ∧ wf_array img ∧
       ∀ r c i j k, r < rows → c < cols → i < s → j < s → k < 3 →
         ∃ code v, item board [r; c] = Some code ∧
           item resources [Z.to_nat code; i; j; k] = Some v ∧
           item img [r * s + i; c * s + j; k] = Some v)
  ∧ (∀ grey white,
       render_preprocessed_board checker_codes (atlas2 grey white)
       = Ok (checkerboard grey white)).
Proof.
  split; [|reflexivity].
  intros board resources rows cols n s Hb Hwb Hr Hwr Hall.
  destruct (render_preprocessed_board_pixels board resources rows cols n s s 3)
    as (img & Himg & Hsh & Hwf & Hpx); try done.
  { eapply List.Forall_impl; [|exact Hall]. simpl. lia. }
  exists img. repeat split; try done.
  intros r c i j k Hr' Hc' Hi Hj Hk.
  destruct (lookup_lt_is_Some_2 (data board) (r * cols + c)) as [code Hcode].
  { unfold wf_array in Hwb. rewrite Hwb, Hb. simpl. rewrite Nat.mul_1_r.
    by apply digit_lt. }
  assert (Hrange : (0 ≤ code < Z.of_nat n)%Z).
  { rewrite Forall_lookup in Hall. by apply (Hall _ _ Hcode). }
  specialize (Hpx r c i j k code Hr' Hc' Hi Hj Hk Hcode).
  rewrite wrap_nonneg in Hpx by lia.
  destruct (lookup_lt_is_Some_2 (data resources)
              (((Z.to_nat code * s + i) * s + j) * 3 + k)) as [v Hv].
  { unfold wf_array in Hwr. rewrite Hwr, Hr.
    replace (size_of [n; s; s; 3]) with (n * s * s * 3) by (simpl; ring).
    apply digit_lt; [|done]. apply digit_lt; [|done]. apply digit_lt; [lia|done]. }
  exists code, v. unfold item. rewrite Hb, Hr, Hsh. simpl.
  repeat match goal with
         | |- context [?a <? ?b] =>
             replace (a <? b) with true by (symmetry; apply Nat.ltb_lt; first [lia | by apply digit_lt])
         end.
  simpl. split; [|split].
  - rewrite <- Hcode. f_equal. ring.
  - rewrite <- Hv. f_equal. ring.
  - rewrite <- Hv, <- Hpx. f_equal. ring.
Qed.

Lemma render_preprocessed_board_blocks_witness :
  ∃ img, render_preprocessed_board checker_codes (atlas2 128 255) = Ok img ∧
    shape img = [2 * 1; 2 * 1; 3] ∧ wf_array img ∧
    ∀ r c i j k, r < 2 → c < 2 → i < 1 → j < 1 → k < 3 →
      ∃ code v, item checker_codes [r; c] = Some code ∧
        item (atlas2 128 255) [Z.to_nat code; i; j; k] = Some v ∧
        item img [r * 1 + i; c * 1 + j; k] = Some v.
Proof.
  apply (proj1 render_preprocessed_board_blocks checker_codes (atlas2 128 255) 2 2 2 1);
    [reflexivity | reflexivity | reflexivity | reflexivity |].
  repeat constructor; simpl; lia.
Defined.

(** ** Pasting images *)

Lemma wf_image_new w h : wf_image (Image_new w h).
Proof. unfold wf_image. simpl. by rewrite length_replicate. Qed.

Lemma wf_image_paste dst im box : wf_image dst → wf_image (paste dst im box).
Proof. unfold wf_image. simpl. by rewrite length_imap. Qed.

Lemma pixel_offset w x y : x < w → (y * w + x) mod w = x ∧ (y * w + x) / w = y.
Proof.
  intros Hx. split.
  - rewrite Nat.add_comm, Nat.Div0.mod_add. by apply Nat.mod_small.
  - rewrite Nat.div_add_l by lia. rewrite Nat.div_small by done. lia.
Qed.

Lemma getpixel_in_range im x y :
  wf_image im → x < width im → y < height im →
  getpixel im (x, y) = Some (nth (y * width im + x) (pixels im) black).
Proof.
  intros Hwf Hx Hy. unfold getpixel. simpl.
  apply Nat.ltb_lt in Hx as Hx'. apply Nat.ltb_lt in Hy as Hy'. rewrite Hx', Hy'. simpl.
  rewrite nth_lookup.
  destruct (lookup_lt_is_Some_2 (pixels im) (y * width im + x)) as [v ->]; [|done].
  rewrite Hwf, (Nat.mul_comm (width im)). by apply digit_lt.
Qed.

Lemma getpixel_new w h x y : x < w → y < h → getpixel (Image_new w h) (x, y) = Some black.
Proof.
  intros Hx Hy. unfold getpixel. simpl.
  apply Nat.ltb_lt in Hx as Hx'. apply Nat.ltb_lt in Hy as Hy'. rewrite Hx', Hy'. simpl.
  apply lookup_replicate_2. rewrite (Nat.mul_comm w). by apply digit_lt.
Qed.

Lemma getpixel_paste dst im bx by' x y :
  wf_image dst → wf_image im → x < width dst → y < height dst →
  getpixel (paste dst im (bx, by')) (x, y) =
    if (bx <=? x) && (x <? bx + width im) && (by' <=? y) && (y <? by' + height im)
    then getpixel im (x - bx, y - by') else getpixel dst (x, y).
Proof.
  intros Hd Hi Hx Hy.
  rewrite (getpixel_in_range dst) by done.
  unfold getpixel at 1. simpl.
  apply Nat.ltb_lt in Hx as Hx'. apply Nat.ltb_lt in Hy as Hy'. rewrite Hx', Hy'. simpl.
  rewrite list_lookup_imap.
  destruct (pixel_offset (width dst) x y Hx) as [-> ->].
  destruct (lookup_lt_is_Some_2 (pixels dst) (y * width dst + x)) as [v Hv].
  { rewrite Hd, (Nat.mul_comm (width dst)). by apply digit_lt. }
  rewrite Hv. simpl.
  destruct (_ && _) eqn:Hbox.
  - rewrite !andb_true_iff, !Nat.leb_le, !Nat.ltb_lt in Hbox.
    rewrite getpixel_in_range by (done || lia). done.
  - by rewrite nth_lookup, Hv.
Qed.

Lemma get_concat_h_size im1 im2 :
  width (get_concat_h im1 im2) = width im1 + width im2 ∧
  height (get_concat_h im1 im2) = height im1 ∧
  wf_image (get_concat_h im1 im2).
Proof. repeat split. apply wf_image_paste, wf_image_paste, wf_image_new. Qed.

Lemma get_concat_v_size im1 im2 :
  width (get_concat_v im1 im2) = width im1 ∧
  height (get_concat_v im1 im2) = height im1 + height im2 ∧
  wf_image (get_concat_v im1 im2).
Proof. repeat split. apply wf_image_paste, wf_image_paste, wf_image_new. Qed.

Ltac solve_box :=
  repeat match goal with
         | |- context [?a <=? ?b] =>
             first [ replace (a <=? b) with true by (symmetry; apply Nat.leb_le; lia)
                   | replace (a <=? b) with false by (symmetry; apply Nat.leb_gt; lia) ]
         | |- context [?a <? ?b] =>
             first [ replace (a <? b) with true by (symmetry; apply Nat.ltb_lt; lia)
                   | replace (a <? b) with false by (symmetry; apply Nat.ltb_ge; lia) ]
         end;
  rewrite ?andb_true_r, ?andb_false_r; cbn [andb orb negb].

Lemma get_concat_h_left im1 im2 x y :
  wf_image im1 → wf_image im2 → x < width im1 → y < height im1 →
  getpixel (get_concat_h im1 im2) (x, y) = getpixel im1 (x, y).
Proof.
  intros H1 H2 Hx Hy. unfold get_concat_h.
  rewrite getpixel_paste; simpl; try done; try lia.
  2:{ apply wf_image_paste, wf_image_new. }
  solve_box.
  rewrite getpixel_paste; simpl; try done; try lia.
  2:{ apply wf_image_new. }
  solve_box. by rewrite !Nat.sub_0_r.
Qed.

Lemma get_concat_h_right im1 im2 x y :
  wf_image im1 → wf_image im2 → x < width im2 → y < height im1 → y < height im2 →
  getpixel (get_concat_h im1 im2) (width im1 + x, y) = getpixel im2 (x, y).
Proof.
  intros H1 H2 Hx Hy Hy'. unfold get_concat_h.
  rewrite getpixel_paste; simpl; try done; try lia.
  2:{ apply wf_image_paste, wf_image_new. }
  solve_box. f_equal. f_equal; lia.
Qed.

Lemma get_concat_v_top im1 im2 x y :
  wf_image im1 → wf_image im2 → x < width im1 → y < height im1 →
  getpixel (get_concat_v im1 im2) (x, y) = getpixel im1 (x, y).
Proof.
  intros H1 H2 Hx Hy. unfold get_concat_v.
  rewrite getpixel_paste; simpl; try done; try lia.
  2:{ apply wf_image_paste, wf_image_new. }
  solve_box.
  rewrite getpixel_paste; simpl; try done; try lia.
  2:{ apply wf_image_new. }
  solve_box. by rewrite !Nat.sub_0_r.
Qed.

Lemma get_concat_v_bottom im1 im2 x y :
  wf_image im1 → wf_image im2 → x < width im1 → x < width im2 → y < height im2 →
  getpixel (get_concat_v im1 im2) (x, height im1 + y) = getpixel im2 (x, y).
Proof.
  intros H1 H2 Hx Hx' Hy. unfold get_concat_v.
  rewrite getpixel_paste; simpl; try done; try lia.
  2:{ apply wf_image_paste, wf_image_new. }
  solve_box. f_equal. f_equal; lia.
Qed.

(** C8: four images of one size tile into an image twice as wide and twice
    as high, image 0 top-left, image 1 bottom-left, image 2 top-right and
    image 3 bottom-right (so four 8x8 images give a 16x16 image); two images
    are put side by side, the first on the left. *)
Theorem tile_four_images_layout :
  (∀ im0 im1 im2 im3 w h,
     Forall (λ im, wf_image im ∧ width im = w ∧ height im = h) [im0; im1; im2; im3] →
     ∃ t, tile_four_images [im0; im1; im2; im3] = Ok t ∧
       width t = 2 * w ∧ height t = 2 * h ∧
       ∀ x y, x < w → y < h →
         getpixel t (x, y) = getpixel im0 (x, y) ∧
         getpixel t (x, h + y) = getpixel im1 (x, y) ∧
         getpixel t (w + x, y) = getpixel im2 (x, y) ∧
         getpixel t (w + x, h + y) = getpixel im3 (x, y))
  ∧ (∀ im1 im2,
       wf_image im1 → wf_image im2 →
       width (get_concat_h im1 im2) = width im1 + width im2 ∧
       height (get_concat_h im1 im2) = height im1 ∧
       ∀ x y,
         (x < width im1 → y < height im1 →
          getpixel (get_concat_h im1 im2) (x, y) = getpixel im1 (x, y)) ∧
         (x < width im2 → y < height im1 → y < height im2 →
          getpixel (get_concat_h im1 im2) (width im1 + x, y) = getpixel im2 (x, y))).
Proof.
  split.
  - intros im0 im1 im2 im3 w h Hall.
    rewrite !list.Forall_cons in Hall.
    destruct Hall as ((W0 & Hw0 & Hh0) & (W1 & Hw1 & Hh1) & (W2 & Hw2 & Hh2)
                      & (W3 & Hw3 & Hh3) & _).
    eexists. split; [reflexivity|].
    destruct (get_concat_v_size im0 im1) as (Lw & Lh & Lwf).
    destruct (get_concat_v_size im2 im3) as (Rw & Rh & Rwf).
    split; [|split].
    + simpl. lia.
    + simpl. lia.
    + intros x y Hx Hy. repeat split.
      * rewrite get_concat_h_left by (done || lia).
        apply get_concat_v_top; (done || lia).
      * rewrite get_concat_h_left by (done || lia).
        rewrite <- Hh0. apply get_concat_v_bottom; (done || lia).
      * rewrite <- Hw0, <- Lw.
        rewrite get_concat_h_right by (done || lia).
        apply get_concat_v_top; (done || lia).
      * rewrite <- Hw0, <- Lw.
        rewrite get_concat_h_right by (done || lia).
        rewrite <- Hh2. apply get_concat_v_bottom; (done || lia).
  - intros im1 im2 H1 H2. split; [done|]. split; [done|].
    intros x y. split.
    + by apply get_concat_h_left.
    + by apply get_concat_h_right.
Qed.

Lemma tile_four_images_layout_witness :
  ∃ t, tile_four_images [dot 10; dot 20; dot 30; dot 40] = Ok t ∧
    width t = 2 * 1 ∧ height t = 2 * 1 ∧
    ∀ x y, x < 1 → y < 1 →
      getpixel t (x, y) = getpixel (dot 10) (x, y) ∧
      getpixel t (x, 1 + y) = getpixel (dot 20) (x, y) ∧
      getpixel t (1 + x, y) = getpixel (dot 30) (x, y) ∧
      getpixel t (1 + x, 1 + y) = getpixel (dot 40) (x, y).
Proof.
  apply (proj1 tile_four_images_layout (dot 10) (dot 20) (dot 30) (dot 40) 1 1).
  repeat constructor.
Defined.

(** ** Tiling the observations *)

Lemma for_each_length {A B} (f : A → result B) l l' :
  for_each f l = Ok l' → length l' = length l.
Proof.
  revert l'. induction l as [|x l IH]; intros l'; simpl.
  - by intros [= <-].
  - destruct (f x) as [y|e]; simpl; [|done].
    destruct (for_each f l) as [ys|e]; simpl; [|done].
    intros [= <-]. simpl. f_equal. by apply IH.
Qed.

Lemma fromarray_frame o h w :
  shape o = [h; w; 3] →
  fromarray o = Ok {| width := w; height := h; pixels := group3 (data o) |}.
Proof. intros Ho. unfold fromarray. by rewrite Ho. Qed.

Lemma for_each_fromarray obs :
  Forall (λ o, ∃ h w, shape o = [h; w; 3]) obs →
  ∃ images, for_each fromarray obs = Ok images ∧ length images = length obs.
Proof.
  induction 1 as [|o obs (h & w & Ho) _ (images & Himg & Hlen)]; cbn [for_each].
  - by exists [].
  - rewrite (fromarray_frame _ _ _ Ho), Himg. simpl.
    eexists. split; [done|]. simpl. by rewrite Hlen.
Qed.

(** C10: on a list of frames whose length is neither 2 nor 4 the tiling
    method raises nothing and returns None; whenever it returns an image the
    list had 2 or 4 frames, and for those lengths it does return one. *)
Theorem render_tiled_observations_other_lengths (obs : list ndarray) :
  Forall (λ o, ∃ h w, shape o = [h; w; 3]) obs →
  (length obs ≠ 2 → length obs ≠ 4 → render_tiled_observations obs = Ok None) ∧
  (∀ im, render_tiled_observations obs = Ok (Some im) → length obs = 2 ∨ length obs = 4) ∧
  (length obs = 2 ∨ length obs = 4 → ∃ im, render_tiled_observations obs = Ok (Some im)).
Proof.
  intros Hall. destruct (for_each_fromarray obs Hall) as (images & Himg & Hlen).
  unfold render_tiled_observations. rewrite Himg. simpl. rewrite Hlen.
  destruct (Nat.eqb_spec (length obs) 4) as [H4|H4];
    [|destruct (Nat.eqb_spec (length obs) 2) as [H2|H2]].
  - rewrite H4 in Hlen.
    destruct images as [|i0 [|i1 [|i2 [|i3 [|]]]]]; simplify_eq/=.
    split; [intros; lia|]. split; [auto|]. intros _. eauto.
  - rewrite H2 in Hlen.
    destruct images as [|i0 [|i1 [|]]]; simplify_eq/=.
    split; [intros; lia|]. split; [auto|]. intros _. eauto.
  - split; [done|]. split; [done|]. intros; lia.
Qed.

Lemma render_tiled_observations_other_lengths_witness :
  (length three_frames ≠ 2 → length three_frames ≠ 4 →
   render_tiled_observations three_frames = Ok None) ∧
  (∀ im, render_tiled_observations three_frames = Ok (Some im) →
         length three_frames = 2 ∨ length three_frames = 4) ∧
  (length three_frames = 2 ∨ length three_frames = 4 →
   ∃ im, render_tiled_observations three_frames = Ok (Some im)).
Proof.
  apply (render_tiled_observations_other_lengths three_frames).
  repeat constructor; by exists 1, 1.
Defined.

(** ** The cache of the last raw observation *)

Section cache.
Context (len_FILE_NAMES len_BOMB_FILE_NAMES : nat) (Agent0 : Z).
Context {sim action extra : Type}.
Context (Pomme_reset : sim → store → list ref * sim * store).
Context (Pomme_step : action → sim → store → list ref * extra * sim * store).
Context (Pomme_board_size : sim → nat).

Lemma get_last_step_raw_raises (self : PommeGraphic sim) :
  get_last_step_raw self = Raise ResetNeeded ↔
  lastobs_raw self = None ∨ lastobs_raw self = Some [].
Proof.
  unfold get_last_step_raw. destruct (lastobs_raw self) as [obs|].
  - case_bool_decide as Hobs.
    + subst obs. split; [by right | done].
    + split; [done | by intros [?|[= ->]]].
  - split; [by left | done].
Qed.

Lemma reset_caches self st obs s' st1 :
  Pomme_reset (pomme self) st = (obs, s', st1) →
  lastobs_raw
    (reset len_FILE_NAMES len_BOMB_FILE_NAMES Agent0 Pomme_reset Pomme_board_size self st).1.2
  = Some obs.
Proof.
  intros Hsim. unfold reset. rewrite Hsim.
  by destruct (redraw _ _ _ _ _ _ _).
Qed.

Lemma step_caches self actions st obs rest s' st1 :
  Pomme_step actions (pomme self) st = (obs, rest, s', st1) →
  lastobs_raw
    (step len_FILE_NAMES len_BOMB_FILE_NAMES Agent0 Pomme_step Pomme_board_size
       self actions st).1.2
  = Some obs.
Proof.
  intros Hsim. unfold step. rewrite Hsim.
  by destruct (redraw _ _ _ _ _ _ _).
Qed.

(** The getter tests the truth value of the cache: it raises ResetNeeded
    exactly when the cache is None or an empty list.  A new environment
    has the cache None, and after a reset or a step whose observation list
    is not empty the getter returns that list, whether or not the redraw
    raised. *)
Theorem get_last_step_raw_cached :
  (∀ self : PommeGraphic sim,
     get_last_step_raw self = Raise ResetNeeded ↔
     lastobs_raw self = None ∨ lastobs_raw self = Some []) ∧
  (∀ (s : sim) size res, get_last_step_raw (init s size res) = Raise ResetNeeded) ∧
  (∀ self st obs s' st1,
     Pomme_reset (pomme self) st = (obs, s', st1) → obs ≠ [] →
     get_last_step_raw
       (reset len_FILE_NAMES len_BOMB_FILE_NAMES Agent0 Pomme_reset Pomme_board_size
          self st).1.2
     = Ok obs) ∧
  (∀ self actions st obs rest s' st1,
     Pomme_step actions (pomme self) st = (obs, rest, s', st1) → obs ≠ [] →
     get_last_step_raw
       (step len_FILE_NAMES len_BOMB_FILE_NAMES Agent0 Pomme_step Pomme_board_size
          self actions st).1.2
     = Ok obs).
Proof.
  split; [apply get_last_step_raw_raises|]. split; [done|]. split.
  - intros self st obs s' st1 Hsim Hne. unfold get_last_step_raw.
    rewrite (reset_caches _ _ _ _ _ Hsim). by rewrite bool_decide_eq_false_2.
  - intros self actions st obs rest s' st1 Hsim Hne. unfold get_last_step_raw.
    rewrite (step_caches _ _ _ _ _ _ _ Hsim). by rewrite bool_decide_eq_false_2.
Qed.
End cache.

Lemma get_last_step_raw_cached_witness :
  get_last_step_raw
    (reset 14 5 10 two_agent_reset (λ _, 2) two_agent_env two_agent_store).1.2
  = Ok [0; 1].
Proof.
  apply (proj1 (proj2 (proj2
           (get_last_step_raw_cached 14 5 10 two_agent_reset two_agent_step (λ _, 2))))
           two_agent_env two_agent_store [0; 1] tt two_agent_store);
    [reflexivity | discriminate].
Defined.

(** C7: an environment whose simulator has no agents returns an empty
    observation list from reset.  The reset returns normally, with no
    frames, and stores that list in the cache; the getter called after it
    still raises ResetNeeded, the error of a call before any reset. *)
Theorem get_last_step_raw_empty_reset :
  (reset 28 10 10 no_agent_reset (λ _, 11) (init tt 1 blank_atlas) (Store [] [])).1.1
    = Ok []
  ∧ lastobs_raw (reset 28 10 10 no_agent_reset (λ _, 11) (init tt 1 blank_atlas)
                   (Store [] [])).1.2 = Some []
  ∧ get_last_step_raw
      (reset 28 10 10 no_agent_reset (λ _, 11) (init tt 1 blank_atlas) (Store [] [])).1.2
    = Raise ResetNeeded.
Proof. repeat split; reflexivity. Qed.

(** ** Rows, views and single cells *)

Lemma fill_row_single a n lo hi v :
  shape a = [1; n] →
  ∃ a', fill_row a 0 lo hi v = Ok a' ∧ shape a' = [1; n] ∧
    length (data a') = length (data a) ∧
    ∀ x, x < n →
      data a' !! x =
        (λ old, if (slice_bound n lo <=? x) && (x <? slice_bound n hi) then v else old)
        <$> data a !! x.
Proof.
  intros Hsh. unfold fill_row. rewrite Hsh. cbn [mbind result_bind norm_index].
  eexists. split; [reflexivity|]. split; [done|]. split.
  { cbn [data]. by rewrite length_imap. }
  intros x Hx. cbn [data]. rewrite list_lookup_imap.
  rewrite Nat.div_small, Nat.mod_small by done. done.
Qed.

Lemma flip_axis1_lookup a d0 d1 rest :
  shape a = d0 :: d1 :: rest →
  ∃ a', flip_axis1 a = Ok a' ∧ shape a' = shape a ∧
    length (data a') = d0 * (d1 * size_of rest) ∧
    ∀ y x o, y < d0 → x < d1 → o < size_of rest →
      data a' !! ((y * d1 + x) * size_of rest + o) =
      Some (nth ((y * d1 + (d1 - 1 - x)) * size_of rest + o) (data a) 0%Z).
Proof.
  intros Hsh. unfold flip_axis1. rewrite Hsh.
  eexists. split; [reflexivity|]. split; [done|]. split.
  { cbn [data]. rewrite length_fmap, length_seq. simpl. lia. }
  intros y x o Hy Hx Ho. cbn [data].
  set (sh := [d0; d1; size_of rest]).
  assert (Hin : in_bounds sh [y; x; o] = true).
  { simpl. rewrite !andb_true_iff, !Nat.ltb_lt. done. }
  replace ((y * d1 + x) * size_of rest + o) with (ravel sh [y; x; o]) by (simpl; ring).
  rewrite list_lookup_fmap, lookup_seq_lt by (by apply ravel_lt).
  rewrite Nat.add_0_l. cbn [fmap option_fmap option_map].
  rewrite (unravel_ravel _ _ Hin). f_equal. f_equal. simpl. ring.
Qed.

Lemma flip_axis1_single a n :
  shape a = [1; n] → length (data a) = n →
  ∃ a', flip_axis1 a = Ok a' ∧ shape a' = [1; n] ∧ length (data a') = n ∧
    ∀ x, x < n → data a' !! x = data a !! (n - 1 - x).
Proof.
  intros Hsh Hlen.
  destruct (flip_axis1_lookup a 1 n [] Hsh) as (a' & Ha' & Hsh' & Hlen' & Hlk).
  exists a'. split; [done|]. split; [congruence|]. split; [simpl in Hlen'; lia|].
  intros x Hx.
  replace (data a' !! x) with (data a' !! ((0 * n + x) * size_of [] + 0))
    by (f_equal; simpl; lia).
  rewrite Hlk by (simpl; lia).
  replace ((0 * n + (n - 1 - x)) * size_of [] + 0) with (n - 1 - x) by (simpl; lia).
  rewrite nth_lookup.
  destruct (lookup_lt_is_Some_2 (data a) (n - 1 - x)) as [v ->]; [lia|done].
Qed.

Lemma set_item2_single a n c v :
  shape a = [1; n] → (0 ≤ c < Z.of_nat n)%Z →
  set_item2 a (0%Z, c) v = Ok (NDArray [1; n] (<[Z.to_nat c := v]> (data a))).
Proof.
  intros Hsh Hc. unfold set_item2. rewrite Hsh. cbn [fst snd].
  rewrite (norm_index_wrap n c) by lia. rewrite wrap_nonneg by lia.
  cbn [mbind result_bind norm_index]. done.
Qed.

(** ** The dashboard codes *)

Lemma slice_bound_0 n : slice_bound n 0 = 0.
Proof. unfold slice_bound. simpl. lia. Qed.

Lemma slice_bound_nonneg n i : (0 ≤ i)%Z → slice_bound n i = Nat.min (Z.to_nat i) n.
Proof. intros Hi. unfold slice_bound. destruct (Z.ltb_spec i 0); lia. Qed.

Lemma centre_column n : 0 < n → (0 ≤ Z.of_nat n / 2 < Z.of_nat n)%Z ∧ Z.to_nat (Z.of_nat n / 2) = n / 2.
Proof.
  intros Hn. split.
  - split; [apply Z.div_pos; lia|]. apply Z.div_lt_upper_bound; lia.
  - change 2%Z with (Z.of_nat 2). rewrite <- Nat2Z.inj_div. apply Nat2Z.id.
Qed.

Lemma conversion_array_codes NB obs n :
  0 < n →
  ∃ codes, conversion_array NB obs n = Ok (NDArray [1; n] codes) ∧ length codes = n ∧
    ∀ x, x < n →
      codes !! x =
        Some (if x =? n / 2 then (if (0 <? can_kick obs)%Z then 8 else -1)%Z
              else if n - 1 - x <? slice_bound n ((dash_ammo NB obs n + 1) / 2)
                   then ammo_sprite
              else if x <? slice_bound n ((dash_blast_strength NB obs n + 1) / 2)
                   then bs_sprite
              else (-1)%Z).
Proof.
  intros Hn. unfold conversion_array.
  set (a0 := NDArray [1; n] (replicate n (-1)%Z)).
  destruct (fill_row_single a0 n 0 ((dash_blast_strength NB obs n + 1) / 2) bs_sprite eq_refl)
    as (a1 & -> & Hs1 & Hl1 & Hk1).
  cbn [mbind result_bind].
  assert (Hlen1 : length (data a1) = n) by (rewrite Hl1; apply length_replicate).
  destruct (flip_axis1_single a1 n Hs1 Hlen1) as (v & -> & Hsv & Hlv & Hkv).
  cbn [mbind result_bind].
  destruct (fill_row_single v n 0 ((dash_ammo NB obs n + 1) / 2) ammo_sprite Hsv)
    as (v' & -> & Hsv' & Hlv' & Hkv').
  cbn [mbind result_bind].
  assert (Hlen' : length (data v') = n) by congruence.
  destruct (flip_axis1_single v' n Hsv' Hlen') as (a2 & -> & Hs2 & Hl2 & Hk2).
  cbn [mbind result_bind].
  destruct (centre_column n Hn) as [Hc Hc'].
  rewrite (set_item2_single a2 n _ _ Hs2 Hc), Hc'.
  eexists. split; [reflexivity|]. split; [by rewrite length_insert|].
  intros x Hx. destruct (Nat.eqb_spec x (n / 2)) as [->|Hne].
  - apply list_lookup_insert_eq. lia.
  - rewrite list_lookup_insert_ne by done.
    rewrite Hk2, Hkv' by lia. rewrite Hkv by lia.
    replace (n - 1 - (n - 1 - x)) with x by lia.
    rewrite Hk1 by lia. subst a0. cbn [data].
    rewrite lookup_replicate_2 by lia. rewrite !slice_bound_0. done.
Qed.

Lemma board_size_bounds n :
  (n mod 2 = 1 → ammo_bound n = (Z.of_nat n - 1)%Z ∧ blast_bound n = (Z.of_nat n - 1)%Z) ∧
  (n mod 2 = 0 → ammo_bound n = (Z.of_nat n - 2)%Z ∧ blast_bound n = Z.of_nat n).
Proof.
  unfold ammo_bound, blast_bound.
  destruct (Z.eqb_spec (Z.of_nat n mod 2) 1) as [H|H]; split; intros Hn; split; dlia.
Qed.

Lemma dash_ammo_range NB obs n :
  0 < n → (0 ≤ ammo obs)%Z →
  (0 ≤ dash_ammo NB obs n)%Z ∧ Z.to_nat ((dash_ammo NB obs n + 1) / 2) < n - n / 2.
Proof.
  intros Hn Ha. unfold dash_ammo, min3, ammo_bound.
  destruct (Z.eqb_spec (Z.of_nat n mod 2) 1) as [H|H]; dlia.
Qed.

(** C3 (amended): the two clamps are the minimum of the declared value, the
    number of bomb sprites and a board-size bound; the bound of the ammo
    clamp equals that of the blast-strength clamp (board_size - 1) when
    board_size is odd and is 2 less (board_size - 2 against board_size) when
    it is even; the cells that hold the ammo sprite index are exactly the
    last ceil(clamped_ammo/2) columns. *)
Theorem dashboard_ammo_clamp (NB : nat) (obs : observation) (n : nat) :
  0 < n → (0 ≤ ammo obs)%Z →
  dash_ammo NB obs n = Z.min (ammo obs) (Z.min (Z.of_nat NB) (ammo_bound n)) ∧
  dash_blast_strength NB obs n =
    Z.min (blast_strength obs) (Z.min (Z.of_nat NB) (blast_bound n)) ∧
  (n mod 2 = 1 → ammo_bound n = (Z.of_nat n - 1)%Z ∧ blast_bound n = (Z.of_nat n - 1)%Z) ∧
  (n mod 2 = 0 → ammo_bound n = (Z.of_nat n - 2)%Z ∧ blast_bound n = Z.of_nat n) ∧
  ∃ codes, conversion_array NB obs n = Ok (NDArray [1; n] codes) ∧ length codes = n ∧
    Z.to_nat ((dash_ammo NB obs n + 1) / 2) ≤ n ∧
    ∀ x, x < n →
      (codes !! x = Some ammo_sprite ↔ n - Z.to_nat ((dash_ammo NB obs n + 1) / 2) ≤ x).
Proof.
  intros Hn Ha. split; [done|]. split; [done|].
  destruct (board_size_bounds n) as [Hodd Heven]. split; [done|]. split; [done|].
  destruct (conversion_array_codes NB obs n Hn) as (codes & Hcodes & Hlen & Hlk).
  destruct (dash_ammo_range NB obs n Hn Ha) as [H0 Hk].
  exists codes. split; [done|]. split; [done|]. split; [lia|].
  intros x Hx. rewrite (Hlk x Hx).
  rewrite slice_bound_nonneg by dlia.
  set (k := Z.to_nat ((dash_ammo NB obs n + 1) / 2)) in *.
  assert (Hhalf : n / 2 < n) by dlia.
  destruct (Nat.eqb_spec x (n / 2)) as [->|Hne].
  - split; [|lia]. destruct (0 <? can_kick obs)%Z; by intros [=].
  - destruct (Nat.ltb_spec (n - 1 - x) (Nat.min k n)) as [Hlt|Hge].
    + split; [lia | done].
    + split; [|lia]. destruct (_ <? _); by intros [=].
Qed.

Lemma dashboard_ammo_clamp_witness :
  ∃ codes,
    conversion_array 10 armed_status 11
      = Ok (NDArray [1; 11] codes) ∧ length codes = 11 ∧
    Z.to_nat ((dash_ammo 10 armed_status 11 + 1) / 2) ≤ 11 ∧
    ∀ x, x < 11 →
      (codes !! x = Some ammo_sprite ↔
       11 - Z.to_nat ((dash_ammo 10 armed_status 11 + 1) / 2) ≤ x).
Proof.
  apply (dashboard_ammo_clamp 10 armed_status 11); simpl; lia.
Defined.

(** On the standard 11-wide board, an odd size, the two board-size bounds
    are the same number: they do not differ by 1. *)
Lemma ammo_bound_odd_board :
  11 mod 2 = 1 ∧ ammo_bound 11 = blast_bound 11 ∧ Z.abs (blast_bound 11 - ammo_bound 11) ≠ 1%Z.
Proof. repeat split. discriminate. Qed.

(** ** Image arrays, pixel by pixel *)

Lemma ravel3 H W C y x k : ravel [H; W; C] [y; x; k] = (y * W + x) * C + k.
Proof. simpl. ring. Qed.

Lemma in_bounds3 H W C y x k :
  y < H → x < W → k < C → in_bounds [H; W; C] [y; x; k] = true.
Proof. intros. simpl. rewrite !andb_true_iff, !Nat.ltb_lt. done. Qed.

Lemma ravel3_lt H W C y x k : y < H → x < W → k < C → (y * W + x) * C + k < H * W * C.
Proof. intros. apply digit_lt; [by apply digit_lt|done]. Qed.

Lemma item3 a H W C y x k :
  shape a = [H; W; C] → y < H → x < W → k < C →
  item a [y; x; k] = data a !! ((y * W + x) * C + k).
Proof.
  intros Hsh Hy Hx Hk. unfold item. rewrite Hsh, in_bounds3 by done.
  by rewrite ravel3.
Qed.

Lemma fill_cols_lookup a H W C x0 x1 v :
  shape a = [H; W; C] →
  ∃ a', fill_cols a x0 x1 v = Ok a' ∧ shape a' = [H; W; C] ∧
    length (data a') = length (data a) ∧
    ∀ y x k, y < H → x < W → k < C →
      data a' !! ((y * W + x) * C + k) =
        (λ old, if (slice_bound W x0 <=? x) && (x <? slice_bound W x1) then v else old)
        <$> data a !! ((y * W + x) * C + k).
Proof.
  intros Hsh. unfold fill_cols. rewrite Hsh.
  eexists. split; [reflexivity|]. split; [done|]. split.
  { cbn [data]. by rewrite length_imap. }
  intros y x k Hy Hx Hk. cbn [data].
  rewrite <- (ravel3 H W C), list_lookup_imap.
  by rewrite (unravel_ravel _ _ (in_bounds3 H W C y x k Hy Hx Hk)).
Qed.

Lemma flip_axis1_image a H W C :
  shape a = [H; W; C] → length (data a) = H * W * C →
  ∃ a', flip_axis1 a = Ok a' ∧ shape a' = [H; W; C] ∧ length (data a') = H * W * C ∧
    ∀ y x k, y < H → x < W → k < C →
      data a' !! ((y * W + x) * C + k) = data a !! ((y * W + (W - 1 - x)) * C + k).
Proof.
  intros Hsh Hlen.
  destruct (flip_axis1_lookup a H W [C] Hsh) as (a' & Ha' & Hsh' & Hlen' & Hlk).
  replace (size_of [C]) with C in * by (simpl; lia).
  exists a'. split; [done|]. split; [congruence|]. split; [lia|].
  intros y x k Hy Hx Hk. rewrite Hlk by done. rewrite nth_lookup.
  destruct (lookup_lt_is_Some_2 (data a) ((y * W + (W - 1 - x)) * C + k)) as [v ->];
    [|done].
  rewrite Hlen. apply ravel3_lt; lia.
Qed.

Lemma sum_list_zero l : Forall (λ v, v = 0%Z) l → sum_list l = 0%Z.
Proof. induction 1 as [|v l -> _ IH]; simpl; [done|]. by rewrite IH. Qed.

Lemma mean_axis2_lookup a H W C :
  shape a = [H; W; C] →
  ∃ m, mean_axis2 a = Ok m ∧ shape m = [H; W; 1] ∧ length (data m) = H * W ∧
    ∀ y x, y < H → x < W →
      data m !! (y * W + x) =
      Some (sum_list (take C (drop ((y * W + x) * C) (data a))) / Z.of_nat C)%Z.
Proof.
  intros Hsh. unfold mean_axis2. rewrite Hsh.
  eexists. split; [reflexivity|]. split; [done|]. split.
  { cbn [data]. by rewrite length_fmap, length_seq. }
  intros y x Hy Hx. cbn [data].
  rewrite list_lookup_fmap, lookup_seq_lt by (by apply digit_lt). done.
Qed.

Lemma bcast_id d i : i < d → bcast d i = i.
Proof. intros Hi. unfold bcast. destruct (Nat.eqb_spec d 1); lia. Qed.

Lemma assign_all_grey a m H W C :
  shape a = [H; W; C] → shape m = [H; W; 1] → length (data m) = H * W →
  ∃ a', assign_all a m = Ok a' ∧ shape a' = [H; W; C] ∧
    length (data a') = length (data a) ∧
    ∀ y x k, y < H → x < W → k < C →
      is_Some (data a !! ((y * W + x) * C + k)) →
      data a' !! ((y * W + x) * C + k) = data m !! (y * W + x).
Proof.
  intros Hsh Hm Hlen. unfold assign_all, shape_at. rewrite Hsh.
  cbn [lookup list_lookup mbind result_bind].
  unfold assign_block. rewrite Hsh, Hm.
  rewrite !slice_bound_0, !slice_bound_nonneg by lia.
  rewrite !Nat2Z.id, !Nat.min_id, !Nat.sub_0_r.
  unfold broadcastable. rewrite !Nat.eqb_refl. cbn [orb andb].
  rewrite orb_true_r.
  eexists. split; [reflexivity|]. split; [done|]. split.
  { cbn [data]. by rewrite length_imap. }
  intros y x k Hy Hx Hk [v Hv]. cbn [data].
  rewrite <- (ravel3 H W C), list_lookup_imap.
  rewrite (unravel_ravel _ _ (in_bounds3 H W C y x k Hy Hx Hk)).
  rewrite (ravel3 H W C y x k), Hv. cbn [fmap option_fmap option_map].
  apply Nat.ltb_lt in Hy as Hy'. apply Nat.ltb_lt in Hx as Hx'. rewrite Hy', Hx'.
  cbn [andb Nat.leb]. rewrite !Nat.sub_0_r, !bcast_id by done.
  unfold bcast. cbn [Nat.eqb]. rewrite ravel3, Nat.mul_1_r, Nat.add_0_r, nth_lookup.
  destruct (lookup_lt_is_Some_2 (data m) (y * W + x)) as [g ->]; [|done].
  rewrite Hlen. by apply digit_lt.
Qed.

(** ** Half icons *)

Lemma half_icon_left_lookup count sc a H W C :
  shape a = [H; W; C] →
  ∃ a', half_icon_left count sc a = Ok a' ∧ shape a' = [H; W; C] ∧
    length (data a') = length (data a) ∧
    ∀ y x k, y < H → x < W → k < C →
      data a' !! ((y * W + x) * C + k) =
        (λ old, if sliver count sc W x then 0%Z else old) <$> data a !! ((y * W + x) * C + k).
Proof.
  intros Hsh. unfold half_icon_left, sliver.
  destruct (count mod 2 =? 1)%Z.
  - destruct (fill_cols_lookup a H W C
                (__offset (count / 2) sc + __half_texture sc)
                (__offset (count / 2 + 1) sc) 0 Hsh) as (a' & Ha' & Hs' & Hl' & Hk').
    exists a'. split; [done|]. split; [done|]. split; [done|].
    intros y x k Hy Hx Hk. by rewrite Hk'.
  - exists a. split; [done|]. split; [done|]. split; [done|].
    intros y x k _ _ _. cbn [andb]. by destruct (data a !! _).
Qed.

Lemma half_icon_right_lookup count sc a H W C :
  shape a = [H; W; C] → length (data a) = H * W * C →
  ∃ a', half_icon_right count sc a = Ok a' ∧ shape a' = [H; W; C] ∧
    length (data a') = H * W * C ∧
    ∀ y x k, y < H → x < W → k < C →
      data a' !! ((y * W + x) * C + k) =
        (λ old, if sliver count sc W (W - 1 - x) then 0%Z else old)
        <$> data a !! ((y * W + x) * C + k).
Proof.
  intros Hsh Hlen. unfold half_icon_right, sliver.
  destruct (count mod 2 =? 1)%Z.
  - destruct (flip_axis1_image a H W C Hsh Hlen) as (v & -> & Hsv & Hlv & Hkv).
    cbn [mbind result_bind].
    destruct (fill_cols_lookup v H W C
                (__offset (count / 2) sc + __half_texture sc)
                (__offset (count / 2 + 1) sc) 0 Hsv) as (v' & -> & Hs' & Hl' & Hk').
    cbn [mbind result_bind].
    destruct (flip_axis1_image v' H W C Hs') as (a' & Ha' & Hsa & Hla & Hka);
      [congruence|].
    exists a'. split; [done|]. split; [done|]. split; [done|].
    intros y x k Hy Hx Hk.
    rewrite Hka, Hk', Hkv by lia.
    replace (W - 1 - (W - 1 - x)) with x by lia. done.
  - exists a. split; [done|]. split; [done|]. split; [done|].
    intros y x k _ _ _. cbn [andb]. by destruct (data a !! _).
Qed.

Lemma take_drop_lookups (l : list Z) q C vs :
  length vs = C → (∀ k, k < C → l !! (q * C + k) = vs !! k) →
  take C (drop (q * C) l) = vs.
Proof.
  intros Hlen Hlk. apply list_eq. intros i.
  destruct (decide (i < C)) as [Hi|Hi].
  - rewrite lookup_take_drop by done. by apply Hlk.
  - rewrite lookup_take_ge by lia. symmetry. apply lookup_ge_None. lia.
Qed.

Lemma conversion_array_valid NB obs n N codes :
  0 < n → 9 ≤ N → conversion_array NB obs n = Ok (NDArray [1; n] codes) →
  Forall (λ c, (- Z.of_nat N ≤ c < Z.of_nat N)%Z) codes.
Proof.
  intros Hn HN Hc.
  destruct (conversion_array_codes NB obs n Hn) as (codes' & Hc' & Hlen & Hlk).
  rewrite Hc in Hc'. injection Hc' as <-.
  apply Forall_lookup. intros x c Hx.
  assert (x < n) as Hxn by (rewrite <- Hlen; by eapply lookup_lt_Some).
  rewrite (Hlk x Hxn) in Hx. injection Hx as <-.
  unfold ammo_sprite, bs_sprite.
  repeat match goal with |- context [if ?b then _ else _] => destruct b end; lia.
Qed.

Lemma prepare_dashboard_pixels NB obs res s n N :
  shape res = [N; s; s; 3] → wf_array res → 0 < n → 9 ≤ N →
  ∃ codes out,
    conversion_array NB obs n = Ok (NDArray [1; n] codes) ∧
    prepare_dashboard NB obs res s n = Ok out ∧ shape out = [1 * s; n * s; 3] ∧
    ∀ y X k code, y < s → X < n * s → k < 3 → codes !! (X / s) = Some code →
      ∃ r g b,
        item res [wrap N code; y; X mod s; 0] = Some r ∧
        item res [wrap N code; y; X mod s; 1] = Some g ∧
        item res [wrap N code; y; X mod s; 2] = Some b ∧
        item out [y; X; k] =
          Some (if sliver (dash_blast_strength NB obs n) (Z.of_nat s) (n * s) X
                   || sliver (dash_ammo NB obs n) (Z.of_nat s) (n * s) (n * s - 1 - X)
                then 0 else (r + g + b) / 3)%Z.
Proof.
  intros Hres Hwf Hn HN.
  destruct (conversion_array_codes NB obs n Hn) as (codes & Hcodes & Hlen & _).
  pose proof (conversion_array_valid NB obs n N codes Hn HN Hcodes) as Hvalid.
  exists codes. unfold prepare_dashboard. rewrite Hcodes. cbn [mbind result_bind].
  destruct (render_preprocessed_board_pixels (NDArray [1; n] codes) res 1 n N s s 3)
    as (img & -> & Hsi & Hwi & Hpx); try done.
  { unfold wf_array. simpl. lia. }
  cbn [mbind result_bind].
  set (B := dash_blast_strength NB obs n). set (A := dash_ammo NB obs n).
  set (W := n * s) in *. set (H := 1 * s) in *.
  destruct (half_icon_left_lookup B (Z.of_nat s) img H W 3 Hsi)
    as (r1 & -> & Hs1 & Hl1 & Hk1).
  cbn [mbind result_bind].
  assert (Hlen1 : length (data r1) = H * W * 3).
  { rewrite Hl1. unfold wf_array in Hwi. rewrite Hwi, Hsi. simpl. ring. }
  destruct (half_icon_right_lookup A (Z.of_nat s) r1 H W 3 Hs1 Hlen1)
    as (r2 & -> & Hs2 & Hl2 & Hk2).
  cbn [mbind result_bind].
  destruct (mean_axis2_lookup r2 H W 3 Hs2) as (m & -> & Hsm & Hlm & Hkm).
  cbn [mbind result_bind].
  destruct (assign_all_grey r2 m H W 3 Hs2 Hsm Hlm) as (out & -> & Hso & Hlo & Hko).
  exists out. split; [done|]. split; [done|]. split; [done|].
  intros y X k code Hy HX Hk Hcode.
  assert (Hy' : y < H) by (subst H; lia).
  assert (Hdiv : X / s < n).
  { apply Nat.Div0.div_lt_upper_bound. subst W. lia. }
  assert (Hs0 : 0 < s) by (subst W; destruct s; lia).
  assert (Hmod : X mod s < s) by (apply Nat.mod_upper_bound; lia).
  assert (Hwrap : wrap N code < N).
  { apply wrap_lt. rewrite Forall_lookup in Hvalid. by apply (Hvalid _ _ Hcode). }
  set (base := (wrap N code * s + y) * s + X mod s).
  assert (Hbase : ∀ j, j < 3 → ∃ v, data res !! (base * 3 + j) = Some v).
  { intros j Hj. apply lookup_lt_is_Some_2. unfold wf_array in Hwf. rewrite Hwf, Hres.
    replace (size_of [N; s; s; 3]) with (N * s * s * 3) by (simpl; ring).
    apply digit_lt; [|done]. subst base. apply digit_lt; [|done]. by apply digit_lt. }
  destruct (Hbase 0) as [r Hr]; [lia|]. destruct (Hbase 1) as [g Hg]; [lia|].
  destruct (Hbase 2) as [b Hb]; [lia|].
  exists r, g, b.
  assert (Hitem : ∀ j, j < 3 →
            item res [wrap N code; y; X mod s; j] = data res !! (base * 3 + j)).
  { intros j Hj. unfold item. rewrite Hres. simpl.
    repeat match goal with
           | |- context [?a <? ?b] =>
               replace (a <? b) with true by (symmetry; apply Nat.ltb_lt; lia)
           end.
    simpl. f_equal. subst base. ring. }
  rewrite !Hitem by lia. split; [done|]. split; [done|]. split; [done|].
  assert (Hraw : ∀ j, j < 3 → data img !! ((y * W + X) * 3 + j) = data res !! (base * 3 + j)).
  { intros j Hj.
    specialize (Hpx 0 (X / s) y (X mod s) j code).
    replace ((0 * s + y) * W + (X / s * s + X mod s)) with (y * W + X) in Hpx.
    2:{ pose proof (Nat.div_mod_eq X s). lia. }
    apply Hpx; try done; try lia. }
  set (blk := sliver B (Z.of_nat s) W X || sliver A (Z.of_nat s) W (W - 1 - X)).
  assert (Hfin : ∀ j, j < 3 →
            data r2 !! ((y * W + X) * 3 + j) =
            ((λ v, if blk then 0%Z else v) <$> [r; g; b]) !! j).
  { intros j Hj. rewrite Hk2, Hk1, Hraw by done.
    assert (data res !! (base * 3 + j) = [r; g; b] !! j) as ->.
    { destruct j as [|[|[|]]]; [exact Hr | exact Hg | exact Hb | lia]. }
    rewrite list_lookup_fmap. subst blk.
    destruct ([r; g; b] !! j); [|done]. simpl.
    destruct (sliver B _ _ _), (sliver A _ _ _); done. }
  rewrite (item3 out H W 3) by done.
  rewrite Hko; try done.
  2:{ rewrite Hfin by done. destruct k as [|[|[|]]]; simpl; try done; lia. }
  rewrite Hkm by done.
  rewrite (take_drop_lookups _ _ 3 ((λ v, if blk then 0%Z else v) <$> [r; g; b]));
    [|done|exact Hfin].
  f_equal. simpl. destruct blk; simpl; [done|]. f_equal. lia.
Qed.

Lemma sliver_even count sc W x : (count mod 2 = 0)%Z → sliver count sc W x = false.
Proof. intros H. unfold sliver. by rewrite H. Qed.

Lemma dash_zero NB obs n :
  0 < n → blast_strength obs = 0%Z → ammo obs = 0%Z →
  dash_blast_strength NB obs n = 0%Z ∧ dash_ammo NB obs n = 0%Z.
Proof.
  intros Hn Hb Ha. unfold dash_blast_strength, dash_ammo, min3, blast_bound, ammo_bound.
  rewrite Hb, Ha. destruct (Z.eqb_spec (Z.of_nat n mod 2) 1); dlia.
Qed.

Lemma dash_blast_five NB obs :
  5 ≤ NB → blast_strength obs = 5%Z → dash_blast_strength NB obs 11 = 5%Z.
Proof.
  intros HNB Hb. unfold dash_blast_strength, min3. rewrite Hb.
  change (blast_bound 11) with 10%Z. lia.
Qed.

Lemma dash_ammo_eleven NB obs :
  (0 ≤ ammo obs)%Z → (0 ≤ dash_ammo NB obs 11 ≤ 10)%Z.
Proof.
  intros Ha. unfold dash_ammo, min3. change (ammo_bound 11) with 10%Z. lia.
Qed.

Lemma sliver_blast_five s X :
  sliver 5 (Z.of_nat s) (11 * s) X = (2 * s + s / 2 <=? X) && (X <? 3 * s).
Proof.
  unfold sliver, __offset, __half_texture.
  change (5 mod 2 =? 1)%Z with true. change (5 / 2)%Z with 2%Z. cbn [andb].
  rewrite !slice_bound_nonneg by dlia.
  replace (Nat.min (Z.to_nat (2 * Z.of_nat s + Z.of_nat s / 2)) (11 * s))
    with (2 * s + s / 2) by dlia.
  replace (Nat.min (Z.to_nat ((2 + 1) * Z.of_nat s)) (11 * s)) with (3 * s) by dlia.
  done.
Qed.

Lemma sliver_ammo_far A s X :
  (0 ≤ A ≤ 10)%Z → X < 3 * s → sliver A (Z.of_nat s) (11 * s) (11 * s - 1 - X) = false.
Proof.
  intros HA HX. unfold sliver, __offset, __half_texture.
  destruct (Z.eqb_spec (A mod 2) 1) as [Hodd|]; [|done]. cbn [andb].
  apply andb_false_iff. right. apply Nat.ltb_ge.
  assert (Hq : (A / 2 = 0 ∨ A / 2 = 1 ∨ A / 2 = 2 ∨ A / 2 = 3 ∨ A / 2 = 4)%Z) by dlia.
  rewrite slice_bound_nonneg by (destruct Hq as [->|[->|[->|[->| ->]]]]; lia).
  destruct Hq as [->|[->|[->|[->| ->]]]]; lia.
Qed.

(** C6: with blast_strength 0, ammo 0 and can_kick false every cell of the
    dashboard row holds the blank sentinel -1, which indexes the spare last
    slot of the atlas, and the strip shows that slot everywhere; with
    blast_strength 5 on an 11-wide board exactly the cells 0, 1 and 2 hold
    the blast-strength sprite index, the right half of the third cell is
    black, and everything to its left is the greyed blast-strength sprite. *)
Theorem dashboard_blank_and_half_icon :
  (∀ NB obs res s n N,
     shape res = [N; s; s; 3] → wf_array res → 0 < n → 9 ≤ N →
     blast_strength obs = 0%Z → ammo obs = 0%Z → can_kick obs = 0%Z →
     conversion_array NB obs n = Ok (NDArray [1; n] (replicate n (-1)%Z)) ∧
     wrap N (-1) = N - 1 ∧
     ∃ out, prepare_dashboard NB obs res s n = Ok out ∧ shape out = [1 * s; n * s; 3] ∧
       ∀ y X k, y < s → X < n * s → k < 3 →
         ∃ r g b,
           item res [N - 1; y; X mod s; 0] = Some r ∧
           item res [N - 1; y; X mod s; 1] = Some g ∧
           item res [N - 1; y; X mod s; 2] = Some b ∧
           item out [y; X; k] = Some ((r + g + b) / 3)%Z)
  ∧
  (∀ NB obs res s N,
     shape res = [N; s; s; 3] → wf_array res → 9 ≤ N → 5 ≤ NB →
     blast_strength obs = 5%Z → (0 ≤ ammo obs)%Z →
     ∃ codes out,
       conversion_array NB obs 11 = Ok (NDArray [1; 11] codes) ∧
       (∀ x, x < 11 → (codes !! x = Some bs_sprite ↔ x < 3)) ∧
       prepare_dashboard NB obs res s 11 = Ok out ∧ shape out = [1 * s; 11 * s; 3] ∧
       ∀ y X k, y < s → k < 3 →
         (2 * s + s / 2 ≤ X < 3 * s → item out [y; X; k] = Some 0%Z) ∧
         (X < 2 * s + s / 2 →
          ∃ r g b,
            item res [4; y; X mod s; 0] = Some r ∧
            item res [4; y; X mod s; 1] = Some g ∧
            item res [4; y; X mod s; 2] = Some b ∧
            item out [y; X; k] = Some ((r + g + b) / 3)%Z)).
Proof.
  split.
  - intros NB obs res s n N Hres Hwf Hn HN Hb Ha Hkick.
    destruct (dash_zero NB obs n Hn Hb Ha) as [HB HA].
    destruct (prepare_dashboard_pixels NB obs res s n N Hres Hwf Hn HN)
      as (codes & out & Hcodes & Hout & Hso & Hpx).
    destruct (conversion_array_codes NB obs n Hn) as (codes' & Hcodes' & Hlen & Hlk).
    rewrite Hcodes in Hcodes'. injection Hcodes' as <-.
    assert (Hblank : codes = replicate n (-1)%Z).
    { apply list_eq. intros x. destruct (decide (x < n)) as [Hx|Hx].
      - rewrite (Hlk x Hx), lookup_replicate_2 by done. rewrite HB, HA, Hkick.
        change ((0 + 1) / 2)%Z with 0%Z. rewrite slice_bound_0. simpl.
        by destruct (x =? _).
      - rewrite !(proj2 (lookup_ge_None _ _)); [done|rewrite length_replicate; lia|lia]. }
    split; [by rewrite Hcodes, Hblank|].
    split; [unfold wrap; simpl; lia|].
    exists out. split; [done|]. split; [done|].
    intros y X k Hy HX Hk.
    assert (Hdiv : X / s < n) by (apply Nat.Div0.div_lt_upper_bound; lia).
    destruct (Hpx y X k (-1)%Z Hy HX Hk) as (r & g & b & Hr & Hg & Hbl & Hitem).
    { rewrite Hblank. by apply lookup_replicate_2. }
    replace (wrap N (-1)) with (N - 1) in * by (unfold wrap; simpl; lia).
    exists r, g, b. rewrite Hr, Hg, Hbl, Hitem, HB, HA.
    by rewrite !sliver_even.
  - intros NB obs res s N Hres Hwf HN HNB Hb Ha.
    pose proof (dash_blast_five NB obs HNB Hb) as HB.
    pose proof (dash_ammo_eleven NB obs Ha) as HA.
    destruct (prepare_dashboard_pixels NB obs res s 11 N Hres Hwf) as
      (codes & out & Hcodes & Hout & Hso & Hpx); [lia|done|].
    destruct (conversion_array_codes NB obs 11) as (codes' & Hcodes' & Hlen & Hlk); [lia|].
    rewrite Hcodes in Hcodes'. injection Hcodes' as <-.
    assert (Hbs : ∀ x, x < 11 → codes !! x = Some bs_sprite ↔ x < 3).
    { intros x Hx. rewrite (Hlk x Hx), HB.
      change ((5 + 1) / 2)%Z with 3%Z.
      rewrite !slice_bound_nonneg by dlia.
      change (11 / 2) with 5. change (Nat.min (Z.to_nat 3) 11) with 3.
      unfold bs_sprite, ammo_sprite.
      destruct (Nat.eqb_spec x 5) as [->|Hne].
      { split; [|lia]. destruct (0 <? can_kick obs)%Z; by intros [=]. }
      destruct (Nat.ltb_spec (11 - 1 - x)
                  (Nat.min (Z.to_nat ((dash_ammo NB obs 11 + 1) / 2)) 11)) as [Hlt|Hge].
      { split; [by intros [=] | intros; dlia]. }
      destruct (Nat.ltb_spec x 3); split; (done || lia || by intros [=]). }
    exists codes, out. split; [done|]. split; [done|]. split; [done|]. split; [done|].
    intros y X k Hy Hk. split.
    + intros [Hlo Hhi].
      assert (HX : X < 11 * s) by lia.
      assert (Hdiv : X / s < 11) by (apply Nat.Div0.div_lt_upper_bound; lia).
      destruct (lookup_lt_is_Some_2 codes (X / s)) as [code Hcode]; [lia|].
      destruct (Hpx y X k code Hy HX Hk Hcode) as (r & g & b & _ & _ & _ & Hitem).
      rewrite Hitem, HB, sliver_blast_five.
      apply Nat.leb_le in Hlo. apply Nat.ltb_lt in Hhi. by rewrite Hlo, Hhi.
    + intros Hlo.
      assert (Hs0 : 0 < s) by (destruct s; simpl in *; lia).
      assert (HX : X < 11 * s) by dlia.
      assert (Hdiv : X / s < 3) by (apply Nat.Div0.div_lt_upper_bound; dlia).
      assert (Hcode : codes !! (X / s) = Some bs_sprite) by (apply Hbs; lia).
      destruct (Hpx y X k bs_sprite Hy HX Hk Hcode) as (r & g & b & Hr & Hg & Hbl & Hitem).
      change (wrap N bs_sprite) with 4 in *.
      exists r, g, b. rewrite Hr, Hg, Hbl, Hitem, HB, sliver_blast_five.
      rewrite sliver_ammo_far by (done || dlia).
      replace (2 * s + s / 2 <=? X) with false by (symmetry; apply Nat.leb_gt; lia).
      done.
Qed.

Lemma dashboard_blank_and_half_icon_witness :
  (conversion_array 10 idle_status 11 = Ok (NDArray [1; 11] (replicate 11 (-1)%Z)) ∧
   wrap 9 (-1) = 9 - 1 ∧
   ∃ out, prepare_dashboard 10 idle_status small_atlas 1 11 = Ok out ∧
     shape out = [1 * 1; 11 * 1; 3] ∧
     ∀ y X k, y < 1 → X < 11 * 1 → k < 3 →
       ∃ r g b,
         item small_atlas [9 - 1; y; X mod 1; 0] = Some r ∧
         item small_atlas [9 - 1; y; X mod 1; 1] = Some g ∧
         item small_atlas [9 - 1; y; X mod 1; 2] = Some b ∧
         item out [y; X; k] = Some ((r + g + b) / 3)%Z)
  ∧
  (∃ codes out,
     conversion_array 10 armed_status 11 = Ok (NDArray [1; 11] codes) ∧
     (∀ x, x < 11 → (codes !! x = Some bs_sprite ↔ x < 3)) ∧
     prepare_dashboard 10 armed_status small_atlas 1 11 = Ok out ∧
     shape out = [1 * 1; 11 * 1; 3] ∧
     ∀ y X k, y < 1 → k < 3 →
       (2 * 1 + 1 / 2 ≤ X < 3 * 1 → item out [y; X; k] = Some 0%Z) ∧
       (X < 2 * 1 + 1 / 2 →
        ∃ r g b,
          item small_atlas [4; y; X mod 1; 0] = Some r ∧
          item small_atlas [4; y; X mod 1; 1] = Some g ∧
          item small_atlas [4; y; X mod 1; 2] = Some b ∧
          item out [y; X; k] = Some ((r + g + b) / 3)%Z)).
Proof.
  split.
  - apply (proj1 dashboard_blank_and_half_icon 10 idle_status small_atlas 1 11 9);
      first [reflexivity | lia].
  - apply (proj2 dashboard_blank_and_half_icon 10 armed_status small_atlas 1 9);
      first [reflexivity | simpl; lia].
Defined.

(** ** Masked assignment *)

Lemma scatter_select (f : Z → Z) bs xs ys :
  length bs = length xs → length bs = length ys →
  scatter bs xs (f <$> select bs ys)
  = zip_with (λ (b : bool) xy, if b then f xy.2 else xy.1) bs (zip xs ys).
Proof.
  revert xs ys. induction bs as [|b bs IH]; intros [|x xs] [|y ys] Hx Hy;
    simplify_eq/=; [done|].
  destruct b; simpl; f_equal; by apply IH.
Qed.

Lemma select_length bs ys :
  length bs = length ys → length (select bs ys) = count_true bs.
Proof.
  unfold count_true. revert ys. induction bs as [|b bs IH]; intros [|y ys] Hy;
    try done.
  injection Hy as Hy. cbn [select]. destruct b.
  - rewrite filter_cons_True by done. cbn [length]. f_equal. by apply IH.
  - rewrite filter_cons_False by done. by apply IH.
Qed.

Lemma bomb_assignment K (bl b : list Z) :
  length b = length bl →
  scatter (zip_with andb ((λ v, negb (v =? 0)%Z) <$> bl)
             (negb <$> ((λ v, (9 <=? v) && (v <=? 13))%Z <$> b)))
    b (uint8 <$> ((λ v, (v + Z.of_nat K)%Z) <$>
       select (zip_with andb ((λ v, negb (v =? 0)%Z) <$> bl)
                 (negb <$> ((λ v, (9 <=? v) && (v <=? 13))%Z <$> b))) bl))
  = zip_with (mark_bomb K) bl b.
Proof.
  intros Hlen. rewrite <- (list_fmap_compose (λ v, (v + Z.of_nat K)%Z) uint8).
  rewrite scatter_select.
  2,3: rewrite length_zip_with, !length_fmap; lia.
  revert b Hlen. induction bl as [|y bl IH]; intros [|x b] Hlen; try done.
  injection Hlen as Hlen. simpl. f_equal. by apply IH.
Qed.

Lemma substitute_scalar my (l : list Z) :
  zip_with (λ (b : bool) x, if b then my else x)
    ((λ x, (x =? KEEP_MY_AGENT_SPRITE)%Z) <$> l) l
  = substitute_other my <$> l.
Proof. induction l as [|x l IH]; [done|]. cbn. f_equal. exact IH. Qed.

Lemma substitute_absent my (l : list Z) :
  existsb id ((λ x, (x =? KEEP_MY_AGENT_SPRITE)%Z) <$> l) = false →
  substitute_other my <$> l = l.
Proof.
  induction l as [|x l IH]; simpl; [done|].
  intros [Hx Hl]%orb_false_iff. unfold substitute_other at 1. unfold id in Hx.
  rewrite Hx. f_equal. by apply IH.
Qed.

(** ** Running the preprocessor on a store *)

Lemma bind_run {A B} (m : M A) (f : A → M B) st :
  (m ≫= f) st =
  match m st with
  | (Ok a, st') => f a st'
  | (Raise e, st') => (Raise e, st')
  end.
Proof. done. Qed.

Lemma load_new arrs x ds :
  load (length arrs) (Store (arrs ++ [x]) ds) = (Ok x, Store (arrs ++ [x]) ds).
Proof. unfold load. cbn [arrays]. by rewrite list_lookup_middle. Qed.

Lemma load_old arrs x ds r a :
  arrs !! r = Some a → load r (Store (arrs ++ [x]) ds) = (Ok a, Store (arrs ++ [x]) ds).
Proof. intros Hr. unfold load. cbn [arrays]. by rewrite (lookup_app_l_Some _ _ _ _ Hr). Qed.

Lemma write_new arrs x y ds :
  write (length arrs) y (Store (arrs ++ [x]) ds) = (Ok (), Store (arrs ++ [y]) ds).
Proof.
  unfold write. cbn [arrays dicts]. rewrite insert_app_r_alt by lia.
  by rewrite Nat.sub_diag.
Qed.

Lemma obs_get_run {A} (key : observation → A) arrs ds o d :
  ds !! o = Some d → obs_get o key (Store arrs ds) = (Ok (key d), Store arrs ds).
Proof. intros Hd. unfold obs_get. cbn [dicts]. by rewrite Hd. Qed.

Lemma obs_key_run {A} (key : observation → option A) arrs ds o d v :
  ds !! o = Some d → key d = Some v →
  obs_key o key (Store arrs ds) = (Ok v, Store arrs ds).
Proof. intros Hd Hv. unfold obs_key. cbn [dicts]. rewrite Hd. simpl. by rewrite Hv. Qed.

Lemma assign_bombs_run K arrs ds bombs b bl :
  arrs !! bombs = Some bl → shape b = shape bl → length (data b) = length (data bl) →
  assign_bombs K (length arrs) bombs (Store (arrs ++ [b]) ds)
  = (Ok (), Store (arrs ++ [NDArray (shape b) (zip_with (mark_bomb K) (data bl) (data b))]) ds).
Proof.
  intros Hbl Hsh Hlen. unfold assign_bombs.
  rewrite bind_run, (load_old _ _ _ _ _ Hbl).
  rewrite bind_run, load_new.
  assert (Hmask : bomb_mask bl b =
            Ok (BoolArray (shape bl)
                  (zip_with andb ((λ v, negb (v =? 0)%Z) <$> data bl)
                     (negb <$> ((λ v, (9 <=? v) && (v <=? 13))%Z <$> data b))))).
  { unfold bomb_mask, mask_and. cbn [bshape bdata ne_zero mask_not __has_players].
    by rewrite decide_True. }
  rewrite bind_run. unfold lift at 1. rewrite Hmask.
  rewrite bind_run. unfold lift at 1. unfold bool_index. cbn [bshape bdata].
  rewrite decide_True by done.
  rewrite bind_run, load_new.
  rewrite bind_run. unfold lift at 1. rewrite Hmask.
  rewrite bind_run. unfold lift at 1. unfold bool_assign.
  cbn [bshape bdata astype_uint8 add_scalar shape data].
  rewrite decide_True by done. rewrite decide_True by done.
  rewrite (bomb_assignment K (data bl) (data b) Hlen).
  by rewrite write_new.
Qed.

Lemma preprocess_board_run K st o d b bl my :
  observed st o d b bl my →
  preprocess_board K o st =
    if bool_decide (my ∈ alive d) then
      match set_item2 (substituted K b bl my) (position d) KEEP_MY_AGENT_SPRITE with
      | Ok g => (Ok (length (arrays st)), Store (arrays st ++ [g]) (dicts st))
      | Raise e => (Raise e, Store (arrays st ++ [substituted K b bl my]) (dicts st))
      end
    else (Ok (length (arrays st)), Store (arrays st ++ [substituted K b bl my]) (dicts st)).
Proof.
  intros [Hd Hb Hbl Hsh Hlen Hmy].
  unfold preprocess_board.
  rewrite bind_run. unfold obs_get at 1. rewrite Hd.
  rewrite bind_run. unfold np_copy. rewrite bind_run. unfold load at 1. rewrite Hb.
  unfold new_array at 1. cbn [arrays dicts].
  rewrite bind_run, (obs_get_run _ _ _ _ _ Hd).
  rewrite bind_run, (assign_bombs_run K _ _ _ _ _ Hbl Hsh Hlen).
  rewrite bind_run, (obs_key_run _ _ _ _ _ _ Hd Hmy).
  rewrite bind_run, load_new.
  set (g1 := NDArray (shape b) (zip_with (mark_bomb K) (data bl) (data b))).
  rewrite bind_run.
  assert (Hsub :
    (if np_any (eq_scalar g1 KEEP_MY_AGENT_SPRITE)
     then lift (bool_assign_scalar g1 (eq_scalar g1 KEEP_MY_AGENT_SPRITE) my)
          ≫= λ new, write (length (arrays st)) new
     else mret ()) (Store (arrays st ++ [g1]) (dicts st))
    = (Ok (), Store (arrays st ++ [substituted K b bl my]) (dicts st))).
  { destruct (np_any _) eqn:Hany.
    - rewrite bind_run. unfold lift, bool_assign_scalar. cbn [eq_scalar bshape bdata].
      rewrite decide_True by done. rewrite write_new.
      unfold g1. cbn [data shape]. by rewrite substitute_scalar.
    - unfold substituted. unfold np_any, eq_scalar, g1 in Hany. cbn [bdata data] in Hany.
      rewrite (substitute_absent my _ Hany). done. }
  rewrite Hsub.
  rewrite bind_run, (obs_get_run _ _ _ _ _ Hd).
  rewrite bind_run.
  destruct (bool_decide (my ∈ alive d)).
  - rewrite bind_run, (obs_get_run _ _ _ _ _ Hd).
    rewrite bind_run, load_new.
    rewrite bind_run. unfold lift at 1.
    destruct (set_item2 _ _ _) as [g|e]; [|done].
    by rewrite write_new.
  - done.
Qed.

(** ** Cells of the coded grid *)

Lemma item2 a R C r c :
  shape a = [R; C] → r < R → c < C → item a [r; c] = data a !! (r * C + c).
Proof.
  intros Hsh Hr Hc. unfold item. rewrite Hsh. simpl.
  apply Nat.ltb_lt in Hr. apply Nat.ltb_lt in Hc. rewrite Hr, Hc. simpl.
  f_equal. lia.
Qed.

Lemma norm_index_Ok n i k : norm_index n i = Ok k → k = wrap n i ∧ k < n.
Proof.
  unfold norm_index, wrap. intros H.
  destruct (Z.leb_spec 0 i), (Z.ltb_spec i (Z.of_nat n)), (Z.leb_spec (- Z.of_nat n) i),
    (Z.ltb_spec i 0); simplify_eq/=; lia.
Qed.

Lemma set_item2_Ok a R C rc v g :
  shape a = [R; C] → set_item2 a rc v = Ok g →
  wrap R rc.1 < R ∧ wrap C rc.2 < C ∧
  g = NDArray [R; C] (<[wrap R rc.1 * C + wrap C rc.2 := v]> (data a)).
Proof.
  intros Hsh. unfold set_item2. rewrite Hsh.
  destruct (norm_index R rc.1) as [r|] eqn:Hr; [|done].
  destruct (norm_index C rc.2) as [c|] eqn:Hc; [|done].
  apply norm_index_Ok in Hr as [-> Hr]. apply norm_index_Ok in Hc as [-> Hc].
  simpl. by intros [= <-].
Qed.

Lemma cell_index_inj C r c r' c' : c < C → c' < C → r * C + c = r' * C + c' → r = r' ∧ c = c'.
Proof. intros Hc Hc' Heq. assert (r = r') by nia. subst. lia. Qed.

Lemma mark_bomb_cases K bomb cell :
  (bomb ≠ 0%Z → ¬ (9 ≤ cell ≤ 13)%Z → mark_bomb K bomb cell = uint8 (bomb + Z.of_nat K)) ∧
  (bomb ≠ 0%Z → (9 ≤ cell ≤ 13)%Z → mark_bomb K bomb cell = cell) ∧
  (bomb = 0%Z → mark_bomb K bomb cell = cell).
Proof.
  unfold mark_bomb.
  destruct (Z.eqb_spec bomb 0), (Z.leb_spec 9 cell), (Z.leb_spec cell 13); simpl;
    repeat split; intros; (done || lia).
Qed.

Lemma substituted_cell K b bl my R C r c :
  shape b = [R; C] → length (data b) = R * C → length (data bl) = R * C →
  r < R → c < C →
  ∃ bomb cell,
    data bl !! (r * C + c) = Some bomb ∧ data b !! (r * C + c) = Some cell ∧
    data (substituted K b bl my) !! (r * C + c)
      = Some (substitute_other my (mark_bomb K bomb cell)).
Proof.
  intros Hsh Hb Hbl Hr Hc.
  assert (Hp : r * C + c < R * C) by (by apply digit_lt).
  destruct (lookup_lt_is_Some_2 (data bl) (r * C + c)) as [bomb Hbomb]; [lia|].
  destruct (lookup_lt_is_Some_2 (data b) (r * C + c)) as [cell Hcell]; [lia|].
  exists bomb, cell. split; [done|]. split; [done|].
  unfold substituted. cbn [data].
  by rewrite list_lookup_fmap, lookup_zip_with, Hbomb, Hcell.
Qed.

(** C4: for an observation whose agent, if alive, stands on the board,
    preprocess_board returns a grid in which a cell with a nonzero
    countdown whose raw code is not a player code holds the countdown plus
    len(FILE_NAMES), as stored in the uint8 board (the sum itself when it
    is below 256), and a cell with a nonzero countdown whose raw code is a
    player code (9..13) holds its raw value, as does every cell without a
    bomb; on top of that the grid shows only the two identity steps that
    follow: the code 11 replaced by the agent's code, and 11 written at the
    position of a living agent. *)
Theorem preprocess_board_bomb_cells (K : nat) st o d b bl my R C :
  observed st o d b bl my → shape b = [R; C] → length (data b) = R * C →
  (my ∈ alive d →
   (- Z.of_nat R ≤ (position d).1 < Z.of_nat R)%Z ∧
   (- Z.of_nat C ≤ (position d).2 < Z.of_nat C)%Z) →
  ∃ g,
    preprocess_board K o st
      = (Ok (length (arrays st)), Store (arrays st ++ [g]) (dicts st)) ∧
    shape g = [R; C] ∧
    ∀ r c, r < R → c < C →
      ∃ bomb cell,
        item bl [r; c] = Some bomb ∧ item b [r; c] = Some cell ∧
        (my ∈ alive d → (wrap R (position d).1, wrap C (position d).2) = (r, c) →
         item g [r; c] = Some KEEP_MY_AGENT_SPRITE) ∧
        (¬ (my ∈ alive d ∧ (wrap R (position d).1, wrap C (position d).2) = (r, c)) →
         (bomb ≠ 0%Z → ¬ (9 ≤ cell ≤ 13)%Z →
          item g [r; c] = Some (substitute_other my (uint8 (bomb + Z.of_nat K)))) ∧
         (bomb ≠ 0%Z → ¬ (9 ≤ cell ≤ 13)%Z →
          (0 ≤ bomb + Z.of_nat K < 256)%Z →
          (bomb + Z.of_nat K)%Z ≠ KEEP_MY_AGENT_SPRITE →
          item g [r; c] = Some (bomb + Z.of_nat K)%Z) ∧
         (bomb ≠ 0%Z → (9 ≤ cell ≤ 13)%Z →
          item g [r; c] = Some (substitute_other my cell)) ∧
         (bomb ≠ 0%Z → (9 ≤ cell ≤ 13)%Z → cell ≠ KEEP_MY_AGENT_SPRITE →
          item g [r; c] = Some cell) ∧
         (bomb = 0%Z → item g [r; c] = Some (substitute_other my cell))).
Proof.
  intros Hobs Hsh Hlen Hpos. pose proof Hobs as [Hd Hb Hbl Hshape Hlens Hmy].
  assert (Hshl : shape bl = [R; C]) by congruence.
  assert (Hlenl : length (data bl) = R * C) by congruence.
  assert (Hlsub : length (data (substituted K b bl my)) = R * C).
  { unfold substituted. cbn [data].
    by rewrite length_fmap, length_zip_with, Hlenl, Hlen, Nat.min_id. }
  assert (Hcell : ∀ r c, r < R → c < C →
            ∃ bomb cell,
              item bl [r; c] = Some bomb ∧ item b [r; c] = Some cell ∧
              data (substituted K b bl my) !! (r * C + c)
                = Some (substitute_other my (mark_bomb K bomb cell))).
  { intros r c Hr Hc.
    destruct (substituted_cell K b bl my R C r c) as (bomb & cell & H1 & H2 & H3);
      try done.
    exists bomb, cell. by rewrite (item2 bl R C), (item2 b R C). }
  assert (Hcases : ∀ bomb cell,
            (bomb ≠ 0%Z → ¬ (9 ≤ cell ≤ 13)%Z →
             Some (substitute_other my (mark_bomb K bomb cell))
             = Some (substitute_other my (uint8 (bomb + Z.of_nat K)))) ∧
            (bomb ≠ 0%Z → ¬ (9 ≤ cell ≤ 13)%Z →
             (0 ≤ bomb + Z.of_nat K < 256)%Z →
             (bomb + Z.of_nat K)%Z ≠ KEEP_MY_AGENT_SPRITE →
             Some (substitute_other my (mark_bomb K bomb cell))
             = Some (bomb + Z.of_nat K)%Z) ∧
            (bomb ≠ 0%Z → (9 ≤ cell ≤ 13)%Z →
             Some (substitute_other my (mark_bomb K bomb cell))
             = Some (substitute_other my cell)) ∧
            (bomb ≠ 0%Z → (9 ≤ cell ≤ 13)%Z → cell ≠ KEEP_MY_AGENT_SPRITE →
             Some (substitute_other my (mark_bomb K bomb cell)) = Some cell) ∧
            (bomb = 0%Z →
             Some (substitute_other my (mark_bomb K bomb cell))
             = Some (substitute_other my cell))).
  { intros bomb cell. destruct (mark_bomb_cases K bomb cell) as (H1 & H2 & H3).
    split; [|split; [|split; [|split]]].
    - intros Hne Hnp. by rewrite H1.
    - intros Hne Hnp Hrange Hkeep. rewrite H1 by done.
      unfold uint8. rewrite Z.mod_small by done.
      unfold substitute_other. by destruct (Z.eqb_spec (bomb + Z.of_nat K) KEEP_MY_AGENT_SPRITE).
    - intros Hne Hp. by rewrite H2.
    - intros Hne Hp Hkeep. rewrite H2 by done.
      unfold substitute_other. by destruct (Z.eqb_spec cell KEEP_MY_AGENT_SPRITE).
    - intros H0. by rewrite H3. }
  rewrite (preprocess_board_run K st o d b bl my Hobs).
  case_bool_decide as Halive.
  - destruct (Hpos Halive) as [Hrow Hcol].
    assert (Hr0 : wrap R (position d).1 < R) by (apply wrap_lt; lia).
    assert (Hc0 : wrap C (position d).2 < C) by (apply wrap_lt; lia).
    unfold set_item2. change (shape (substituted K b bl my)) with (shape b).
    rewrite Hsh, (norm_index_wrap R _ Hrow), (norm_index_wrap C _ Hcol).
    cbn [mbind result_bind].
    eexists. split; [reflexivity|]. split; [done|].
    intros r c Hr Hc. destruct (Hcell r c Hr Hc) as (bomb & cell & Hbomb & Hraw & Hsub).
    exists bomb, cell. split; [done|]. split; [done|].
    rewrite (item2 _ R C) by done. cbn [data]. split.
    + intros _ [= <- <-]. apply list_lookup_insert_eq. rewrite Hlsub. by apply digit_lt.
    + intros Hother.
      rewrite list_lookup_insert_ne.
      2: { intros Heq. apply cell_index_inj in Heq as [Hr1 Hc1]; [|done..].
           apply Hother. split; [done|]. by rewrite Hr1, Hc1. }
      rewrite Hsub. apply Hcases.
  - exists (substituted K b bl my). split; [done|]. split; [done|].
    intros r c Hr Hc. destruct (Hcell r c Hr Hc) as (bomb & cell & Hbomb & Hraw & Hsub).
    exists bomb, cell. split; [done|]. split; [done|].
    rewrite (item2 _ R C) by done. split; [done|].
    intros _. rewrite Hsub. apply Hcases.
Qed.

(** C5: when the agent's own code is in the alive list (and its position
    lies on the board), the returned grid holds the placeholder code 11 at
    that position; when it is not, the returned grid is the one left by the
    bomb step and the substitution of the other agent, whatever the
    position is, so a cell holds 11 only if 'my_sprite' is 11 and the cell
    already held 11 after the bomb step. *)
Theorem preprocess_board_identity (K : nat) st o d b bl my R C :
  observed st o d b bl my → shape b = [R; C] → length (data b) = R * C →
  (my ∈ alive d →
   (- Z.of_nat R ≤ (position d).1 < Z.of_nat R)%Z →
   (- Z.of_nat C ≤ (position d).2 < Z.of_nat C)%Z →
   ∃ g, preprocess_board K o st
          = (Ok (length (arrays st)), Store (arrays st ++ [g]) (dicts st)) ∧
     item g [wrap R (position d).1; wrap C (position d).2] = Some KEEP_MY_AGENT_SPRITE) ∧
  (my ∉ alive d →
   preprocess_board K o st
     = (Ok (length (arrays st)), Store (arrays st ++ [substituted K b bl my]) (dicts st)) ∧
   ∀ r c, r < R → c < C →
     item (substituted K b bl my) [r; c] = Some KEEP_MY_AGENT_SPRITE →
     my = KEEP_MY_AGENT_SPRITE ∧
     ∃ bomb cell, item bl [r; c] = Some bomb ∧ item b [r; c] = Some cell ∧
       mark_bomb K bomb cell = KEEP_MY_AGENT_SPRITE).
Proof.
  intros Hobs Hsh Hlen. pose proof Hobs as [Hd Hb Hbl Hshape Hlens Hmy].
  assert (Hshl : shape bl = [R; C]) by congruence.
  assert (Hlenl : length (data bl) = R * C) by congruence.
  rewrite (preprocess_board_run K st o d b bl my Hobs). split.
  - intros Halive Hr Hc. rewrite bool_decide_eq_true_2 by done.
    unfold set_item2, substituted. cbn [shape data]. rewrite Hsh.
    rewrite (norm_index_wrap R _ Hr), (norm_index_wrap C _ Hc).
    cbn [mbind result_bind]. eexists. split; [reflexivity|].
    pose proof (wrap_lt _ _ Hr). pose proof (wrap_lt _ _ Hc).
    rewrite (item2 _ R C) by done. cbn [data].
    apply list_lookup_insert_eq.
    rewrite length_fmap, length_zip_with. rewrite Hlenl, Hlen, Nat.min_id.
    by apply digit_lt.
  - intros Hdead. rewrite bool_decide_eq_false_2 by done. split; [done|].
    intros r c Hr Hc. rewrite (item2 _ R C), (item2 bl R C), (item2 b R C) by done.
    destruct (substituted_cell K b bl my R C r c) as (bomb & cell & Hbomb & Hcell & ->);
      try done.
    intros [= Hkeep]. unfold substitute_other in Hkeep.
    destruct (Z.eqb_spec (mark_bomb K bomb cell) KEEP_MY_AGENT_SPRITE) as [Heq|Hne].
    + split; [done|]. by exists bomb, cell.
    + done.
Qed.

Lemma observed_alive : observed alive_store 0 alive_obs sample_board sample_bombs 10.
Proof. by constructor. Defined.

Lemma observed_dead : observed dead_store 0 dead_obs sample_board sample_bombs 10.
Proof. by constructor. Defined.

Lemma preprocess_board_bomb_cells_witness :
  ∃ g,
    preprocess_board 28 0 alive_store
      = (Ok (length (arrays alive_store)),
         Store (arrays alive_store ++ [g]) (dicts alive_store)) ∧
    shape g = [2; 2] ∧
    ∀ r c, r < 2 → c < 2 →
      ∃ bomb cell,
        item sample_bombs [r; c] = Some bomb ∧ item sample_board [r; c] = Some cell ∧
        (10%Z ∈ alive alive_obs →
         (wrap 2 (position alive_obs).1, wrap 2 (position alive_obs).2) = (r, c) →
         item g [r; c] = Some KEEP_MY_AGENT_SPRITE) ∧
        (¬ (10%Z ∈ alive alive_obs ∧
            (wrap 2 (position alive_obs).1, wrap 2 (position alive_obs).2) = (r, c)) →
         (bomb ≠ 0%Z → ¬ (9 ≤ cell ≤ 13)%Z →
          item g [r; c] = Some (substitute_other 10 (uint8 (bomb + Z.of_nat 28)))) ∧
         (bomb ≠ 0%Z → ¬ (9 ≤ cell ≤ 13)%Z →
          (0 ≤ bomb + Z.of_nat 28 < 256)%Z →
          (bomb + Z.of_nat 28)%Z ≠ KEEP_MY_AGENT_SPRITE →
          item g [r; c] = Some (bomb + Z.of_nat 28)%Z) ∧
         (bomb ≠ 0%Z → (9 ≤ cell ≤ 13)%Z →
          item g [r; c] = Some (substitute_other 10 cell)) ∧
         (bomb ≠ 0%Z → (9 ≤ cell ≤ 13)%Z → cell ≠ KEEP_MY_AGENT_SPRITE →
          item g [r; c] = Some cell) ∧
         (bomb = 0%Z → item g [r; c] = Some (substitute_other 10 cell))).
Proof.
  apply (preprocess_board_bomb_cells 28 alive_store 0 alive_obs sample_board sample_bombs
           10 2 2 observed_alive); [reflexivity | reflexivity |].
  intros _. cbn. lia.
Defined.

Lemma preprocess_board_identity_witness :
  (∃ g, preprocess_board 28 0 alive_store
          = (Ok (length (arrays alive_store)),
             Store (arrays alive_store ++ [g]) (dicts alive_store)) ∧
     item g [wrap 2 (position alive_obs).1; wrap 2 (position alive_obs).2]
       = Some KEEP_MY_AGENT_SPRITE) ∧
  preprocess_board 28 0 dead_store
    = (Ok (length (arrays dead_store)),
       Store (arrays dead_store ++ [substituted 28 sample_board sample_bombs 10])
         (dicts dead_store)).
Proof.
  split.
  - apply (proj1 (preprocess_board_identity 28 alive_store 0 alive_obs sample_board
                    sample_bombs 10 2 2 observed_alive eq_refl eq_refl)).
    + by left.
    + simpl. lia.
    + simpl. lia.
  - apply (proj2 (preprocess_board_identity 28 dead_store 0 dead_obs sample_board
                    sample_bombs 10 2 2 observed_dead eq_refl eq_refl)).
    intros Hin. apply list_elem_of_singleton in Hin. discriminate.
Defined.

(** ** Purity of the preprocessor *)

Lemma observed_extend st o d b bl my g :
  observed st o d b bl my →
  observed (Store (arrays st ++ [g]) (dicts st)) o d b bl my.
Proof.
  intros [Hd Hb Hbl Hsh Hlen Hmy]. constructor; cbn [arrays dicts]; try done.
  - by apply lookup_app_l_Some.
  - by apply lookup_app_l_Some.
Qed.

(** C9: on a well-formed observation preprocess_board changes no array
    that existed before the call and no observation dict, it only adds the
    new grid; and a second call on the same observation gives the same
    outcome: the same exception, or an equal grid in another new buffer. *)
Theorem preprocess_board_pure (K : nat) st o d b bl my r1 st1 :
  observed st o d b bl my →
  preprocess_board K o st = (r1, st1) →
  dicts st1 = dicts st ∧
  (∀ l a, arrays st !! l = Some a → arrays st1 !! l = Some a) ∧
  arrays st1 !! board d = Some b ∧ arrays st1 !! bomb_life d = Some bl ∧
  ∃ r2 st2, preprocess_board K o st1 = (r2, st2) ∧
    (∀ e, r1 = Raise e → r2 = Raise e) ∧
    (∀ l1, r1 = Ok l1 →
       ∃ l2 g, r2 = Ok l2 ∧ l2 ≠ l1 ∧
         arrays st1 !! l1 = Some g ∧ arrays st2 !! l1 = Some g ∧ arrays st2 !! l2 = Some g).
Proof.
  intros Hobs Hrun. pose proof Hobs as [Hd Hb Hbl Hshape Hlens Hmy].
  rewrite (preprocess_board_run K st o d b bl my Hobs) in Hrun.
  assert (Hst1 : ∃ g, st1 = Store (arrays st ++ [g]) (dicts st)).
  { destruct (bool_decide _); [destruct (set_item2 _ _ _)|]; injection Hrun as <- <-; eauto. }
  destruct Hst1 as [g0 ->]. cbn [arrays dicts].
  split; [done|]. split; [intros l a Hl; by apply lookup_app_l_Some|].
  split; [by apply lookup_app_l_Some|]. split; [by apply lookup_app_l_Some|].
  rewrite (preprocess_board_run K _ o d b bl my (observed_extend _ _ _ _ _ _ g0 Hobs)).
  cbn [arrays dicts].
  destruct (bool_decide _); [destruct (set_item2 _ _ _) as [g|e]|].
  - injection Hrun as <- Hg. apply app_inj_tail in Hg as [_ <-].
    eexists _, _. split; [reflexivity|]. split; [done|].
    intros l1 [= <-]. exists (length (arrays st ++ [g])), g.
    split; [done|]. split; [rewrite length_app; simpl; lia|].
    split; [by rewrite list_lookup_middle|]. split.
    + apply lookup_app_l_Some. by rewrite list_lookup_middle.
    + cbn [arrays]. by rewrite list_lookup_middle.
  - injection Hrun as <- Hg.
    eexists _, _. split; [reflexivity|]. split; [by intros e' [= <-]|]. done.
  - injection Hrun as <- Hg. apply app_inj_tail in Hg as [_ <-].
    eexists _, _. split; [reflexivity|]. split; [done|].
    intros l1 [= <-]. exists (length (arrays st ++ [substituted K b bl my])),
      (substituted K b bl my).
    split; [done|]. split; [rewrite length_app; simpl; lia|].
    split; [by rewrite list_lookup_middle|]. split.
    + apply lookup_app_l_Some. by rewrite list_lookup_middle.
    + cbn [arrays]. by rewrite list_lookup_middle.
Qed.

Lemma preprocess_board_pure_witness :
  dicts (Store (arrays alive_store ++ [NDArray [2; 2] [0; 11; 32; 10]%Z]) (dicts alive_store))
    = dicts alive_store ∧
  (∀ l a, arrays alive_store !! l = Some a →
     arrays (Store (arrays alive_store ++ [NDArray [2; 2] [0; 11; 32; 10]%Z])
               (dicts alive_store)) !! l = Some a) ∧
  arrays (Store (arrays alive_store ++ [NDArray [2; 2] [0; 11; 32; 10]%Z])
            (dicts alive_store)) !! board alive_obs = Some sample_board ∧
  arrays (Store (arrays alive_store ++ [NDArray [2; 2] [0; 11; 32; 10]%Z])
            (dicts alive_store)) !! bomb_life alive_obs = Some sample_bombs ∧
  ∃ r2 st2,
    preprocess_board 28 0
      (Store (arrays alive_store ++ [NDArray [2; 2] [0; 11; 32; 10]%Z]) (dicts alive_store))
      = (r2, st2) ∧
    (∀ e, Ok 2 = Raise e → r2 = Raise e) ∧
    (∀ l1, Ok 2 = Ok l1 →
       ∃ l2 g, r2 = Ok l2 ∧ l2 ≠ l1 ∧
         arrays (Store (arrays alive_store ++ [NDArray [2; 2] [0; 11; 32; 10]%Z])
                   (dicts alive_store)) !! l1 = Some g ∧
         arrays st2 !! l1 = Some g ∧ arrays st2 !! l2 = Some g).
Proof.
  apply (preprocess_board_pure 28 alive_store 0 alive_obs sample_board sample_bombs 10
           (Ok 2) _ observed_alive).
  reflexivity.
Defined.

(** ** The bomb bar under a player *)

Lemma unravel2 R C p : unravel [R; C] p = [p / C; p mod C].
Proof. cbn [unravel size_of foldr]. by rewrite Nat.mul_1_r, Nat.div_1_r. Qed.

Lemma norm_index_nat n k : k < n → norm_index n (Z.of_nat k) = Ok k.
Proof.
  intros Hk. rewrite norm_index_wrap, wrap_nonneg by lia. by rewrite Nat2Z.id.
Qed.

Lemma bar_offset_Z s :
  (__half_texture (Z.of_nat s) + __quarter_texture (Z.of_nat s))%Z = Z.of_nat (bar_offset s)
  ∧ bar_offset s ≤ s ∧ (0 < s → bar_offset s < s).
Proof. unfold __half_texture, __quarter_texture, bar_offset. dlia. Qed.

Lemma rows_from_sprite sprite s :
  shape sprite = [s; s; 3] →
  rows_from sprite (Z.of_nat (bar_offset s))
  = Ok (NDArray [s - bar_offset s; s; 3] (drop (bar_offset s * (s * 3)) (data sprite))).
Proof.
  intros Hsh. unfold rows_from. rewrite Hsh.
  rewrite slice_bound_nonneg by lia. rewrite Nat2Z.id.
  destruct (bar_offset_Z s) as (_ & Hle & _). by rewrite Nat.min_l.
Qed.

Lemma block_rows s r y lo :
  0 < s →
  (r * s + lo <=? y) && (y <? (r + 1) * s) = (y / s =? r) && (lo <=? y mod s).
Proof.
  intros Hs. pose proof (Nat.div_mod_eq y s) as Hy.
  pose proof (Nat.mod_upper_bound y s) as Hm.
  destruct (Nat.eqb_spec (y / s) r) as [<-|Hne].
  - cbn [andb].
    replace (y <? (y / s + 1) * s) with true by (symmetry; apply Nat.ltb_lt; lia).
    rewrite andb_true_r.
    destruct (Nat.leb_spec lo (y mod s)); [apply Nat.leb_le|apply Nat.leb_gt]; lia.
  - cbn [andb]. apply andb_false_iff.
    destruct (Nat.lt_ge_cases y (r * s)) as [Hlt|Hge]; [left; apply Nat.leb_gt; lia|].
    right. apply Nat.ltb_ge.
    destruct (Nat.lt_ge_cases y ((r + 1) * s)) as [Hlt'|]; [|done].
    exfalso. apply Hne.
    assert (y / s < r + 1) by (apply Nat.Div0.div_lt_upper_bound; lia).
    assert (r ≤ y / s) by (apply Nat.div_le_lower_bound; lia).
    lia.
Qed.

Lemma cell_bounds R s r : r < R → (r + 1) * s ≤ R * s.
Proof. intros Hr. apply Nat.mul_le_mono_r. lia. Qed.

Lemma subarray_sprite res N s n :
  shape res = [N; s; s; 3] → wf_array res → (0 ≤ n < Z.of_nat N)%Z →
  ∃ sprite, subarray res n = Ok sprite ∧ shape sprite = [s; s; 3] ∧
    length (data sprite) = s * s * 3 ∧
    ∀ o, o < s * s * 3 →
      data sprite !! o = data res !! (Z.to_nat n * (s * s * 3) + o).
Proof.
  intros Hres Hwf Hn.
  rewrite (subarray_wrap res N [s; s; 3] n Hres) by lia.
  rewrite wrap_nonneg by lia.
  replace (size_of [s; s; 3]) with (s * s * 3) by (simpl; ring).
  eexists. split; [reflexivity|]. split; [done|]. cbn [data]. split.
  - apply length_take_drop. unfold wf_array in Hwf. rewrite Hwf, Hres.
    replace (size_of [N; s; s; 3]) with (N * (s * s * 3)) by (simpl; ring).
    apply Nat.mul_le_mono_r. lia.
  - intros o Ho. by apply lookup_take_drop.
Qed.

Lemma postprocess_player_lookup K res bombs s img R C N p :
  shape res = [N; s; s; 3] → wf_array res → 0 < s →
  shape img = [R * s; C * s; 3] → length (data img) = R * s * (C * s) * 3 →
  shape bombs = [R; C] → length (data bombs) = R * C →
  p < R * C →
  (nth p (data bombs) 0%Z ≠ 0%Z →
   (0 ≤ Z.of_nat K + nth p (data bombs) 0 < Z.of_nat N)%Z) →
  ∃ img', postprocess_player K res bombs (Z.of_nat s) img (unravel [R; C] p) = Ok img' ∧
    shape img' = [R * s; C * s; 3] ∧ length (data img') = length (data img) ∧
    ∀ y x k, y < R * s → x < C * s → k < 3 →
      data img' !! ((y * (C * s) + x) * 3 + k) =
        if negb (nth p (data bombs) 0 =? 0)%Z
           && ((y / s =? p / C) && (bar_offset s <=? y mod s))
           && (x / s =? p mod C)
        then data res !! (((Z.to_nat (Z.of_nat K + nth p (data bombs) 0)%Z * s + y mod s) * s
                           + x mod s) * 3 + k)
        else data img !! ((y * (C * s) + x) * 3 + k).
Proof.
  intros Hres Hwf Hs Himg Hlen Hbombs Hlenb Hp Hvalid.
  assert (HC : 0 < C) by (destruct C; lia).
  set (r := p / C). set (c := p mod C).
  assert (Hr : r < R) by (apply Nat.Div0.div_lt_upper_bound; lia).
  assert (Hc : c < C) by (apply Nat.mod_upper_bound; lia).
  assert (Hrc : r * C + c = p) by (pose proof (Nat.div_mod_eq p C); lia).
  unfold postprocess_player. rewrite unravel2. fold r c.
  unfold index_list. cbn [lookup list_lookup mbind result_bind].
  unfold get_item2. rewrite Hbombs. cbn [fst snd].
  rewrite !norm_index_nat by done. cbn [mbind result_bind]. rewrite Hrc.
  set (b := nth p (data bombs) 0%Z) in *.
  destruct (Z.eqb_spec b 0) as [Hb0|Hb0].
  { exists img. split; [done|]. split; [done|]. split; [done|]. by intros. }
  specialize (Hvalid Hb0).
  destruct (subarray_sprite res N s _ Hres Hwf Hvalid) as (sprite & Hsp & Hss & Hls & Hks).
  unfold __get_bomb. rewrite Hsp. cbn [mbind result_bind].
  destruct (bar_offset_Z s) as (HeZ & Hele & Helt). specialize (Helt Hs).
  rewrite HeZ, (rows_from_sprite sprite s Hss). cbn [mbind result_bind].
  unfold assign_block. rewrite Himg. cbn [shape].
  unfold __offset.
  replace (Z.of_nat r * Z.of_nat s + __half_texture (Z.of_nat s) + __quarter_texture (Z.of_nat s))%Z
    with (Z.of_nat (r * s + bar_offset s)) by lia.
  replace ((Z.of_nat r + 1) * Z.of_nat s)%Z with (Z.of_nat ((r + 1) * s)) by lia.
  replace (Z.of_nat c * Z.of_nat s)%Z with (Z.of_nat (c * s)) by lia.
  replace ((Z.of_nat c + 1) * Z.of_nat s)%Z with (Z.of_nat ((c + 1) * s)) by lia.
  rewrite !slice_bound_nonneg by lia. rewrite !Nat2Z.id.
  pose proof (cell_bounds R s r Hr) as Hrs. pose proof (cell_bounds C s c Hc) as Hcs.
  rewrite !Nat.min_l by lia.
  replace ((r + 1) * s - (r * s + bar_offset s)) with (s - bar_offset s) by lia.
  replace ((c + 1) * s - c * s) with s by lia.
  unfold broadcastable. rewrite !Nat.eqb_refl. cbn [orb andb].
  eexists. split; [reflexivity|]. split; [done|]. split.
  { cbn [data]. by rewrite length_imap. }
  intros y x k Hy Hx Hk. cbn [data].
  rewrite <- (ravel3 (R * s) (C * s) 3), list_lookup_imap.
  rewrite (unravel_ravel _ _ (in_bounds3 (R * s) (C * s) 3 y x k Hy Hx Hk)).
  rewrite (ravel3 (R * s) (C * s) 3 y x k).
  destruct (lookup_lt_is_Some_2 (data img) ((y * (C * s) + x) * 3 + k)) as [v Hv].
  { rewrite Hlen. by apply ravel3_lt. }
  rewrite Hv. cbn [fmap option_fmap option_map negb andb].
  rewrite (block_rows s r y (bar_offset s) Hs).
  replace (c * s <=? x) with (c * s + 0 <=? x) by (by rewrite Nat.add_0_r).
  rewrite <- andb_assoc, (block_rows s c x 0 Hs). cbn [Nat.leb]. rewrite andb_true_r.
  destruct (_ && _) eqn:Hblock; [|done].
  rewrite !andb_true_iff, !Nat.eqb_eq, Nat.leb_le in Hblock.
  destruct Hblock as [[Hyr Hye] Hxc].
  pose proof (Nat.div_mod_eq y s) as Hyd. pose proof (Nat.div_mod_eq x s) as Hxd.
  pose proof (Nat.mod_upper_bound y s) as Hym. pose proof (Nat.mod_upper_bound x s) as Hxm.
  replace (y - (r * s + bar_offset s)) with (y mod s - bar_offset s) by lia.
  replace (x - c * s) with (x mod s) by lia.
  rewrite !bcast_id by lia. rewrite ravel3, nth_lookup, lookup_drop.
  assert (Hd : y mod s = bar_offset s + (y mod s - bar_offset s)) by lia.
  replace (bar_offset s * (s * 3) + (((y mod s - bar_offset s) * s + x mod s) * 3 + k))
    with ((y mod s * s + x mod s) * 3 + k).
  2:{ rewrite Hd at 1. ring. }
  clear Hd.
  assert (Ho : (y mod s * s + x mod s) * 3 + k < s * s * 3).
  { apply ravel3_lt; lia. }
  rewrite (Hks _ Ho).
  replace (Z.to_nat (Z.of_nat K + b) * (s * s * 3) + ((y mod s * s + x mod s) * 3 + k))
    with (((Z.to_nat (Z.of_nat K + b) * s + y mod s) * s + x mod s) * 3 + k) by ring.
  destruct (lookup_lt_is_Some_2 (data res)
              (((Z.to_nat (Z.of_nat K + b) * s + y mod s) * s + x mod s) * 3 + k))
    as [w ->]; [|done].
  unfold wf_array in Hwf. rewrite Hwf, Hres.
  replace (size_of [N; s; s; 3]) with (N * s * s * 3) by (simpl; ring).
  apply digit_lt; [|done]. apply digit_lt; [|lia]. apply digit_lt; lia.
Qed.

Lemma cell_of_pixel C s y x p :
  0 < s → x < C * s → p / C * C + p mod C = p →
  (y / s =? p / C) && (x / s =? p mod C) = (y / s * C + x / s =? p).
Proof.
  intros Hs Hx Hp.
  assert (Hxs : x / s < C) by (apply Nat.Div0.div_lt_upper_bound; lia).
  assert (HC : 0 < C) by (destruct C; lia).
  pose proof (Nat.mod_upper_bound p C) as Hm.
  destruct (Nat.eqb_spec (y / s * C + x / s) p) as [Heq|Hne].
  - rewrite <- Hp in Heq. apply cell_index_inj in Heq as [-> ->]; [|lia..].
    by rewrite !Nat.eqb_refl.
  - apply andb_false_iff.
    destruct (Nat.eqb_spec (y / s) (p / C)) as [Hy|]; [|by left].
    destruct (Nat.eqb_spec (x / s) (p mod C)) as [Hx'|]; [|by right].
    exfalso. apply Hne. rewrite Hy, Hx'. done.
Qed.

Lemma postprocess_loop K res bombs s R C N ps img :
  shape res = [N; s; s; 3] → wf_array res → 0 < s →
  shape img = [R * s; C * s; 3] → length (data img) = R * s * (C * s) * 3 →
  shape bombs = [R; C] → length (data bombs) = R * C →
  Forall (λ p, p < R * C ∧
               (nth p (data bombs) 0%Z ≠ 0%Z →
                (0 ≤ Z.of_nat K + nth p (data bombs) 0 < Z.of_nat N)%Z)) ps →
  ∃ out,
    for_loop (postprocess_player K res bombs (Z.of_nat s)) img (unravel [R; C] <$> ps)
      = Ok out ∧
    shape out = [R * s; C * s; 3] ∧ length (data out) = length (data img) ∧
    ∀ y x k, y < R * s → x < C * s → k < 3 →
      data out !! ((y * (C * s) + x) * 3 + k) =
        if bool_decide (y / s * C + x / s ∈ ps)
           && negb (nth (y / s * C + x / s) (data bombs) 0 =? 0)%Z
           && (bar_offset s <=? y mod s)
        then data res !! (((Z.to_nat (Z.of_nat K + nth (y / s * C + x / s) (data bombs) 0)%Z
                            * s + y mod s) * s + x mod s) * 3 + k)
        else data img !! ((y * (C * s) + x) * 3 + k).
Proof.
  intros Hres Hwf Hs Himg Hlen Hbombs Hlenb Hall. revert img Himg Hlen.
  induction Hall as [|p ps [Hp Hvalid] _ IH]; intros img Himg Hlen.
  - exists img. split; [done|]. split; [done|]. split; [done|].
    intros y x k _ _ _. rewrite bool_decide_eq_false_2; [done|]. apply not_elem_of_nil.
  - cbn [fmap list_fmap for_loop].
    destruct (postprocess_player_lookup K res bombs s img R C N p)
      as (img' & -> & Hs' & Hl' & Hk'); try done.
    cbn [mbind result_bind].
    destruct (IH img' Hs') as (out & Hout & Hso & Hlo & Hko); [congruence|].
    exists out. split; [done|]. split; [done|]. split; [congruence|].
    intros y x k Hy Hx Hk. rewrite Hko, Hk' by done.
    assert (Hpp : p / C * C + p mod C = p) by (pose proof (Nat.div_mod_eq p C); lia).
    pose proof (cell_of_pixel C s y x p Hs Hx Hpp) as Hcp.
    set (q := y / s * C + x / s) in *.
    destruct (Nat.eqb_spec q p) as [Hq|Hq].
    + apply andb_true_iff in Hcp as [-> ->]. rewrite Hq.
      rewrite (bool_decide_eq_true_2 (p ∈ p :: ps)) by apply list_elem_of_here.
      destruct (bool_decide (p ∈ ps)), (negb _), (_ <=? _); done.
    + assert (Hinner : ∀ a b : bool,
                a && ((y / s =? p / C) && b) && (x / s =? p mod C) = false).
      { intros a b. apply andb_false_iff in Hcp as [-> | ->].
        - by rewrite andb_false_r.
        - by rewrite andb_false_r. }
      rewrite Hinner.
      destruct (decide (q ∈ ps)) as [Hin|Hnin].
      * rewrite !bool_decide_eq_true_2; [done|by right|done].
      * rewrite !bool_decide_eq_false_2; [done| |done].
        intros [?|?]%elem_of_cons; done.
Qed.

Lemma player_positions (ppboard : ndarray) q :
  q ∈ filter (λ p, bdata (__has_players ppboard) !! p = Some true)
        (seq 0 (length (bdata (__has_players ppboard))))
  ↔ ∃ code, data ppboard !! q = Some code ∧ (9 ≤ code ≤ 13)%Z.
Proof.
  rewrite list_elem_of_filter, elem_of_seq. cbn [__has_players bdata].
  rewrite list_lookup_fmap, length_fmap. split.
  - intros [Hq _]. destruct (data ppboard !! q) as [code|]; [|done].
    exists code. split; [done|]. injection Hq as Hq.
    apply andb_true_iff in Hq as [H1 H2]. apply Z.leb_le in H1, H2. done.
  - intros (code & Hcode & H1 & H2). rewrite Hcode. split.
    + cbn. f_equal. apply andb_true_iff. split; by apply Z.leb_le.
    + split; [lia|]. simpl. by eapply lookup_lt_Some.
Qed.

(** C2 (amended): for every player-occupied cell of the coded grid with a
    nonzero countdown, the overlay overwrites exactly the rows of the cell's
    pixel block from row scale//2 + scale//4 + scale//8 of the block to its
    bottom (the lowest eighth when 8 divides scale) with the same rows of
    the countdown-stage sprite for that timer value, and every other pixel
    of the rendered board is unchanged. *)
Theorem postprocess_board_bar (K : nat) rendered res bombs ppboard R C N s :
  shape res = [N; s; s; 3] → wf_array res → 0 < s →
  shape rendered = [R * s; C * s; 3] → wf_array rendered →
  shape bombs = [R; C] → wf_array bombs →
  shape ppboard = [R; C] → wf_array ppboard →
  (∀ r c code bomb, item ppboard [r; c] = Some code → item bombs [r; c] = Some bomb →
     (9 ≤ code ≤ 13)%Z → bomb ≠ 0%Z → (0 ≤ Z.of_nat K + bomb < Z.of_nat N)%Z) →
  bar_offset s = s / 2 + (s / 4 + s / 8) ∧
  (s mod 8 = 0 → s - bar_offset s = s / 8) ∧
  ∃ out, postprocess_board K rendered res bombs ppboard = Ok out ∧
    shape out = [R * s; C * s; 3] ∧
    ∀ y x k, y < R * s → x < C * s → k < 3 →
      ∃ code bomb,
        item ppboard [y / s; x / s] = Some code ∧ item bombs [y / s; x / s] = Some bomb ∧
        ((9 ≤ code ≤ 13)%Z → bomb ≠ 0%Z → bar_offset s ≤ y mod s →
         is_Some (item out [y; x; k]) ∧
         item out [y; x; k]
           = item res [Z.to_nat (Z.of_nat K + bomb); y mod s; x mod s; k]) ∧
        (¬ ((9 ≤ code ≤ 13)%Z ∧ bomb ≠ 0%Z ∧ bar_offset s ≤ y mod s) →
         item out [y; x; k] = item rendered [y; x; k]).
Proof.
  intros Hres Hwf Hs Hrend Hwr Hbombs Hwb Hpp Hwp Hvalid.
  split; [done|]. split; [unfold bar_offset; dlia|].
  unfold wf_array in Hwr, Hwb, Hwp. rewrite Hrend in Hwr. rewrite Hbombs in Hwb.
  rewrite Hpp in Hwp.
  assert (Hlr : length (data rendered) = R * s * (C * s) * 3) by (rewrite Hwr; simpl; ring).
  assert (Hlb : length (data bombs) = R * C) by (rewrite Hwb; simpl; ring).
  assert (Hlp : length (data ppboard) = R * C) by (rewrite Hwp; simpl; ring).
  unfold postprocess_board, shape_at. rewrite Hres, Hrend.
  cbn [lookup list_lookup mbind result_bind].
  replace (s =? 0) with false by (symmetry; apply Nat.eqb_neq; lia).
  unfold __where_agent, nonzero. cbn [bshape __has_players]. rewrite Hpp.
  set (ps := filter _ _).
  assert (Hps : ∀ q, q ∈ ps ↔ ∃ code, data ppboard !! q = Some code ∧ (9 ≤ code ≤ 13)%Z).
  { intros q. apply player_positions. }
  assert (Hcell : ∀ r c, r < R → c < C → r * C + c < R * C) by (intros; by apply digit_lt).
  destruct (postprocess_loop K res bombs s R C N ps rendered)
    as (out & Hout & Hso & Hlo & Hko); try done.
  { apply list.Forall_forall. intros p [code [Hcode Hplayer]]%Hps.
    assert (Hp : p < R * C) by (rewrite <- Hlp; by eapply lookup_lt_Some).
    split; [done|]. intros Hb.
    assert (HC : 0 < C) by (destruct C; lia).
    assert (Hr : p / C < R) by (apply Nat.Div0.div_lt_upper_bound; lia).
    assert (Hc : p mod C < C) by (apply Nat.mod_upper_bound; lia).
    assert (Hrc : p / C * C + p mod C = p) by (pose proof (Nat.div_mod_eq p C); lia).
    apply (Hvalid (p / C) (p mod C) code); try done.
    - rewrite (item2 _ R C) by done. by rewrite Hrc.
    - rewrite (item2 _ R C), Hrc by done. rewrite nth_lookup.
      destruct (lookup_lt_is_Some_2 (data bombs) p) as [v ->]; [lia|done]. }
  exists out. split; [done|]. split; [done|].
  intros y x k Hy Hx Hk.
  assert (Hyr : y / s < R) by (apply Nat.Div0.div_lt_upper_bound; lia).
  assert (Hxc : x / s < C) by (apply Nat.Div0.div_lt_upper_bound; lia).
  pose proof (Nat.mod_upper_bound y s) as Hym. pose proof (Nat.mod_upper_bound x s) as Hxm.
  set (q := y / s * C + x / s).
  destruct (lookup_lt_is_Some_2 (data ppboard) q) as [code Hcode]; [rewrite Hlp; by apply Hcell|].
  destruct (lookup_lt_is_Some_2 (data bombs) q) as [bomb Hbomb]; [rewrite Hlb; by apply Hcell|].
  exists code, bomb.
  rewrite (item2 ppboard R C), (item2 bombs R C) by done. fold q.
  split; [done|]. split; [done|].
  rewrite (item3 out (R * s) (C * s) 3), (item3 rendered (R * s) (C * s) 3) by done.
  rewrite (Hko y x k Hy Hx Hk). fold q.
  rewrite nth_lookup, Hbomb. change (default 0%Z (Some bomb)) with bomb.
  split.
  - intros Hplayer Hb He.
    rewrite bool_decide_eq_true_2 by (apply Hps; eauto).
    replace (bomb =? 0)%Z with false by (symmetry; apply Z.eqb_neq; done).
    replace (bar_offset s <=? y mod s) with true by (symmetry; apply Nat.leb_le; done).
    cbn [negb andb].
    assert (Hn : Z.to_nat (Z.of_nat K + bomb) < N).
    { specialize (Hvalid (y / s) (x / s) code bomb).
      rewrite (item2 ppboard R C), (item2 bombs R C) in Hvalid by done.
      specialize (Hvalid Hcode Hbomb Hplayer Hb). lia. }
    unfold item. rewrite Hres. cbn [in_bounds].
    repeat match goal with
           | |- context [?a <? ?b] =>
               replace (a <? b) with true by (symmetry; apply Nat.ltb_lt; lia)
           end.
    cbn [andb].
    replace (ravel [N; s; s; 3] [Z.to_nat (Z.of_nat K + bomb); y mod s; x mod s; k])
      with (((Z.to_nat (Z.of_nat K + bomb) * s + y mod s) * s + x mod s) * 3 + k)
      by (simpl; ring).
    split; [|done]. apply lookup_lt_is_Some_2.
    unfold wf_array in Hwf. rewrite Hwf, Hres.
    replace (size_of [N; s; s; 3]) with (N * s * s * 3) by (simpl; ring).
    apply digit_lt; [|done]. apply digit_lt; [|lia]. apply digit_lt; lia.
  - intros Hnot.
    destruct (_ && _) eqn:Hcond; [|done]. exfalso. apply Hnot.
    rewrite !andb_true_iff in Hcond. destruct Hcond as [[Hin Hb] He].
    apply bool_decide_eq_true_1, Hps in Hin as (code' & Hcode' & Hplayer).
    rewrite Hcode in Hcode'. injection Hcode' as <-.
    split; [done|]. split.
    + apply negb_true_iff, Z.eqb_neq in Hb. done.
    + by apply Nat.leb_le.
Qed.

Lemma postprocess_board_bar_witness :
  bar_offset 8 = 8 / 2 + (8 / 4 + 8 / 8) ∧
  (8 mod 8 = 0 → 8 - bar_offset 8 = 8 / 8) ∧
  ∃ out, postprocess_board 1 plain_frame row_atlas one_bomb player_cell = Ok out ∧
    shape out = [1 * 8; 1 * 8; 3] ∧
    ∀ y x k, y < 1 * 8 → x < 1 * 8 → k < 3 →
      ∃ code bomb,
        item player_cell [y / 8; x / 8] = Some code ∧
        item one_bomb [y / 8; x / 8] = Some bomb ∧
        ((9 ≤ code ≤ 13)%Z → bomb ≠ 0%Z → bar_offset 8 ≤ y mod 8 →
         is_Some (item out [y; x; k]) ∧
         item out [y; x; k]
           = item row_atlas [Z.to_nat (Z.of_nat 1 + bomb); y mod 8; x mod 8; k]) ∧
        (¬ ((9 ≤ code ≤ 13)%Z ∧ bomb ≠ 0%Z ∧ bar_offset 8 ≤ y mod 8) →
         item out [y; x; k] = item plain_frame [y; x; k]).
Proof.
  apply (postprocess_board_bar 1 plain_frame row_atlas one_bomb player_cell 1 1 3 8);
    try reflexivity; try lia.
  intros r c code bomb _ Hbomb _ _.
  destruct r as [|r]; [destruct c as [|c]|]; try discriminate Hbomb.
  injection Hbomb as <-. simpl. lia.
Defined.

(** At scale 8 the lower 37.5% of a block are its rows 5, 6 and 7.  The
    overlay leaves rows 5 and 6 of the player's block as rendered, although
    the countdown sprite differs there, and overwrites row 7 only. *)
Lemma bar_leaves_rows_above_last :
  ∃ out, postprocess_board 1 plain_frame row_atlas one_bomb player_cell = Ok out ∧
    item out [5; 0; 0] = Some 200%Z ∧ item row_atlas [2; 5; 0; 0] = Some 21%Z ∧
    item out [6; 0; 0] = Some 200%Z ∧ item row_atlas [2; 6; 0; 0] = Some 22%Z ∧
    item out [7; 0; 0] = Some 23%Z ∧ item row_atlas [2; 7; 0; 0] = Some 23%Z.
Proof. eexists. split; [vm_compute; reflexivity|]. repeat split. Qed.

(** ** Setting the board-generation parameters *)

(** The checks in the order of the source; [fin] closes a goal as soon as
    the outcome of the call is known. *)
Ltac stage_params r w i one fin :=
  unfold set_num_board_params;
  cbn [_num_wood _num_rigid _num_items];
  (destruct (Z.ltb_spec 0 r);
   [destruct (Z.eqb_spec (r mod 2) 0); [destruct (Z.leb_spec 2 r)|]|]);
  cbn [negb andb fst snd _num_wood _num_rigid _num_items];
  try solve [fin];
  (destruct (Z.ltb_spec 0 w);
   [destruct (Z.eqb_spec (w mod 2) 0);
    [destruct (Z.leb_spec 6 w); [destruct one; [destruct (Z.leb_spec 10 w)|]|]|]|]);
  cbn [negb andb fst snd _num_wood _num_rigid _num_items];
  try solve [fin];
  (destruct (Z.ltb_spec 0 i);
   [match goal with
    | |- context [(i <? ?x)%Z] => destruct (Z.ltb_spec i x)
    end|]);
  cbn [negb andb fst snd _num_wood _num_rigid _num_items];
  fin.

(** X1: the call returns normally exactly when every positive argument
    passes its checks (rigid even; wood even, at least 6, and at least 10 on
    the one-vs-one board; items below the wood count in force, which is the
    new one when num_wood is positive); it then stores the positive
    arguments and leaves the attributes of the others as they were. *)
Theorem set_num_board_params_accepts (one : bool) (self : board_params) (r w i : Z) :
  ((set_num_board_params one self r w i).1 = None ↔
     (r ≤ 0 ∨ r mod 2 = 0)%Z ∧
     (w ≤ 0 ∨ (w mod 2 = 0 ∧ 6 ≤ w ∧ (one = true → 10 ≤ w)))%Z ∧
     (i ≤ 0 ∨ i < (if 0 <? w then w else _num_wood self))%Z) ∧
  ((set_num_board_params one self r w i).1 = None →
   (set_num_board_params one self r w i).2
   = BoardParams (if 0 <? r then r else _num_rigid self)%Z
       (if 0 <? w then w else _num_wood self)%Z
       (if 0 <? i then i else _num_items self)%Z).
Proof.
  destruct self as [r0 w0 i0].
  stage_params r w i one
    ltac:(split;
          [split; [intros; try discriminate|intros (Hr & Hwd & Hi)]
          |intros; try discriminate];
          try done; try (exfalso; dlia);
          try (repeat split; try (intros; discriminate); dlia)).
Qed.

(** X2: when an assertion fails, the attributes assigned before it stay
    assigned: a failed wood check leaves a positive num_rigid stored, a
    failed item check leaves positive num_rigid and num_wood stored.  The
    assertion num_rigid >= 2 never fails, because it is reached only for
    positive even numbers. *)
Theorem set_num_board_params_failure (one : bool) (self : board_params) (r w i : Z)
    (e : assertion) :
  (set_num_board_params one self r w i).1 = Some e →
  match e with
  | RigidBelowTwo => False
  | RigidNotEven => (set_num_board_params one self r w i).2 = self
  | WoodNotEven | WoodBelowSix | WoodBelowTenOneVsOne =>
      (set_num_board_params one self r w i).2
      = BoardParams (if 0 <? r then r else _num_rigid self)%Z (_num_wood self)
          (_num_items self)
  | ItemsNotBelowWood =>
      (set_num_board_params one self r w i).2
      = BoardParams (if 0 <? r then r else _num_rigid self)%Z
          (if 0 <? w then w else _num_wood self)%Z (_num_items self)
  end.
Proof.
  destruct self as [r0 w0 i0].
  stage_params r w i one
    ltac:(intros Hfail; first [discriminate Hfail | injection Hfail as <-];
          try done; try (exfalso; dlia)).
Qed.

Lemma set_num_board_params_failure_witness :
  (set_num_board_params false (BoardParams 36 36 20) 4 7 0).2 = BoardParams 4 36 20.
Proof.
  apply (set_num_board_params_failure false (BoardParams 36 36 20) 4 7 0 WoodNotEven).
  reflexivity.
Defined.

(** ** What a computation leaves untouched *)

Lemma untouched_refl st : untouched st st.
Proof. split; [done|]. unfold arrays_kept. done. Qed.

Lemma untouched_lookup st0 st l a :
  untouched st0 st → arrays st0 !! l = Some a → arrays st !! l = Some a.
Proof. intros [_ [k Hk]] Hl. rewrite Hk. by apply lookup_app_l_Some. Qed.

Lemma untouched_length st0 st : untouched st0 st → length (arrays st0) ≤ length (arrays st).
Proof. intros [_ [k Hk]]. rewrite Hk, length_app. lia. Qed.

Lemma framed_bind st0 {A B} (m : M A) (f : A → M B) (Q : A → Prop) (Q' : B → Prop) :
  framed st0 m Q → (∀ a, Q a → framed st0 (f a) Q') → framed st0 (m ≫= f) Q'.
Proof.
  intros Hm Hf st r st' Hst Hrun. rewrite bind_run in Hrun.
  destruct (m st) as [[a|e] st1] eqn:Hm1.
  - destruct (Hm st (Ok a) st1 Hst Hm1) as [Hst1 Ha].
    apply (Hf a (Ha a eq_refl) st1 r st' Hst1 Hrun).
  - injection Hrun as <- <-.
    destruct (Hm st (Raise e) st1 Hst Hm1) as [Hst1 _]. split; [done|]. by intros.
Qed.

Lemma framed_weaken st0 {A} (m : M A) (Q Q' : A → Prop) :
  framed st0 m Q → (∀ a, Q a → Q' a) → framed st0 m Q'.
Proof.
  intros Hm HQ st r st' Hst Hrun. destruct (Hm st r st' Hst Hrun) as [H1 H2].
  split; [done|]. intros a Ha. apply HQ. by apply H2.
Qed.

Lemma framed_lift st0 {A} (r : result A) : framed st0 (lift r) (λ _, True).
Proof. intros st r' st' Hst [= <- <-]. by split. Qed.

Lemma framed_mret st0 {A} (a : A) (Q : A → Prop) : Q a → framed st0 (mret a) Q.
Proof. intros Ha st r st' Hst [= <- <-]. split; [done|]. by intros ? [= <-]. Qed.

Lemma framed_load st0 r : framed st0 (load r) (λ _, True).
Proof.
  intros st r' st' Hst Hrun. unfold load in Hrun.
  destruct (arrays st !! r); injection Hrun as <- <-; by split.
Qed.

Lemma framed_obs_get st0 {A} o (key : observation → A) : framed st0 (obs_get o key) (λ _, True).
Proof.
  intros st r' st' Hst Hrun. unfold obs_get in Hrun.
  destruct (dicts st !! o); injection Hrun as <- <-; by split.
Qed.

Lemma framed_obs_key st0 {A} o (key : observation → option A) :
  framed st0 (obs_key o key) (λ _, True).
Proof.
  intros st r' st' Hst Hrun. unfold obs_key in Hrun.
  destruct (dicts st !! o ≫= key); injection Hrun as <- <-; by split.
Qed.

Lemma framed_new_array st0 a : framed st0 (new_array a) (λ l, length (arrays st0) ≤ l).
Proof.
  intros st r st' Hst [= <- <-]. split.
  - destruct Hst as [Hd [k Hk]]. split; [done|]. exists (k ++ [a]). cbn [arrays].
    by rewrite Hk, app_assoc.
  - intros l [= <-]. by apply untouched_length.
Qed.

Lemma framed_write st0 l a : length (arrays st0) ≤ l → framed st0 (write l a) (λ _, True).
Proof.
  intros Hl st r st' Hst [= <- <-]. split; [|done].
  destruct Hst as [Hd [k Hk]]. split; [done|]. cbn [arrays].
  exists (<[l - length (arrays st0) := a]> k). rewrite Hk.
  by apply insert_app_r_alt.
Qed.

Lemma framed_np_copy st0 r : framed st0 (np_copy r) (λ l, length (arrays st0) ≤ l).
Proof.
  unfold np_copy. eapply framed_bind; [apply framed_load|].
  intros a _. apply framed_new_array.
Qed.

Lemma framed_assign_bombs K st0 l bombs :
  length (arrays st0) ≤ l → framed st0 (assign_bombs K l bombs) (λ _, True).
Proof.
  intros Hl. unfold assign_bombs.
  eapply framed_bind; [apply framed_load|]. intros bv _.
  eapply framed_bind; [apply framed_load|]. intros cur _.
  eapply framed_bind; [apply framed_lift|]. intros m _.
  eapply framed_bind; [apply framed_lift|]. intros sel _.
  eapply framed_bind; [apply framed_load|]. intros cur' _.
  eapply framed_bind; [apply framed_lift|]. intros m' _.
  eapply framed_bind; [apply framed_lift|]. intros new _.
  by apply framed_write.
Qed.

Lemma framed_preprocess_board K st0 o :
  framed st0 (preprocess_board K o) (λ l, length (arrays st0) ≤ l).
Proof.
  unfold preprocess_board.
  eapply framed_bind; [apply framed_obs_get|]. intros src _.
  eapply framed_bind; [apply framed_np_copy|]. intros l Hl.
  eapply framed_bind; [apply framed_obs_get|]. intros bombs _.
  eapply framed_bind; [by apply framed_assign_bombs|]. intros _ _.
  eapply framed_bind; [apply framed_obs_key|]. intros my_idx _.
  eapply framed_bind; [apply framed_load|]. intros cur _.
  eapply (framed_bind _ _ _ (λ _, True)).
  { destruct (np_any _); [|by apply framed_mret].
    eapply framed_bind; [apply framed_lift|]. intros new _. by apply framed_write. }
  intros _ _.
  eapply framed_bind; [apply framed_obs_get|]. intros al _.
  eapply (framed_bind _ _ _ (λ _, True)).
  { destruct (bool_decide _); [|by apply framed_mret].
    eapply framed_bind; [apply framed_obs_get|]. intros pos _.
    eapply framed_bind; [apply framed_load|]. intros cur' _.
    eapply framed_bind; [apply framed_lift|]. intros new _. by apply framed_write. }
  intros _ _. by apply framed_mret.
Qed.

(** X3: whatever the store and the reference, and whether it returns or
    raises, preprocess_board changes no observation dict and no array that
    existed before the call; the grid it returns is a new object. *)
Theorem preprocess_board_never_mutates (K : nat) (o : ref) (st : store) :
  dicts (preprocess_board K o st).2 = dicts st ∧
  (∀ l a, arrays st !! l = Some a → arrays (preprocess_board K o st).2 !! l = Some a) ∧
  (∀ l, (preprocess_board K o st).1 = Ok l → arrays st !! l = None).
Proof.
  destruct (preprocess_board K o st) as [r st'] eqn:Hrun.
  destruct (framed_preprocess_board K st o st r st' (untouched_refl st) Hrun) as [Hst Hl].
  split; [apply Hst|]. split.
  - intros l a. by apply untouched_lookup.
  - cbn [fst]. intros l ->. apply lookup_ge_None. by apply Hl.
Qed.

(** ** Errors of the preprocessor *)

Lemma norm_index_outside n i :
  ¬ (- Z.of_nat n ≤ i < Z.of_nat n)%Z → norm_index n i = Raise IndexError.
Proof.
  intros Hi. unfold norm_index.
  destruct (Z.leb_spec 0 i), (Z.ltb_spec i (Z.of_nat n)), (Z.leb_spec (- Z.of_nat n) i),
    (Z.ltb_spec i 0); cbn [andb]; try done; lia.
Qed.

(** X4: on an observation whose 'my_sprite' key has not been written,
    preprocess_board raises KeyError; by then it has made the copy of the
    board and marked the bombs in it, and the observation is as before. *)
Theorem preprocess_board_missing_sprite (K : nat) st o d b bl :
  dicts st !! o = Some d → arrays st !! board d = Some b →
  arrays st !! bomb_life d = Some bl → shape b = shape bl →
  length (data b) = length (data bl) → my_sprite d = None →
  preprocess_board K o st
  = (Raise KeyError,
     Store (arrays st ++ [NDArray (shape b) (zip_with (mark_bomb K) (data bl) (data b))])
       (dicts st)).
Proof.
  intros Hd Hb Hbl Hsh Hlen Hmy. unfold preprocess_board.
  rewrite bind_run. unfold obs_get at 1. rewrite Hd.
  rewrite bind_run. unfold np_copy. rewrite bind_run. unfold load at 1. rewrite Hb.
  unfold new_array at 1. cbn [arrays dicts].
  rewrite bind_run, (obs_get_run _ _ _ _ _ Hd).
  rewrite bind_run, (assign_bombs_run K _ _ _ _ _ Hbl Hsh Hlen).
  rewrite bind_run. unfold obs_key. cbn [dicts]. rewrite Hd. cbn [mbind option_bind].
  by rewrite Hmy.
Qed.

Lemma preprocess_board_missing_sprite_witness :
  preprocess_board 28 0 (Store [sample_board; sample_bombs] [idle_status])
  = (Raise KeyError,
     Store ([sample_board; sample_bombs]
            ++ [NDArray (shape sample_board)
                  (zip_with (mark_bomb 28) (data sample_bombs) (data sample_board))])
       [idle_status]).
Proof.
  apply (preprocess_board_missing_sprite 28 (Store [sample_board; sample_bombs] [idle_status])
           0 idle_status sample_board sample_bombs); reflexivity.
Defined.

(** X5: when the agent is alive and its position is not on the board (a
    row outside [-R, R) or a column outside [-C, C)), preprocess_board
    raises IndexError. *)
Theorem preprocess_board_position_off_board (K : nat) st o d b bl my R C :
  observed st o d b bl my → shape b = [R; C] → my ∈ alive d →
  ¬ ((- Z.of_nat R ≤ (position d).1 < Z.of_nat R)%Z ∧
     (- Z.of_nat C ≤ (position d).2 < Z.of_nat C)%Z) →
  (preprocess_board K o st).1 = Raise IndexError.
Proof.
  intros Hobs Hsh Halive Hpos.
  rewrite (preprocess_board_run K st o d b bl my Hobs).
  rewrite bool_decide_eq_true_2 by done.
  unfold set_item2, substituted. cbn [shape]. rewrite Hsh.
  destruct (decide (- Z.of_nat R ≤ (position d).1 < Z.of_nat R)%Z) as [Hr|Hr].
  - rewrite (norm_index_wrap _ _ Hr). cbn [mbind result_bind].
    rewrite norm_index_outside; [done|]. intros Hc. by apply Hpos.
  - by rewrite (norm_index_outside _ _ Hr).
Qed.

Lemma preprocess_board_position_off_board_witness :
  (preprocess_board 28 0
     (Store [sample_board; sample_bombs]
        [Observation 0 1 (2, 0)%Z [10]%Z 2 1 0 (Some 10%Z)])).1
  = Raise IndexError.
Proof.
  apply (preprocess_board_position_off_board 28
           (Store [sample_board; sample_bombs]
              [Observation 0 1 (2, 0)%Z [10]%Z 2 1 0 (Some 10%Z)])
           0 (Observation 0 1 (2, 0)%Z [10]%Z 2 1 0 (Some 10%Z))
           sample_board sample_bombs 10 2 2).
  - by constructor.
  - reflexivity.
  - by left.
  - simpl. lia.
Defined.

(** ** The placeholder code and the range of the codes *)

Lemma substitute_other_ne my v :
  my ≠ KEEP_MY_AGENT_SPRITE → substitute_other my v ≠ KEEP_MY_AGENT_SPRITE.
Proof.
  intros Hmy. unfold substitute_other.
  destruct (Z.eqb_spec v KEEP_MY_AGENT_SPRITE); done.
Qed.

(** X6: for an agent whose own code is not 11 (every agent but agent 1),
    a cell of the returned grid holds the placeholder code 11 if and only
    if the agent is alive and the cell is its own position: every other 11,
    raw or produced by the bomb step, has been replaced by the agent's
    code. *)
Theorem preprocess_board_placeholder_only_self (K : nat) st o d b bl my R C l st' :
  observed st o d b bl my → shape b = [R; C] → length (data b) = R * C →
  my ≠ KEEP_MY_AGENT_SPRITE →
  preprocess_board K o st = (Ok l, st') →
  ∃ g, arrays st' !! l = Some g ∧ shape g = [R; C] ∧
    ∀ r c, r < R → c < C →
      (item g [r; c] = Some KEEP_MY_AGENT_SPRITE ↔
       my ∈ alive d ∧ wrap R (position d).1 = r ∧ wrap C (position d).2 = c).
Proof.
  intros Hobs Hsh Hlen Hmy Hrun. pose proof Hobs as [Hd Hb Hbl Hshape Hlens Hsp].
  assert (Hlenl : length (data bl) = R * C) by congruence.
  rewrite (preprocess_board_run K st o d b bl my Hobs) in Hrun.
  assert (Hcell : ∀ r c, r < R → c < C →
            data (substituted K b bl my) !! (r * C + c) ≠ Some KEEP_MY_AGENT_SPRITE).
  { intros r c Hr Hc.
    destruct (substituted_cell K b bl my R C r c) as (bomb & cell & _ & _ & ->); try done.
    intros [= Heq]. by apply (substitute_other_ne my (mark_bomb K bomb cell)). }
  destruct (bool_decide (my ∈ alive d)) eqn:Halive.
  - apply bool_decide_eq_true_1 in Halive.
    destruct (set_item2 _ _ _) as [g|e] eqn:Hset; [|done].
    injection Hrun as <- <-. cbn [arrays].
    exists g. split; [by rewrite list_lookup_middle|].
    apply (set_item2_Ok _ R C) in Hset as (Hr0 & Hc0 & ->); [|done].
    split; [done|]. intros r c Hr Hc.
    rewrite (item2 _ R C) by done. cbn [data].
    destruct (decide (wrap R (position d).1 * C + wrap C (position d).2 = r * C + c))
      as [Heq|Hne].
    + rewrite Heq. rewrite list_lookup_insert_eq.
      * apply cell_index_inj in Heq as [-> ->]; done.
      * unfold substituted. cbn [data].
        rewrite length_fmap, length_zip_with, Hlenl, Hlen, Nat.min_id.
        by apply digit_lt.
    + rewrite list_lookup_insert_ne by done. split.
      * intros Hkeep. by apply Hcell in Hkeep.
      * intros (_ & <- & <-). done.
  - apply bool_decide_eq_false_1 in Halive.
    injection Hrun as <- <-. cbn [arrays].
    exists (substituted K b bl my). split; [by rewrite list_lookup_middle|].
    split; [done|]. intros r c Hr Hc. rewrite (item2 _ R C) by done. split.
    + intros Hkeep. by apply Hcell in Hkeep.
    + intros (Hin & _). done.
Qed.

Lemma preprocess_board_placeholder_only_self_witness :
  ∃ g, arrays (Store (arrays alive_store ++ [NDArray [2; 2] [0; 11; 32; 10]%Z])
                 (dicts alive_store)) !! 2 = Some g ∧ shape g = [2; 2] ∧
    ∀ r c, r < 2 → c < 2 →
      (item g [r; c] = Some KEEP_MY_AGENT_SPRITE ↔
       10%Z ∈ alive alive_obs ∧ wrap 2 (position alive_obs).1 = r
       ∧ wrap 2 (position alive_obs).2 = c).
Proof.
  apply (preprocess_board_placeholder_only_self 28 alive_store 0 alive_obs sample_board
           sample_bombs 10 2 2 2 _ observed_alive); try reflexivity.
  discriminate.
Defined.

Lemma mark_bomb_range K NB bomb cell :
  (0 ≤ cell < Z.of_nat K)%Z → (0 ≤ bomb ≤ Z.of_nat NB)%Z →
  (0 ≤ mark_bomb K bomb cell < Z.of_nat (K + NB + 1))%Z.
Proof.
  intros Hc Hb. unfold mark_bomb, uint8. destruct (_ && _); dlia.
Qed.

(** X7: when the raw board holds codes below len(FILE_NAMES), the
    countdowns lie between 0 and the number of bomb sprites, the agent's
    code is below len(FILE_NAMES), and len(FILE_NAMES) is above 11, every
    cell of the returned grid is an index into an atlas of
    len(FILE_NAMES) + len(BOMB_FILE_NAMES) + 1 sprites, and the compositor
    renders the grid over such an atlas without error. *)
Theorem preprocess_board_codes_in_atlas (K NB : nat) st o d b bl my R C l st' :
  observed st o d b bl my → shape b = [R; C] → length (data b) = R * C →
  Forall (λ v, (0 ≤ v < Z.of_nat K)%Z) (data b) →
  Forall (λ v, (0 ≤ v ≤ Z.of_nat NB)%Z) (data bl) →
  (0 ≤ my < Z.of_nat K)%Z → 11 < K →
  preprocess_board K o st = (Ok l, st') →
  ∃ g, arrays st' !! l = Some g ∧ shape g = [R; C] ∧ wf_array g ∧
    Forall (λ v, (0 ≤ v < Z.of_nat (K + NB + 1))%Z) (data g) ∧
    ∀ res s, shape res = [K + NB + 1; s; s; 3] → wf_array res →
      ∃ img, render_preprocessed_board g res = Ok img ∧ shape img = [R * s; C * s; 3].
Proof.
  intros Hobs Hsh Hlen Hcells Hbombs Hmy HK Hrun.
  pose proof Hobs as [Hd Hb Hbl Hshape Hlens Hsp].
  assert (Hlenl : length (data bl) = R * C) by congruence.
  rewrite (preprocess_board_run K st o d b bl my Hobs) in Hrun.
  assert (Hsub : Forall (λ v, (0 ≤ v < Z.of_nat (K + NB + 1))%Z)
                   (data (substituted K b bl my))).
  { unfold substituted. cbn [data]. apply Forall_fmap, Forall_lookup.
    intros i v Hv. apply lookup_zip_with_Some in Hv as (bomb & cell & -> & Hbomb & Hcell).
    rewrite Forall_lookup in Hcells, Hbombs.
    pose proof (mark_bomb_range K NB bomb cell (Hcells _ _ Hcell) (Hbombs _ _ Hbomb)).
    cbn. unfold substitute_other. destruct (_ =? _)%Z; lia. }
  assert (Hlsub : length (data (substituted K b bl my)) = R * C).
  { unfold substituted. cbn [data].
    by rewrite length_fmap, length_zip_with, Hlenl, Hlen, Nat.min_id. }
  assert (Hfinal : ∃ g, arrays st' !! l = Some g ∧ shape g = [R; C] ∧
            length (data g) = R * C ∧
            Forall (λ v, (0 ≤ v < Z.of_nat (K + NB + 1))%Z) (data g)).
  { destruct (bool_decide (my ∈ alive d)).
    - destruct (set_item2 _ _ _) as [g|e] eqn:Hset; [|done].
      injection Hrun as <- <-. cbn [arrays].
      exists g. split; [by rewrite list_lookup_middle|].
      apply (set_item2_Ok _ R C) in Hset as (Hr0 & Hc0 & ->); [|done].
      split; [done|]. cbn [data]. split; [by rewrite length_insert|].
      apply Forall_insert; [done|]. unfold KEEP_MY_AGENT_SPRITE. lia.
    - injection Hrun as <- <-. cbn [arrays].
      exists (substituted K b bl my). split; [by rewrite list_lookup_middle|]. done. }
  destruct Hfinal as (g & Hg & Hsg & Hlg & Hrange).
  exists g. split; [done|]. split; [done|]. split.
  { unfold wf_array. rewrite Hsg, Hlg. simpl. lia. }
  split; [done|]. intros res s Hres Hwf.
  destruct (render_preprocessed_board_pixels g res R C (K + NB + 1) s s 3)
    as (img & Himg & Hsi & _); try done.
  - unfold wf_array. rewrite Hsg, Hlg. simpl. lia.
  - eapply List.Forall_impl; [|exact Hrange]. cbn. lia.
  - by exists img.
Qed.

Lemma preprocess_board_codes_in_atlas_witness :
  ∃ g, arrays (Store (arrays alive_store ++ [NDArray [2; 2] [0; 11; 32; 10]%Z])
                 (dicts alive_store)) !! 2 = Some g ∧ shape g = [2; 2] ∧ wf_array g ∧
    Forall (λ v, (0 ≤ v < Z.of_nat (28 + 10 + 1))%Z) (data g) ∧
    ∀ res s, shape res = [28 + 10 + 1; s; s; 3] → wf_array res →
      ∃ img, render_preprocessed_board g res = Ok img ∧ shape img = [2 * s; 2 * s; 3].
Proof.
  apply (preprocess_board_codes_in_atlas 28 10 alive_store 0 alive_obs sample_board
           sample_bombs 10 2 2 2 _ observed_alive); try reflexivity; try lia.
  - repeat constructor; simpl; lia.
  - repeat constructor; simpl; lia.
Defined.

(** ** The compositor on other inputs *)

Lemma item4 a N H W C n y x k :
  shape a = [N; H; W; C] → n < N → y < H → x < W → k < C →
  item a [n; y; x; k] = data a !! (((n * H + y) * W + x) * C + k).
Proof.
  intros Hsh Hn Hy Hx Hk. unfold item. rewrite Hsh. cbn [in_bounds].
  apply Nat.ltb_lt in Hn, Hy, Hx, Hk. rewrite Hn, Hy, Hx, Hk. cbn [andb].
  f_equal. simpl. ring.
Qed.

(** X8: the compositor takes sprites of any height, width and channel
    count, and codes from -n up to n-1 over an atlas of n sprites: a
    negative code c selects sprite n + c, as numpy indexing does (this is
    how the dashboard's blank code -1 reaches the last slot of the atlas). *)
Theorem render_preprocessed_board_wraps board resources rows cols n h w ch :
  shape board = [rows; cols] → wf_array board →
  shape resources = [n; h; w; ch] → wf_array resources →
  Forall (λ c, (- Z.of_nat n ≤ c < Z.of_nat n)%Z) (data board) →
  ∃ img, render_preprocessed_board board resources = Ok img ∧
    shape img = [rows * h; cols * w; ch] ∧ wf_array img ∧
    ∀ r c i j k, r < rows → c < cols → i < h → j < w → k < ch →
      ∃ code, item board [r; c] = Some code ∧
        is_Some (item img [r * h + i; c * w + j; k]) ∧
        item img [r * h + i; c * w + j; k]
        = item resources [if (code <? 0)%Z then Z.to_nat (Z.of_nat n + code)
                          else Z.to_nat code; i; j; k].
Proof.
  intros Hb Hwb Hr Hwr Hall.
  destruct (render_preprocessed_board_pixels board resources rows cols n h w ch)
    as (img & Himg & Hsh & Hwf & Hpx); try done.
  exists img. split; [done|]. split; [done|]. split; [done|].
  intros r c i j k Hr' Hc' Hi Hj Hk.
  destruct (lookup_lt_is_Some_2 (data board) (r * cols + c)) as [code Hcode].
  { unfold wf_array in Hwb. rewrite Hwb, Hb. simpl. rewrite Nat.mul_1_r.
    by apply digit_lt. }
  assert (Hrange : (- Z.of_nat n ≤ code < Z.of_nat n)%Z).
  { rewrite Forall_lookup in Hall. by apply (Hall _ _ Hcode). }
  exists code. rewrite (item2 board rows cols) by done. split; [done|].
  assert (Hw : (if (code <? 0)%Z then Z.to_nat (Z.of_nat n + code) else Z.to_nat code)
               = wrap n code).
  { unfold wrap. destruct (code <? 0)%Z; f_equal; lia. }
  rewrite Hw. pose proof (wrap_lt n code Hrange) as Hlt.
  rewrite (item4 resources n h w ch) by done.
  rewrite (item3 img (rows * h) (cols * w) ch);
    [|done|by apply digit_lt|by apply digit_lt|done].
  rewrite (Hpx r c i j k code) by done. split; [|done].
  apply lookup_lt_is_Some_2. unfold wf_array in Hwr. rewrite Hwr, Hr.
  replace (size_of [n; h; w; ch]) with (n * h * w * ch) by (simpl; ring).
  apply digit_lt; [|done]. apply digit_lt; [|done]. by apply digit_lt.
Qed.

Lemma render_preprocessed_board_wraps_witness :
  ∃ img, render_preprocessed_board (NDArray [1; 2] [-1; 0]%Z) (atlas2 128 255) = Ok img ∧
    shape img = [1 * 1; 2 * 1; 3] ∧ wf_array img ∧
    ∀ r c i j k, r < 1 → c < 2 → i < 1 → j < 1 → k < 3 →
      ∃ code, item (NDArray [1; 2] [-1; 0]%Z) [r; c] = Some code ∧
        is_Some (item img [r * 1 + i; c * 1 + j; k]) ∧
        item img [r * 1 + i; c * 1 + j; k]
        = item (atlas2 128 255) [if (code <? 0)%Z then Z.to_nat (Z.of_nat 2 + code)
                                 else Z.to_nat code; i; j; k].
Proof.
  apply (render_preprocessed_board_wraps (NDArray [1; 2] [-1; 0]%Z) (atlas2 128 255)
           1 2 2 1 1 3); try reflexivity.
  repeat constructor; simpl; lia.
Defined.

Lemma subarray_raises a i e : subarray a i = Raise e → e = IndexError.
Proof.
  unfold subarray. destruct (shape a) as [|n rest]; [by intros [= <-]|].
  unfold norm_index. repeat case_match; cbn; by intros [= <-].
Qed.

Lemma for_each_raises {A B} (f : A → result B) l x :
  (∀ y e, f y = Raise e → e = IndexError) →
  x ∈ l → f x = Raise IndexError → for_each f l = Raise IndexError.
Proof.
  intros Hf Hx Hfx. induction l as [|y l IH]; [by apply elem_of_nil in Hx|].
  cbn [for_each]. destruct (f y) as [b|e] eqn:Hy.
  - apply elem_of_cons in Hx as [->|Hx]; [congruence|].
    cbn [mbind result_bind]. by rewrite (IH Hx).
  - cbn [mbind result_bind]. by rewrite (Hf y e Hy).
Qed.

(** X9: if some cell of the grid is not an index of the atlas (below -n or
    at least n for an atlas of n sprites), the compositor raises
    IndexError. *)
Theorem render_preprocessed_board_bad_code board resources n rest code :
  shape resources = n :: rest → code ∈ data board →
  ¬ (- Z.of_nat n ≤ code < Z.of_nat n)%Z →
  render_preprocessed_board board resources = Raise IndexError.
Proof.
  intros Hr Hin Hbad. unfold render_preprocessed_board, take_index. rewrite Hr.
  rewrite (for_each_raises _ _ code); [done| |done|].
  - intros y e Hy. destruct (subarray resources y) as [a|e'] eqn:Hs; [done|].
    injection Hy as <-. by apply (subarray_raises resources y).
  - unfold subarray. rewrite Hr. by rewrite (norm_index_outside n code Hbad).
Qed.

Lemma render_preprocessed_board_bad_code_witness :
  render_preprocessed_board (NDArray [1; 2] [0; 2]%Z) (atlas2 128 255) = Raise IndexError.
Proof.
  apply (render_preprocessed_board_bad_code (NDArray [1; 2] [0; 2]%Z) (atlas2 128 255)
           2 [1; 1; 3] 2%Z).
  - reflexivity.
  - right. left.
  - simpl. lia.
Defined.

(** ** The overlay on other inputs *)

(** X10: with an atlas of sprites of height 0 the overlay raises
    ZeroDivisionError before it looks at the boards, whether or not a
    player stands on a bomb: the board size is computed first, by a
    division by the scale. *)
Theorem postprocess_board_zero_scale (K : nat) rendered res bombs ppboard :
  shape res !! 1 = Some 0 → is_Some (shape rendered !! 0) →
  postprocess_board K rendered res bombs ppboard = Raise ZeroDivisionError.
Proof.
  intros Hs [r0 Hr0]. unfold postprocess_board, shape_at. by rewrite Hs, Hr0.
Qed.

Lemma postprocess_board_zero_scale_witness :
  postprocess_board 28 (NDArray [0; 0; 3] []) (NDArray [39; 0; 0; 3] []) one_bomb player_cell
  = Raise ZeroDivisionError.
Proof.
  apply (postprocess_board_zero_scale 28 (NDArray [0; 0; 3] []) (NDArray [39; 0; 0; 3] [])
           one_bomb player_cell); [reflexivity|by eexists].
Defined.

Lemma postprocess_loop_idle K res bombs s R C ps img :
  shape bombs = [R; C] →
  Forall (λ p, p < R * C ∧ nth p (data bombs) 0%Z = 0%Z) ps →
  for_loop (postprocess_player K res bombs s) img (unravel [R; C] <$> ps) = Ok img.
Proof.
  intros Hbombs. induction 1 as [|p ps [Hp Hb] _ IH]; [done|].
  cbn [fmap list_fmap for_loop].
  assert (HC : 0 < C) by (destruct C; lia).
  assert (Hr : p / C < R) by (apply Nat.Div0.div_lt_upper_bound; lia).
  assert (Hc : p mod C < C) by (apply Nat.mod_upper_bound; lia).
  assert (Hrc : p / C * C + p mod C = p) by (pose proof (Nat.div_mod_eq p C); lia).
  assert (Hstep : postprocess_player K res bombs s img (unravel [R; C] p) = Ok img).
  { unfold postprocess_player. rewrite unravel2.
    unfold index_list. cbn [lookup list_lookup mbind result_bind].
    unfold get_item2. rewrite Hbombs. cbn [fst snd].
    rewrite !norm_index_nat by done. cbn [mbind result_bind].
    by rewrite Hrc, Hb. }
  change (list_fmap nat (list nat) (unravel [R; C]) ps) with (unravel [R; C] <$> ps).
  rewrite Hstep. cbn [mbind result_bind]. exact IH.
Qed.

(** X11: when no player-occupied cell of the coded grid has a nonzero
    countdown, the overlay returns the rendered board as it received it,
    whatever the atlas holds (its sprite height must not be 0). *)
Theorem postprocess_board_without_bombs (K : nat) rendered res bombs ppboard R C s :
  shape res !! 1 = Some s → 0 < s → is_Some (shape rendered !! 0) →
  shape bombs = [R; C] → wf_array bombs → shape ppboard = [R; C] → wf_array ppboard →
  (∀ r c code, r < R → c < C → item ppboard [r; c] = Some code → (9 ≤ code ≤ 13)%Z →
     item bombs [r; c] = Some 0%Z) →
  postprocess_board K rendered res bombs ppboard = Ok rendered.
Proof.
  intros Hs Hs0 [r0 Hr0] Hbombs Hwb Hpp Hwp Hidle.
  unfold wf_array in Hwb, Hwp. rewrite Hbombs in Hwb. rewrite Hpp in Hwp.
  assert (Hlb : length (data bombs) = R * C) by (rewrite Hwb; simpl; ring).
  assert (Hlp : length (data ppboard) = R * C) by (rewrite Hwp; simpl; ring).
  unfold postprocess_board, shape_at. rewrite Hs, Hr0. cbn [mbind result_bind].
  replace (s =? 0) with false by (symmetry; apply Nat.eqb_neq; lia).
  unfold __where_agent, nonzero. cbn [bshape __has_players]. rewrite Hpp.
  apply postprocess_loop_idle; [done|].
  apply list.Forall_forall. intros p [code [Hcode Hplayer]]%player_positions.
  assert (Hp : p < R * C) by (rewrite <- Hlp; by eapply lookup_lt_Some).
  split; [done|].
  assert (HC : 0 < C) by (destruct C; lia).
  assert (Hr : p / C < R) by (apply Nat.Div0.div_lt_upper_bound; lia).
  assert (Hc : p mod C < C) by (apply Nat.mod_upper_bound; lia).
  assert (Hrc : p / C * C + p mod C = p) by (pose proof (Nat.div_mod_eq p C); lia).
  specialize (Hidle (p / C) (p mod C) code Hr Hc).
  rewrite (item2 ppboard R C), (item2 bombs R C), Hrc in Hidle by done.
  rewrite nth_lookup, (Hidle Hcode Hplayer). done.
Qed.

Lemma postprocess_board_without_bombs_witness :
  postprocess_board 1 plain_frame row_atlas (NDArray [1; 1] [0]%Z) player_cell = Ok plain_frame.
Proof.
  apply (postprocess_board_without_bombs 1 plain_frame row_atlas (NDArray [1; 1] [0]%Z)
           player_cell 1 1 8); try reflexivity; try lia.
  - by eexists.
  - intros r c code Hr Hc _ _. by replace r with 0 by lia; replace c with 0 by lia.
Defined.

(** ** The dashboard on other inputs *)

Lemma conversion_array_empty NB obs : conversion_array NB obs 0 = Raise IndexError.
Proof. reflexivity. Qed.

(** X12: for a board of size 0 the dashboard raises IndexError, whatever
    the status and the atlas are: the row has no centre column to write. *)
Theorem prepare_dashboard_empty_board (NB : nat) (obs : observation) (res : ndarray)
    (scale : nat) :
  prepare_dashboard NB obs res scale 0 = Raise IndexError.
Proof.
  unfold prepare_dashboard. by rewrite conversion_array_empty.
Qed.

Lemma dash_blast_range NB obs n :
  0 < n → (0 ≤ blast_strength obs)%Z →
  (0 ≤ dash_blast_strength NB obs n)%Z ∧
  Z.to_nat ((dash_blast_strength NB obs n + 1) / 2) ≤ n / 2.
Proof.
  intros Hn Hb. unfold dash_blast_strength, min3, blast_bound.
  destruct (Z.eqb_spec (Z.of_nat n mod 2) 1) as [H|H]; dlia.
Qed.

(** X13: for a positive board size and non-negative blast strength and
    ammo, the cells that hold the blast-strength sprite index are exactly
    the first ceil(clamped_blast_strength/2) columns, all of them left of
    the centre column; the ammo cells are all right of it; the centre
    column holds the kick sprite index 8 if can_kick is positive and the
    blank code otherwise; and no cell holds anything but -1, 3, 4 or 8. *)
Theorem dashboard_layout (NB : nat) (obs : observation) (n : nat) :
  0 < n → (0 ≤ blast_strength obs)%Z → (0 ≤ ammo obs)%Z →
  ∃ codes, conversion_array NB obs n = Ok (NDArray [1; n] codes) ∧ length codes = n ∧
    codes !! (n / 2) = Some (if (0 <? can_kick obs)%Z then 8 else -1)%Z ∧
    (∀ x, x < n →
       (codes !! x = Some bs_sprite ↔
        x < Z.to_nat ((dash_blast_strength NB obs n + 1) / 2))) ∧
    (∀ x, codes !! x = Some bs_sprite → x < n / 2) ∧
    (∀ x, codes !! x = Some ammo_sprite → n / 2 < x) ∧
    Forall (λ c, c = (-1)%Z ∨ c = ammo_sprite ∨ c = bs_sprite ∨ c = 8%Z) codes.
Proof.
  intros Hn Hb Ha.
  destruct (conversion_array_codes NB obs n Hn) as (codes & Hcodes & Hlen & Hlk).
  destruct (dash_blast_range NB obs n Hn Hb) as [HB0 HBk].
  destruct (dash_ammo_range NB obs n Hn Ha) as [HA0 HAk].
  assert (Hhalf : n / 2 < n) by dlia.
  set (kb := Z.to_nat ((dash_blast_strength NB obs n + 1) / 2)) in *.
  set (ka := Z.to_nat ((dash_ammo NB obs n + 1) / 2)) in *.
  assert (Hcell : ∀ x, x < n →
            codes !! x = Some (if x =? n / 2 then (if (0 <? can_kick obs)%Z then 8 else -1)%Z
                               else if n - 1 - x <? ka then ammo_sprite
                               else if x <? kb then bs_sprite else (-1)%Z)).
  { intros x Hx. rewrite (Hlk x Hx), !slice_bound_nonneg by dlia.
    fold ka kb. by rewrite !Nat.min_l by lia. }
  assert (Hbs : ∀ x, x < n → codes !! x = Some bs_sprite ↔ x < kb).
  { intros x Hx. rewrite (Hcell x Hx). unfold bs_sprite, ammo_sprite.
    destruct (Nat.eqb_spec x (n / 2)) as [->|Hne].
    { split; [|lia]. destruct (0 <? can_kick obs)%Z; by intros [=]. }
    destruct (Nat.ltb_spec (n - 1 - x) ka); [split; [by intros [=]|lia]|].
    destruct (Nat.ltb_spec x kb); split; (done || lia || by intros [=]). }
  exists codes. split; [done|]. split; [done|]. split.
  { rewrite (Hcell _ Hhalf). by rewrite Nat.eqb_refl. }
  split; [done|]. split; [|split].
  - intros x Hx. assert (x < n) by (rewrite <- Hlen; by eapply lookup_lt_Some).
    apply Hbs in Hx; lia.
  - intros x Hx. assert (Hxn : x < n) by (rewrite <- Hlen; by eapply lookup_lt_Some).
    rewrite (Hcell x Hxn) in Hx. unfold bs_sprite, ammo_sprite in Hx.
    destruct (Nat.eqb_spec x (n / 2)).
    { destruct (0 <? can_kick obs)%Z; by injection Hx. }
    destruct (Nat.ltb_spec (n - 1 - x) ka); [lia|].
    destruct (Nat.ltb_spec x kb); by injection Hx.
  - apply Forall_lookup. intros x c Hx.
    assert (Hxn : x < n) by (rewrite <- Hlen; by eapply lookup_lt_Some).
    rewrite (Hcell x Hxn) in Hx. injection Hx as <-.
    repeat match goal with |- context [if ?b then _ else _] => destruct b end; auto.
Qed.

Lemma dashboard_layout_witness :
  ∃ codes, conversion_array 10 armed_status 11 = Ok (NDArray [1; 11] codes) ∧
    length codes = 11 ∧
    codes !! (11 / 2) = Some (if (0 <? can_kick armed_status)%Z then 8 else -1)%Z ∧
    (∀ x, x < 11 →
       (codes !! x = Some bs_sprite ↔
        x < Z.to_nat ((dash_blast_strength 10 armed_status 11 + 1) / 2))) ∧
    (∀ x, codes !! x = Some bs_sprite → x < 11 / 2) ∧
    (∀ x, codes !! x = Some ammo_sprite → 11 / 2 < x) ∧
    Forall (λ c, c = (-1)%Z ∨ c = ammo_sprite ∨ c = bs_sprite ∨ c = 8%Z) codes.
Proof.
  apply (dashboard_layout 10 armed_status 11); simpl; lia.
Defined.

(** X14: over an atlas of at least 9 sprites of size s x s x 3 and for a
    positive board size the dashboard is an image of s rows and
    board_size * s columns in which the three channels of every pixel are
    equal: the strip is grey. *)
Theorem prepare_dashboard_grey (NB : nat) (obs : observation) res s n N :
  shape res = [N; s; s; 3] → wf_array res → 0 < n → 9 ≤ N →
  ∃ out, prepare_dashboard NB obs res s n = Ok out ∧ shape out = [1 * s; n * s; 3] ∧
    ∀ y X, y < s → X < n * s →
      ∃ v, item out [y; X; 0] = Some v ∧ item out [y; X; 1] = Some v ∧
        item out [y; X; 2] = Some v.
Proof.
  intros Hres Hwf Hn HN.
  destruct (prepare_dashboard_pixels NB obs res s n N Hres Hwf Hn HN)
    as (codes & out & Hcodes & Hout & Hso & Hpx).
  destruct (conversion_array_codes NB obs n Hn) as (codes' & Hcodes' & Hlen & _).
  rewrite Hcodes in Hcodes'. injection Hcodes' as <-.
  exists out. split; [done|]. split; [done|]. intros y X Hy HX.
  assert (Hdiv : X / s < n) by (apply Nat.Div0.div_lt_upper_bound; lia).
  destruct (lookup_lt_is_Some_2 codes (X / s)) as [code Hcode]; [lia|].
  destruct (Hpx y X 0 code Hy HX) as (r & g & b & Hr & Hg & Hb & H0); [lia|done|].
  destruct (Hpx y X 1 code Hy HX) as (r1 & g1 & b1 & Hr1 & Hg1 & Hb1 & H1); [lia|done|].
  destruct (Hpx y X 2 code Hy HX) as (r2 & g2 & b2 & Hr2 & Hg2 & Hb2 & H2); [lia|done|].
  simplify_eq. eexists. split; [exact H0|]. split; [exact H1|exact H2].
Qed.

Lemma prepare_dashboard_grey_witness :
  ∃ out, prepare_dashboard 10 armed_status small_atlas 1 11 = Ok out ∧
    shape out = [1 * 1; 11 * 1; 3] ∧
    ∀ y X, y < 1 → X < 11 * 1 →
      ∃ v, item out [y; X; 0] = Some v ∧ item out [y; X; 1] = Some v ∧
        item out [y; X; 2] = Some v.
Proof.
  apply (prepare_dashboard_grey 10 armed_status small_atlas 1 11 9);
    first [reflexivity | lia].
Defined.

Lemma sliver_spec A s W x a :
  (0 ≤ A)%Z → (A mod 2 = 1)%Z → a = Z.to_nat (A / 2) → (a + 1) * s ≤ W →
  sliver A (Z.of_nat s) W x = (a * s + s / 2 <=? x) && (x <? (a + 1) * s).
Proof.
  intros HA Hodd Ha HW. unfold sliver, __offset, __half_texture.
  rewrite Hodd. cbn [Z.eqb Pos.eqb andb].
  assert (HaZ : (A / 2 = Z.of_nat a)%Z) by dlia.
  rewrite HaZ.
  replace (Z.of_nat a * Z.of_nat s + Z.of_nat s / 2)%Z with (Z.of_nat (a * s + s / 2)) by dlia.
  replace ((Z.of_nat a + 1) * Z.of_nat s)%Z with (Z.of_nat ((a + 1) * s)) by lia.
  rewrite !slice_bound_nonneg by lia. rewrite !Nat2Z.id.
  rewrite !Nat.min_l; [done|lia|dlia].
Qed.

Lemma cell_column c s x : x < s → (c * s + x) / s = c ∧ (c * s + x) mod s = x.
Proof.
  intros Hx. split.
  - rewrite Nat.div_add_l by lia. rewrite Nat.div_small by done. lia.
  - rewrite Nat.add_comm, Nat.Div0.mod_add. by apply Nat.mod_small.
Qed.

Lemma sliver_outside count s W x lo hi :
  (0 ≤ count)%Z → lo = Z.to_nat (count / 2) * s → hi = (Z.to_nat (count / 2) + 1) * s →
  hi ≤ W → x < lo ∨ hi ≤ x → sliver count (Z.of_nat s) W x = false.
Proof.
  intros H0 -> -> HW Hx.
  destruct (Z.eq_dec (count mod 2) 1) as [Hodd|Heven].
  - rewrite (sliver_spec count s W x _ H0 Hodd eq_refl HW).
    destruct (Nat.leb_spec (Z.to_nat (count / 2) * s + s / 2) x),
      (Nat.ltb_spec x ((Z.to_nat (count / 2) + 1) * s)); try done. lia.
  - apply sliver_even. dlia.
Qed.

Lemma ammo_sliver_columns a c s n x :
  x < s → n * s = c * s + (a + 1) * s →
  (a * s + s / 2 <=? n * s - 1 - (c * s + x)) && (n * s - 1 - (c * s + x) <? (a + 1) * s)
  = (x <? s - s / 2).
Proof.
  intros Hx Hns. pose proof (Nat.div_mod_eq s 2) as Hdiv.
  pose proof (Nat.mod_upper_bound s 2) as Hmod.
  rewrite Nat.mul_add_distr_r, Nat.mul_1_l in Hns |- *.
  generalize dependent (a * s). generalize dependent (c * s).
  generalize dependent (n * s). generalize dependent (s / 2).
  generalize dependent (s mod 2). intros m Hm h Hh ns cs as' Hns.
  destruct (Nat.leb_spec (as' + h) (ns - 1 - (cs + x))),
    (Nat.ltb_spec (ns - 1 - (cs + x)) (as' + s)), (Nat.ltb_spec x (s - h));
    try done; exfalso; lia.
Qed.

Lemma blast_sliver_columns b s x :
  x < s → (b * s + s / 2 <=? b * s + x) && (b * s + x <? (b + 1) * s) = (s / 2 <=? x).
Proof.
  intros Hx. rewrite Nat.mul_add_distr_r, Nat.mul_1_l.
  generalize (b * s). generalize (s / 2). intros h bs.
  destruct (Nat.leb_spec (bs + h) (bs + x)), (Nat.ltb_spec (bs + x) (bs + s)),
    (Nat.leb_spec h x); try done; exfalso; lia.
Qed.

(** X15: for non-negative blast strength and ammo the dashboard draws both
    half icons, each the mirror image of the other.  For an odd clamped
    ammo count A the cell board_size - 1 - A//2, which lies right of the
    centre column, is black in its first s - s//2 pixel columns and the
    grey ammo sprite in the others; for an odd clamped blast strength B the
    cell B//2, which lies left of the centre column, is the grey
    blast-strength sprite in its first s//2 pixel columns and black in the
    others. *)
Theorem dashboard_half_icons (NB : nat) (obs : observation) res s n N :
  shape res = [N; s; s; 3] → wf_array res → 0 < n → 9 ≤ N →
  (0 ≤ blast_strength obs)%Z → (0 ≤ ammo obs)%Z →
  ∃ out, prepare_dashboard NB obs res s n = Ok out ∧
    ((dash_ammo NB obs n mod 2 = 1)%Z →
     n / 2 + Z.to_nat (dash_ammo NB obs n / 2) + 1 < n ∧
     ∀ y x k, y < s → x < s → k < 3 →
       ∃ r g b,
         item res [3; y; x; 0] = Some r ∧ item res [3; y; x; 1] = Some g ∧
         item res [3; y; x; 2] = Some b ∧
         item out [y; (n - 1 - Z.to_nat (dash_ammo NB obs n / 2)) * s + x; k]
           = Some (if x <? s - s / 2 then 0%Z else ((r + g + b) / 3)%Z)) ∧
    ((dash_blast_strength NB obs n mod 2 = 1)%Z →
     Z.to_nat (dash_blast_strength NB obs n / 2) < n / 2 ∧
     ∀ y x k, y < s → x < s → k < 3 →
       ∃ r g b,
         item res [4; y; x; 0] = Some r ∧ item res [4; y; x; 1] = Some g ∧
         item res [4; y; x; 2] = Some b ∧
         item out [y; Z.to_nat (dash_blast_strength NB obs n / 2) * s + x; k]
           = Some (if s / 2 <=? x then 0%Z else ((r + g + b) / 3)%Z)).
Proof.
  intros Hres Hwf Hn HN Hb Ha.
  destruct (dash_blast_range NB obs n Hn Hb) as [HB0 HBk].
  destruct (dash_ammo_range NB obs n Hn Ha) as [HA0 HAk].
  destruct (prepare_dashboard_pixels NB obs res s n N Hres Hwf Hn HN)
    as (codes & out & Hcodes & Hout & Hso & Hpx).
  destruct (conversion_array_codes NB obs n Hn) as (codes' & Hcodes' & Hlen & Hlk).
  rewrite Hcodes in Hcodes'. injection Hcodes' as <-.
  set (A := dash_ammo NB obs n) in *. set (B := dash_blast_strength NB obs n) in *.
  set (a := Z.to_nat (A / 2)). set (b := Z.to_nat (B / 2)).
  set (kb := Z.to_nat ((B + 1) / 2)) in *. set (ka := Z.to_nat ((A + 1) / 2)) in *.
  assert (Hhalf : n / 2 < n) by dlia.
  assert (Hbk : b ≤ kb) by (subst b kb; dlia).
  assert (Hak : a ≤ ka) by (subst a ka; dlia).
  assert (Han : (a + 1) * s ≤ n * s) by (apply Nat.mul_le_mono_r; lia).
  assert (Hbn : (b + 1) * s ≤ n * s) by (apply Nat.mul_le_mono_r; lia).
  assert (Hcode : ∀ x, x < n →
            codes !! x = Some (if x =? n / 2 then (if (0 <? can_kick obs)%Z then 8 else -1)%Z
                               else if n - 1 - x <? ka then ammo_sprite
                               else if x <? kb then bs_sprite else (-1)%Z)).
  { intros x Hx. rewrite (Hlk x Hx), !slice_bound_nonneg by dlia.
    fold ka kb. by rewrite !Nat.min_l by lia. }
  exists out. split; [done|]. split.
  - intros Hodd.
    assert (Haka : ka = a + 1) by (subst a ka; dlia).
    split; [lia|]. intros y x k Hy Hx Hk.
    set (c := n - 1 - a).
    assert (Hc1 : (c + 1) * s ≤ n * s) by (apply Nat.mul_le_mono_r; lia).
    assert (Hbc : (b + 1) * s ≤ c * s) by (apply Nat.mul_le_mono_r; lia).
    assert (Hns : n * s = c * s + (a + 1) * s).
    { rewrite <- Nat.mul_add_distr_r. f_equal. lia. }
    destruct (cell_column c s x Hx) as [Hdiv Hmod].
    assert (HX : c * s + x < n * s) by lia.
    assert (Hcc : codes !! ((c * s + x) / s) = Some ammo_sprite).
    { rewrite Hdiv, Hcode by lia.
      replace (c =? n / 2) with false by (symmetry; apply Nat.eqb_neq; lia).
      by replace (n - 1 - c <? ka) with true by (symmetry; apply Nat.ltb_lt; lia). }
    destruct (Hpx y (c * s + x) k ammo_sprite Hy HX Hk Hcc)
      as (r & g & bb & Hr & Hg & Hbb & Hitem).
    rewrite Hmod in Hr, Hg, Hbb.
    exists r, g, bb. split; [exact Hr|]. split; [exact Hg|]. split; [exact Hbb|].
    rewrite Hitem. fold A B.
    assert (Hside : c * s + x < b * s ∨ (b + 1) * s ≤ c * s + x)
      by (clear -Hbc; right; lia).
    rewrite (sliver_outside B s (n * s) (c * s + x) (b * s) ((b + 1) * s)
               HB0 eq_refl eq_refl Hbn Hside).
    rewrite (sliver_spec A s (n * s) (n * s - 1 - (c * s + x)) a HA0 Hodd eq_refl Han).
    cbn [orb]. by rewrite (ammo_sliver_columns a c s n x Hx Hns).
  - intros Hodd.
    assert (Hbkb : kb = b + 1) by (subst b kb; dlia).
    split; [lia|]. intros y x k Hy Hx Hk.
    assert (Hab : (a + 1) * s ≤ (n - 1 - b) * s) by (apply Nat.mul_le_mono_r; lia).
    assert (Hns : n * s = (n - 1 - b) * s + (b + 1) * s).
    { rewrite <- Nat.mul_add_distr_r. f_equal. lia. }
    destruct (cell_column b s x Hx) as [Hdiv Hmod].
    assert (HX : b * s + x < n * s) by lia.
    assert (Hcc : codes !! ((b * s + x) / s) = Some bs_sprite).
    { rewrite Hdiv, Hcode by lia.
      replace (b =? n / 2) with false by (symmetry; apply Nat.eqb_neq; lia).
      replace (n - 1 - b <? ka) with false by (symmetry; apply Nat.ltb_ge; lia).
      by replace (b <? kb) with true by (symmetry; apply Nat.ltb_lt; lia). }
    destruct (Hpx y (b * s + x) k bs_sprite Hy HX Hk Hcc)
      as (r & g & bb & Hr & Hg & Hbb & Hitem).
    rewrite Hmod in Hr, Hg, Hbb.
    exists r, g, bb. split; [exact Hr|]. split; [exact Hg|]. split; [exact Hbb|].
    rewrite Hitem. fold A B.
    assert (Hside : n * s - 1 - (b * s + x) < a * s
                    ∨ (a + 1) * s ≤ n * s - 1 - (b * s + x)).
    { clear -Hab Hns Hx. right. rewrite Nat.mul_add_distr_r, Nat.mul_1_l in Hns.
      generalize dependent ((n - 1 - b) * s). generalize dependent ((a + 1) * s).
      generalize dependent (b * s). generalize dependent (n * s). intros. lia. }
    rewrite (sliver_outside A s (n * s) (n * s - 1 - (b * s + x)) (a * s) ((a + 1) * s)
               HA0 eq_refl eq_refl Han Hside).
    rewrite (sliver_spec B s (n * s) (b * s + x) b HB0 Hodd eq_refl Hbn).
    rewrite orb_false_r. by rewrite (blast_sliver_columns b s x Hx).
Qed.

Lemma dashboard_half_icons_witness :
  ∃ out, prepare_dashboard 10 armed_status (NDArray [9; 2; 2; 3] (Z.of_nat <$> seq 0 108))
           2 11 = Ok out ∧
    ((dash_ammo 10 armed_status 11 mod 2 = 1)%Z →
     11 / 2 + Z.to_nat (dash_ammo 10 armed_status 11 / 2) + 1 < 11 ∧
     ∀ y x k, y < 2 → x < 2 → k < 3 →
       ∃ r g b,
         item (NDArray [9; 2; 2; 3] (Z.of_nat <$> seq 0 108)) [3; y; x; 0] = Some r ∧
         item (NDArray [9; 2; 2; 3] (Z.of_nat <$> seq 0 108)) [3; y; x; 1] = Some g ∧
         item (NDArray [9; 2; 2; 3] (Z.of_nat <$> seq 0 108)) [3; y; x; 2] = Some b ∧
         item out [y; (11 - 1 - Z.to_nat (dash_ammo 10 armed_status 11 / 2)) * 2 + x; k]
           = Some (if x <? 2 - 2 / 2 then 0%Z else ((r + g + b) / 3)%Z)) ∧
    ((dash_blast_strength 10 armed_status 11 mod 2 = 1)%Z →
     Z.to_nat (dash_blast_strength 10 armed_status 11 / 2) < 11 / 2 ∧
     ∀ y x k, y < 2 → x < 2 → k < 3 →
       ∃ r g b,
         item (NDArray [9; 2; 2; 3] (Z.of_nat <$> seq 0 108)) [4; y; x; 0] = Some r ∧
         item (NDArray [9; 2; 2; 3] (Z.of_nat <$> seq 0 108)) [4; y; x; 1] = Some g ∧
         item (NDArray [9; 2; 2; 3] (Z.of_nat <$> seq 0 108)) [4; y; x; 2] = Some b ∧
         item out [y; Z.to_nat (dash_blast_strength 10 armed_status 11 / 2) * 2 + x; k]
           = Some (if 2 / 2 <=? x then 0%Z else ((r + g + b) / 3)%Z)).
Proof.
  apply (dashboard_half_icons 10 armed_status
           (NDArray [9; 2; 2; 3] (Z.of_nat <$> seq 0 108)) 2 11 9);
    first [reflexivity | simpl; lia].
Defined.


(** ** The atlas that load_resources builds *)

Lemma length_concat_uniform {A} (ls : list (list A)) m :
  Forall (λ l, length l = m) ls → length (concat ls) = length ls * m.
Proof.
  induction 1 as [|l ls Hl _ IH]; [done|]. simpl. rewrite length_app, IH, Hl. lia.
Qed.

Lemma set_entry_next n rest (done : list (list Z)) (src : ndarray) :
  Forall (λ l, length l = size_of rest) done → length done < n →
  shape src = rest → length (data src) = size_of rest →
  set_entry
    (NDArray (n :: rest)
       (concat done ++ replicate ((n - length done) * size_of rest) 0%Z))
    (Z.of_nat (length done)) src
  = Ok (NDArray (n :: rest)
          (concat (done ++ [data src])
           ++ replicate ((n - length (done ++ [data src])) * size_of rest) 0%Z)).
Proof.
  intros Hdone Hlt Hsh Hlen. unfold set_entry. cbn [shape data].
  rewrite norm_index_nat by done. cbn [mbind result_bind].
  rewrite decide_True by done. f_equal. f_equal.
  pose proof (length_concat_uniform done _ Hdone) as Hc.
  set (m := size_of rest) in *.
  rewrite take_app_length' by done.
  rewrite drop_app_ge by (rewrite Hc; lia).
  rewrite drop_replicate, concat_app, length_app. cbn [concat length].
  rewrite app_nil_r, <- !app_assoc. f_equal. f_equal. f_equal.
  rewrite Hc. nia.
Qed.

Lemma last_entry_blank n s (chunks : list Z) :
  length chunks = n * (s * s * 3) →
  subarray (NDArray [n + 1; s; s; 3] (chunks ++ replicate (s * s * 3) 0%Z)) (-1)
  = Ok (NDArray [s; s; 3] (replicate (s * s * 3) 0%Z)).
Proof.
  intros Hlen. rewrite (subarray_wrap _ (n + 1) [s; s; 3]) by (done || lia).
  replace (wrap (n + 1) (-1)) with n by (unfold wrap; simpl; lia).
  replace (size_of [s; s; 3]) with (s * s * 3) by (simpl; ring).
  f_equal. f_equal. cbn [data].
  rewrite drop_app_length' by done.
  by rewrite take_replicate, Nat.min_id.
Qed.

Section atlas.
Context {name : Type} (FILE_NAMES BOMB_FILE_NAMES : list name).
Context (open_sprite : name → nat → result ndarray).

Lemma load_loop n s (done : list (list Z)) (l : list name) :
  Forall (λ d, length d = size_of [s; s; 3]) done →
  length done + length l < n →
  Forall (λ x, ∃ a, open_sprite x s = Ok a ∧ shape a = [s; s; 3] ∧ wf_array a) l →
  ∃ loaded,
    Forall2 (λ x a, open_sprite x s = Ok a ∧ shape a = [s; s; 3] ∧ wf_array a) l loaded ∧
    for_loop (λ resource_array (ix : nat * name),
        sprite_n ← open_sprite ix.2 s;
        set_entry resource_array (Z.of_nat ix.1) sprite_n)
      (NDArray [n; s; s; 3]
         (concat done ++ replicate ((n - length done) * size_of [s; s; 3]) 0%Z))
      (imap (λ i x, (length done + i, x)) l)
    = Ok (NDArray [n; s; s; 3]
            (concat (done ++ (data <$> loaded))
             ++ replicate ((n - length (done ++ (data <$> loaded))) * size_of [s; s; 3]) 0%Z)).
Proof.
  intros Hdone Hlt Hall. revert done Hdone Hlt.
  induction Hall as [|x l (a & Ha & Hsh & Hwf) _ IH]; intros done Hdone Hlt.
  - exists []. split; [constructor|]. cbn [imap for_loop fmap list_fmap].
    by rewrite app_nil_r.
  - cbn [imap for_loop fst snd]. rewrite Nat.add_0_r, Ha. cbn [mbind result_bind].
    assert (Hla : length (data a) = size_of [s; s; 3]) by (by rewrite <- Hsh).
    rewrite (set_entry_next n [s; s; 3] done a Hdone); [|simpl in Hlt; lia|done|done].
    cbn [mbind result_bind].
    destruct (IH (done ++ [data a])) as (loaded & Hloaded & Hrun).
    { apply Forall_app. split; [done|]. by constructor. }
    { rewrite length_app. simpl in *. lia. }
    exists (a :: loaded). split; [by constructor|].
    rewrite (imap_ext _ (λ i x0, (length (done ++ [data a]) + i, x0))).
    2:{ intros i y _. cbn. rewrite length_app. cbn. f_equal. lia. }
    rewrite Hrun. cbn [fmap list_fmap]. by rewrite <- !app_assoc.
Qed.

Lemma load_resources_built (s : nat) :
  Forall (λ x, ∃ a, open_sprite x s = Ok a ∧ shape a = [s; s; 3] ∧ wf_array a)
    (FILE_NAMES ++ BOMB_FILE_NAMES) →
  ∃ loaded,
    Forall2 (λ x a, open_sprite x s = Ok a ∧ shape a = [s; s; 3] ∧ wf_array a)
      (FILE_NAMES ++ BOMB_FILE_NAMES) loaded ∧
    load_resources FILE_NAMES BOMB_FILE_NAMES open_sprite s
    = Ok (NDArray [length (FILE_NAMES ++ BOMB_FILE_NAMES) + 1; s; s; 3]
            (concat (data <$> loaded) ++ replicate (s * s * 3) 0%Z)) ∧
    length (concat (data <$> loaded)) = length (FILE_NAMES ++ BOMB_FILE_NAMES) * (s * s * 3) ∧
    Forall (λ d, length d = s * s * 3) (data <$> loaded).
Proof.
  intros Hall. unfold load_resources.
  set (names := FILE_NAMES ++ BOMB_FILE_NAMES) in *.
  set (n := length names + 1).
  destruct (load_loop n s [] names) as (loaded & Hloaded & Hrun);
    [constructor|simpl; lia|done|].
  cbn [concat length app Nat.add] in Hrun. rewrite Nat.sub_0_r in Hrun.
  replace (size_of [s; s; 3]) with (s * s * 3) in Hrun by (simpl; ring).
  rewrite Hrun. exists loaded. split; [done|].
  assert (Hlen : length loaded = length names) by (symmetry; by eapply Forall2_length).
  assert (Hchunks : Forall (λ d, length d = s * s * 3) (data <$> loaded)).
  { apply Forall_fmap. eapply Forall2_Forall_r; [exact Hloaded|].
    apply Forall_true. intros x a (_ & Hsh & Hwf). unfold wf_array in Hwf.
    cbn. rewrite Hwf, Hsh. simpl. ring. }
  pose proof (length_concat_uniform _ _ Hchunks) as Hcat.
  rewrite length_fmap in Hcat.
  rewrite length_fmap, Hlen. replace (n - length names) with 1 by lia.
  rewrite Nat.mul_1_l. split; [done|]. split; [by rewrite Hcat, Hlen|done].
Qed.

(** X16: when every sprite file opens as an s x s x 3 array,
    load_resources returns an atlas of len(FILE_NAMES) +
    len(BOMB_FILE_NAMES) + 1 sprites in which entry i is the sprite of the
    i-th name (material names first, then bomb stages) and the last entry,
    the one the blank code -1 selects, is all zeros. *)
Theorem load_resources_atlas (s : nat) :
  Forall (λ x, ∃ a, open_sprite x s = Ok a ∧ shape a = [s; s; 3] ∧ wf_array a)
    (FILE_NAMES ++ BOMB_FILE_NAMES) →
  ∃ atlas, load_resources FILE_NAMES BOMB_FILE_NAMES open_sprite s = Ok atlas ∧
    shape atlas = [length FILE_NAMES + length BOMB_FILE_NAMES + 1; s; s; 3] ∧
    wf_array atlas ∧
    (∀ i x, (FILE_NAMES ++ BOMB_FILE_NAMES) !! i = Some x →
       subarray atlas (Z.of_nat i) = open_sprite x s) ∧
    subarray atlas (-1) = Ok (NDArray [s; s; 3] (replicate (s * s * 3) 0%Z)).
Proof.
  intros Hall.
  destruct (load_resources_built s Hall) as (loaded & Hloaded & -> & Hcat & Hchunks).
  set (names := FILE_NAMES ++ BOMB_FILE_NAMES) in *.
  eexists. split; [reflexivity|].
  split; [cbn [shape]; unfold names; by rewrite length_app|].
  split.
  { unfold wf_array. cbn [shape data]. rewrite length_app, length_replicate, Hcat.
    simpl. ring. }
  split.
  - intros i x Hx.
    destruct (Forall2_lookup_l _ _ _ _ _ Hloaded Hx) as (a & Ha & Hopen & Hsh & Hwf).
    rewrite Hopen.
    assert (Hi : i < length names) by (by eapply lookup_lt_Some).
    rewrite (subarray_wrap _ (length names + 1) [s; s; 3]) by (done || lia).
    rewrite wrap_nonneg, Nat2Z.id by lia.
    replace (size_of [s; s; 3]) with (s * s * 3) by (simpl; ring).
    f_equal. destruct a as [sh da]. cbn in Hsh. subst sh. f_equal. cbn [data].
    apply take_drop_lookups.
    + apply (Forall_lookup_1 _ _ i da) in Hchunks; [done|].
      by rewrite list_lookup_fmap, Ha.
    + intros k Hk. rewrite lookup_app_l.
      2:{ rewrite Hcat. by apply digit_lt. }
      rewrite (lookup_concat_uniform _ (s * s * 3)) by done.
      by rewrite list_lookup_fmap, Ha.
  - by apply last_entry_blank.
Qed.
End atlas.

Lemma load_resources_atlas_witness :
  ∃ atlas, load_resources [1; 2] [3] solid_sprite 1 = Ok atlas ∧
    shape atlas = [length [1; 2] + length [3] + 1; 1; 1; 3] ∧
    wf_array atlas ∧
    (∀ i x, ([1; 2] ++ [3]) !! i = Some x →
       subarray atlas (Z.of_nat i) = solid_sprite x 1) ∧
    subarray atlas (-1) = Ok (NDArray [1; 1; 3] (replicate (1 * 1 * 3) 0%Z)).
Proof.
  apply (load_resources_atlas [1; 2] [3] solid_sprite 1).
  repeat constructor; by eexists.
Defined.

Lemma for_loop_app {A S} (body : S → A → result S) (s : S) (l1 l2 : list A) :
  for_loop body s (l1 ++ l2) = for_loop body s l1 ≫= λ s', for_loop body s' l2.
Proof.
  revert s. induction l1 as [|x l1 IH]; intros s; [done|].
  cbn [app for_loop]. destruct (body s x) as [s'|e]; [|done].
  cbn [mbind result_bind]. apply IH.
Qed.

(** X17: if the sprite files of the names before some name open as
    s x s x 3 arrays and opening the file of that name raises, then
    load_resources raises the same exception: no atlas is built from the
    sprites that are present. *)
Theorem load_resources_missing {name : Type} (FILE_NAMES BOMB_FILE_NAMES : list name)
    (open_sprite : name → nat → result ndarray) (s : nat) pre x post e :
  FILE_NAMES ++ BOMB_FILE_NAMES = pre ++ x :: post →
  Forall (λ x, ∃ a, open_sprite x s = Ok a ∧ shape a = [s; s; 3] ∧ wf_array a) pre →
  open_sprite x s = Raise e →
  load_resources FILE_NAMES BOMB_FILE_NAMES open_sprite s = Raise e.
Proof.
  intros Hnames Hpre Hx. unfold load_resources. rewrite Hnames.
  rewrite imap_app, for_loop_app.
  set (n := length (pre ++ x :: post) + 1).
  destruct (load_loop open_sprite n s [] pre) as (loaded & _ & Hrun);
    [constructor|unfold n; rewrite length_app; simpl; lia|done|].
  cbn [concat length app Nat.add] in Hrun. rewrite Nat.sub_0_r in Hrun.
  replace (size_of [s; s; 3]) with (s * s * 3) in Hrun by (simpl; ring).
  rewrite Hrun. cbn [mbind result_bind imap for_loop snd].
  by rewrite Hx.
Qed.

Lemma load_resources_missing_witness :
  load_resources [1; 2] [100; 3] solid_sprite 1 = Raise KeyError.
Proof.
  apply (load_resources_missing [1; 2] [100; 3] solid_sprite 1 [1; 2] 100 [3] KeyError).
  - reflexivity.
  - repeat constructor; by eexists.
  - reflexivity.
Defined.

Lemma conversion_array_blank NB obs n :
  0 < n → blast_strength obs = 0%Z → ammo obs = 0%Z → can_kick obs = 0%Z →
  conversion_array NB obs n = Ok (NDArray [1; n] (replicate n (-1)%Z)).
Proof.
  intros Hn Hb Ha Hkick.
  destruct (dash_zero NB obs n Hn Hb Ha) as [HB HA].
  destruct (conversion_array_codes NB obs n Hn) as (codes & Hcodes & Hlen & Hlk).
  rewrite Hcodes. f_equal. f_equal. apply list_eq. intros x.
  destruct (decide (x < n)) as [Hx|Hx].
  - rewrite (Hlk x Hx), lookup_replicate_2 by done. rewrite HB, HA, Hkick.
    change ((0 + 1) / 2)%Z with 0%Z. rewrite slice_bound_0. simpl.
    by destruct (x =? _).
  - rewrite !(proj2 (lookup_ge_None _ _)); [done|rewrite length_replicate; lia|lia].
Qed.

(** X18: over the atlas that load_resources returns for at least 8 sprite
    names, the dashboard of an agent with blast strength 0, ammo 0 and no
    kick is black everywhere: the blank code -1 selects the spare last
    entry of the atlas, which load_resources leaves at zero. *)
Theorem idle_dashboard_is_black {name : Type} (FILE_NAMES BOMB_FILE_NAMES : list name)
    (open_sprite : name → nat → result ndarray) (NB : nat) (obs : observation) (s n : nat) :
  Forall (λ x, ∃ a, open_sprite x s = Ok a ∧ shape a = [s; s; 3] ∧ wf_array a)
    (FILE_NAMES ++ BOMB_FILE_NAMES) →
  8 ≤ length FILE_NAMES + length BOMB_FILE_NAMES → 0 < n →
  blast_strength obs = 0%Z → ammo obs = 0%Z → can_kick obs = 0%Z →
  ∃ atlas out,
    load_resources FILE_NAMES BOMB_FILE_NAMES open_sprite s = Ok atlas ∧
    prepare_dashboard NB obs atlas s n = Ok out ∧ shape out = [1 * s; n * s; 3] ∧
    ∀ y X k, y < s → X < n * s → k < 3 → item out [y; X; k] = Some 0%Z.
Proof.
  intros Hall Hlen Hn Hb Ha Hkick.
  destruct (load_resources_built FILE_NAMES BOMB_FILE_NAMES open_sprite s Hall)
    as (loaded & _ & Hatlas & Hcat & _).
  set (atlas := NDArray _ (concat (data <$> loaded) ++ _)) in *.
  assert (Hsh : shape atlas
                = [length FILE_NAMES + length BOMB_FILE_NAMES + 1; s; s; 3]).
  { unfold atlas. cbn [shape]. by rewrite length_app. }
  assert (Hwf : wf_array atlas).
  { unfold wf_array, atlas. cbn [shape data].
    rewrite length_app, length_replicate, Hcat. simpl. ring. }
  set (N := length FILE_NAMES + length BOMB_FILE_NAMES + 1) in *.
  destruct (prepare_dashboard_pixels NB obs atlas s n N Hsh Hwf Hn) as
    (codes & out & Hcodes & Hout & Hso & Hpx); [lia|].
  rewrite (conversion_array_blank NB obs n Hn Hb Ha Hkick) in Hcodes.
  injection Hcodes as <-.
  exists atlas, out. split; [done|]. split; [done|]. split; [done|].
  intros y X k Hy HX Hk.
  assert (Hdiv : X / s < n) by (apply Nat.Div0.div_lt_upper_bound; lia).
  assert (Hs0 : 0 < s) by (destruct s; lia).
  assert (Hmod : X mod s < s) by (apply Nat.mod_upper_bound; lia).
  destruct (Hpx y X k (-1)%Z Hy HX Hk) as (r & g & b & Hr & Hg & Hbl & ->).
  { by apply lookup_replicate_2. }
  destruct (dash_zero NB obs n Hn Hb Ha) as [-> ->]. rewrite !sliver_even by done.
  cbn [orb].
  assert (Hlast : wrap N (-1) = length (FILE_NAMES ++ BOMB_FILE_NAMES)).
  { unfold wrap, N. rewrite length_app. simpl. lia. }
  assert (Hzero : ∀ c, c < 3 → item atlas [wrap N (-1); y; X mod s; c] = Some 0%Z).
  { intros c Hc. rewrite (item4 atlas N s s 3); try done.
    2:{ apply wrap_lt. lia. }
    rewrite Hlast.
    replace (((length (FILE_NAMES ++ BOMB_FILE_NAMES) * s + y) * s + X mod s) * 3 + c)
      with (length (concat (data <$> loaded)) + ((y * s + X mod s) * 3 + c))
      by (rewrite Hcat; ring).
    assert (Ho : (y * s + X mod s) * 3 + c < s * s * 3) by (by apply ravel3_lt).
    unfold atlas. cbn [data]. rewrite lookup_app_r by lia.
    rewrite Nat.add_comm, Nat.add_sub. by apply lookup_replicate_2. }
  rewrite (Hzero 0) in Hr by lia. rewrite (Hzero 1) in Hg by lia.
  rewrite (Hzero 2) in Hbl by lia. by simplify_eq.
Qed.

Lemma idle_dashboard_is_black_witness :
  ∃ atlas out,
    load_resources [1; 2; 3; 4; 5; 6; 7; 8] [9] solid_sprite 1 = Ok atlas ∧
    prepare_dashboard 1 idle_status atlas 1 11 = Ok out ∧ shape out = [1 * 1; 11 * 1; 3] ∧
    ∀ y X k, y < 1 → X < 11 * 1 → k < 3 → item out [y; X; k] = Some 0%Z.
Proof.
  apply (idle_dashboard_is_black [1; 2; 3; 4; 5; 6; 7; 8] [9] solid_sprite 1 idle_status
           1 11); try reflexivity; try (simpl; lia).
  repeat constructor; by eexists.
Defined.

(** ** More on the frame assembler *)

(** X19: tile_four_images raises IndexError on fewer than four images,
    and on four or more it uses the first four only; the composite is as
    wide as images 0 and 2 together and as high as images 0 and 1
    together, whatever the sizes of the images are. *)
Theorem tile_four_images_arity (ims : list Image) :
  (length ims < 4 → tile_four_images ims = Raise IndexError) ∧
  (∀ im0 im1 im2 im3 rest, ims = im0 :: im1 :: im2 :: im3 :: rest →
     ∃ t, tile_four_images ims = Ok t ∧
       tile_four_images [im0; im1; im2; im3] = Ok t ∧
       width t = width im0 + width im2 ∧ height t = height im0 + height im1 ∧
       wf_image t).
Proof.
  split.
  - intros Hlen. destruct ims as [|i0 [|i1 [|i2 [|i3 rest]]]]; try done.
    simpl in Hlen. lia.
  - intros im0 im1 im2 im3 rest ->. eexists. split; [reflexivity|].
    split; [reflexivity|]. split; [done|]. split; [done|].
    apply get_concat_h_size.
Qed.

(** X20: get_concat_h gives the composite the height of the first image.
    Where the second image is shorter, the columns under it are black down
    to the bottom; where it is taller, its rows from the height of the
    first image on do not appear in the composite. *)
Theorem get_concat_h_padding (im1 im2 : Image) :
  wf_image im1 → wf_image im2 →
  height (get_concat_h im1 im2) = height im1 ∧
  (∀ x y, x < width im2 → height im2 ≤ y → y < height im1 →
     getpixel (get_concat_h im1 im2) (width im1 + x, y) = Some black) ∧
  (∀ x y, height im1 ≤ y → getpixel (get_concat_h im1 im2) (x, y) = None).
Proof.
  intros H1 H2. split; [done|]. split.
  - intros x y Hx Hlo Hhi. unfold get_concat_h.
    rewrite getpixel_paste; simpl; try done; try lia.
    2:{ apply wf_image_paste, wf_image_new. }
    solve_box.
    rewrite getpixel_paste; simpl; try done; try lia.
    2:{ apply wf_image_new. }
    solve_box. apply getpixel_new; lia.
  - intros x y Hy. unfold getpixel. cbn [fst snd].
    replace (y <? height (get_concat_h im1 im2)) with false
      by (symmetry; apply Nat.ltb_ge; done).
    by rewrite andb_false_r.
Qed.

Lemma get_concat_h_padding_witness :
  height (get_concat_h (Image_new 1 2) (dot 9)) = height (Image_new 1 2) ∧
  (∀ x y, x < width (dot 9) → height (dot 9) ≤ y → y < height (Image_new 1 2) →
     getpixel (get_concat_h (Image_new 1 2) (dot 9)) (width (Image_new 1 2) + x, y)
     = Some black) ∧
  (∀ x y, height (Image_new 1 2) ≤ y →
     getpixel (get_concat_h (Image_new 1 2) (dot 9)) (x, y) = None).
Proof.
  apply (get_concat_h_padding (Image_new 1 2) (dot 9)); reflexivity.
Defined.

Lemma group3_lookup (l : list Z) q :
  3 * q + 2 < length l →
  group3 l !! q = r ← l !! (3 * q); g ← l !! (3 * q + 1); b ← l !! (3 * q + 2); Some (r, g, b).
Proof.
  revert l. induction q as [|q IH]; intros l Hl.
  - destruct l as [|r [|g [|b l]]]; simpl in Hl; try lia. done.
  - destruct l as [|r [|g [|b l]]]; simpl in Hl; try lia.
    cbn [group3 lookup list_lookup]. rewrite IH by lia.
    replace (3 * S q) with (S (S (S (3 * q)))) by lia. done.
Qed.

Lemma length_group3 (l : list Z) n : length l = 3 * n → length (group3 l) = n.
Proof.
  revert l. induction n as [|n IH]; intros l Hl.
  - by destruct l.
  - destruct l as [|r [|g [|b l]]]; simpl in Hl; try lia.
    cbn [group3 length]. f_equal. apply IH. lia.
Qed.

Lemma fromarray_pixels o h w :
  shape o = [h; w; 3] → wf_array o →
  ∃ im, fromarray o = Ok im ∧ width im = w ∧ height im = h ∧ wf_image im ∧
    ∀ x y, x < w → y < h → getpixel im (x, y) = array_pixel o y x.
Proof.
  intros Hsh Hwf. rewrite (fromarray_frame o h w Hsh).
  unfold wf_array in Hwf. rewrite Hsh in Hwf.
  assert (Hlen : length (data o) = 3 * (w * h)) by (rewrite Hwf; simpl; ring).
  eexists. split; [reflexivity|]. split; [done|]. split; [done|]. split.
  { unfold wf_image. cbn [pixels width height]. by apply length_group3. }
  intros x y Hx Hy. unfold getpixel. cbn [fst snd width height pixels].
  apply Nat.ltb_lt in Hx as Hx'. apply Nat.ltb_lt in Hy as Hy'. rewrite Hx', Hy'.
  cbn [andb].
  assert (Hq : y * w + x < h * w) by (by apply digit_lt).
  rewrite group3_lookup by lia.
  unfold array_pixel. rewrite !(item3 o h w 3) by (done || lia).
  replace (3 * (y * w + x)) with ((y * w + x) * 3 + 0) by lia.
  replace ((y * w + x) * 3 + 0 + 1) with ((y * w + x) * 3 + 1) by lia.
  replace ((y * w + x) * 3 + 0 + 2) with ((y * w + x) * 3 + 2) by lia.
  done.
Qed.

(** X21: for two frames of one height, render_tiled_observations returns
    an image as wide as both together in which the pixel at (x, y) is the
    pixel of row y, column x of the first frame and the pixel at
    (width of the first + x, y) that of the second: frames are tiled left to
    right, and array rows become image rows. *)
Theorem render_tiled_observations_two (o1 o2 : ndarray) h w1 w2 :
  shape o1 = [h; w1; 3] → wf_array o1 → shape o2 = [h; w2; 3] → wf_array o2 →
  ∃ im, render_tiled_observations [o1; o2] = Ok (Some im) ∧
    width im = w1 + w2 ∧ height im = h ∧
    ∀ x y, y < h →
      (x < w1 → getpixel im (x, y) = array_pixel o1 y x) ∧
      (x < w2 → getpixel im (w1 + x, y) = array_pixel o2 y x).
Proof.
  intros Hs1 Hwf1 Hs2 Hwf2.
  destruct (fromarray_pixels o1 h w1 Hs1 Hwf1) as (im1 & Him1 & Hw1 & Hh1 & Hwi1 & Hp1).
  destruct (fromarray_pixels o2 h w2 Hs2 Hwf2) as (im2 & Him2 & Hw2 & Hh2 & Hwi2 & Hp2).
  unfold render_tiled_observations. cbn [for_each]. rewrite Him1, Him2.
  cbn [mbind result_bind length Nat.eqb].
  eexists. split; [reflexivity|].
  destruct (get_concat_h_size im1 im2) as (Hw & Hh & _).
  split; [by rewrite Hw, Hw1, Hw2|]. split; [by rewrite Hh|].
  intros x y Hy. split; intros Hx.
  - rewrite get_concat_h_left by (done || lia). by apply Hp1.
  - rewrite <- Hw1. rewrite get_concat_h_right by (done || lia). by apply Hp2.
Qed.

Lemma render_tiled_observations_two_witness :
  ∃ im, render_tiled_observations
          [NDArray [1; 1; 3] [1; 2; 3]%Z; NDArray [1; 1; 3] [4; 5; 6]%Z] = Ok (Some im) ∧
    width im = 1 + 1 ∧ height im = 1 ∧
    ∀ x y, y < 1 →
      (x < 1 → getpixel im (x, y) = array_pixel (NDArray [1; 1; 3] [1; 2; 3]%Z) y x) ∧
      (x < 1 → getpixel im (1 + x, y) = array_pixel (NDArray [1; 1; 3] [4; 5; 6]%Z) y x).
Proof.
  apply (render_tiled_observations_two (NDArray [1; 1; 3] [1; 2; 3]%Z)
           (NDArray [1; 1; 3] [4; 5; 6]%Z) 1 1 1); reflexivity.
Defined.

(** ** The first loop of redraw *)

Lemma set_loop_run A0 k obs st :
  for_eachM (λ io : nat * ref, set_my_sprite io.2 (A0 + Z.of_nat io.1)%Z)
    (imap (λ i o, (k + i, o)) obs) st
  = (Ok (replicate (length obs) ()), Store (arrays st) (inject_sprites A0 k obs (dicts st))).
Proof.
  revert k st. induction obs as [|o obs IH]; intros k st.
  - by destruct st.
  - cbn [imap for_eachM]. rewrite bind_run. unfold set_my_sprite at 1.
    rewrite bind_run.
    rewrite (imap_ext _ (λ i o', (S k + i, o'))) by (intros; cbn; f_equal; lia).
    rewrite IH. cbn [arrays dicts length replicate].
    unfold inject_sprites. cbn [imap foldl fst snd].
    rewrite (imap_ext ((λ i o', (k + i, o')) ∘ S) (λ i o', (S k + i, o')))
      by (intros; cbn; f_equal; lia).
    done.
Qed.

Lemma inject_sprites_cons A0 k o obs ds :
  inject_sprites A0 k (o :: obs) ds
  = inject_sprites A0 (S k) obs (alter (with_sprite (A0 + Z.of_nat k)) o ds).
Proof.
  unfold inject_sprites. cbn [imap foldl fst snd]. rewrite Nat.add_0_r.
  by rewrite (imap_ext ((λ i o', (k + i, o')) ∘ S) (λ i o', (S k + i, o')))
    by (intros; cbn; f_equal; lia).
Qed.

Lemma with_sprite_raw v d : same_raw_fields d (with_sprite v d).
Proof. by repeat split. Qed.

Lemma same_raw_fields_trans d1 d2 d3 :
  same_raw_fields d1 d2 → same_raw_fields d2 d3 → same_raw_fields d1 d3.
Proof. unfold same_raw_fields. intros H1 H2. destruct_and!. repeat split; congruence. Qed.

Lemma inject_sprites_lookup A0 k obs ds o d :
  ds !! o = Some d →
  ∃ d', inject_sprites A0 k obs ds !! o = Some d' ∧ same_raw_fields d d' ∧
    (o ∉ obs → d' = d).
Proof.
  revert k ds d. induction obs as [|o' obs IH]; intros k ds d Hd.
  - exists d. split; [done|]. split; [by repeat split|done].
  - rewrite inject_sprites_cons.
    destruct (decide (o' = o)) as [->|Hne].
    + destruct (IH (S k) (alter (with_sprite (A0 + Z.of_nat k)) o ds)
                  (with_sprite (A0 + Z.of_nat k) d)) as (d' & Hd' & Hraw & _).
      { rewrite list_lookup_alter_eq, Hd. done. }
      exists d'. split; [done|]. split.
      * eapply same_raw_fields_trans; [apply with_sprite_raw|done].
      * intros Hnin. exfalso. apply Hnin. by left.
    + destruct (IH (S k) (alter (with_sprite (A0 + Z.of_nat k)) o' ds) d)
        as (d' & Hd' & Hraw & Hsame).
      { by rewrite list_lookup_alter_ne. }
      exists d'. split; [done|]. split; [done|].
      intros Hnin. apply Hsame. intros Hin. apply Hnin. by right.
Qed.

Lemma inject_sprites_length A0 k obs ds : length (inject_sprites A0 k obs ds) = length ds.
Proof.
  revert k ds. induction obs as [|o obs IH]; intros k ds; [done|].
  by rewrite inject_sprites_cons, IH, length_alter.
Qed.

Lemma inject_sprites_sprite A0 k obs ds i (o : nat) d :
  NoDup obs → obs !! i = Some o → ds !! o = Some d →
  inject_sprites A0 k obs ds !! o = Some (with_sprite (A0 + Z.of_nat (k + i)) d).
Proof.
  intros Hnd. revert k ds i. induction Hnd as [|o' obs Hnin Hnd IH]; intros k ds i Hi Hd.
  - done.
  - rewrite inject_sprites_cons. destruct i as [|i].
    + injection Hi as Heq. subst o'. rewrite Nat.add_0_r.
      destruct (inject_sprites_lookup A0 (S k) obs
                  (alter (with_sprite (A0 + Z.of_nat k)) o ds) o
                  (with_sprite (A0 + Z.of_nat k) d)) as (d' & Hd' & _ & Hsame).
      { by rewrite list_lookup_alter_eq, Hd. }
      rewrite <- (Hsame Hnin). exact Hd'.
    + cbn in Hi. replace (k + S i) with (S k + i) by lia.
      apply IH; [done|]. rewrite list_lookup_alter_ne; [done|].
      intros ->. apply Hnin. by eapply list_elem_of_lookup_2.
Qed.

(** ** Redrawing *)

Lemma for_eachM_length {A B} (f : A → M B) l st ys st' :
  for_eachM f l st = (Ok ys, st') → length ys = length l.
Proof.
  revert st ys st'. induction l as [|x l IH]; intros st ys st' Hrun.
  - by injection Hrun as <- _.
  - cbn [for_eachM] in Hrun. rewrite bind_run in Hrun.
    destruct (f x st) as [[y|e] st1]; [|done].
    rewrite bind_run in Hrun.
    destruct (for_eachM f l st1) as [[ys'|e] st2] eqn:Hl; [|done].
    injection Hrun as <- _. cbn. f_equal. by eapply IH.
Qed.

Lemma framed_for_eachM st0 {A B} (f : A → M B) l :
  (∀ x, framed st0 (f x) (λ _, True)) → framed st0 (for_eachM f l) (λ _, True).
Proof.
  intros Hf. induction l as [|x l IH]; cbn [for_eachM].
  - by apply framed_mret.
  - eapply framed_bind; [apply Hf|]. intros y _.
    eapply framed_bind; [apply IH|]. intros ys _. by apply framed_mret.
Qed.

Lemma for_eachM_pure {A B} (f : A → M B) l ys st :
  Forall2 (λ x y, f x st = (Ok y, st)) l ys → for_eachM f l st = (Ok ys, st).
Proof.
  induction 1 as [|x y l ys Hx _ IH]; [done|].
  cbn [for_eachM]. by rewrite bind_run, Hx, bind_run, IH.
Qed.

Lemma framed_draw_frames (K NB : nat) st0 res s n obs :
  framed st0 (draw_frames K NB res s n obs) (λ _, True).
Proof.
  unfold draw_frames.
  eapply framed_bind.
  { apply framed_for_eachM. intros o.
    eapply framed_weaken; [apply framed_preprocess_board|done]. }
  intros pp _. eapply framed_bind.
  { apply framed_for_eachM. intros po.
    eapply framed_bind; [apply framed_load|]. intros g _.
    eapply framed_bind; [apply framed_lift|]. intros r _.
    eapply framed_bind; [apply framed_obs_get|]. intros bl _.
    eapply framed_bind; [apply framed_load|]. intros bombs _.
    apply framed_lift. }
  intros raw _. eapply framed_bind.
  { apply framed_for_eachM. intros o.
    eapply framed_bind; [apply framed_obs_get|]. intros d _. apply framed_lift. }
  intros dash _. apply framed_for_eachM. intros bd. apply framed_lift.
Qed.

Lemma draw_frames_length (K NB : nat) res s n obs st views st' :
  draw_frames K NB res s n obs st = (Ok views, st') → length views = length obs.
Proof.
  unfold draw_frames. intros Hrun.
  rewrite bind_run in Hrun.
  destruct (for_eachM (preprocess_board K) obs st) as [[pp|e] st1] eqn:H1; [|done].
  apply for_eachM_length in H1.
  rewrite bind_run in Hrun.
  destruct (for_eachM _ (zip pp obs) st1) as [[raw|e] st2] eqn:H2; [|done].
  apply for_eachM_length in H2.
  rewrite bind_run in Hrun.
  destruct (for_eachM _ obs st2) as [[dash|e] st3] eqn:H3; [|done].
  apply for_eachM_length in H3.
  apply for_eachM_length in Hrun.
  rewrite length_zip_with in Hrun. rewrite length_zip_with in H2. lia.
Qed.

Lemma preprocess_all (K : nat) obs : ∀ gs st,
  Forall2 (λ o g, ∃ d b bl my, observed st o d b bl my ∧
             coded_grid K b bl my (alive d) (position d) = Ok g) obs gs →
  for_eachM (preprocess_board K) obs st
  = (Ok (seq (length (arrays st)) (length obs)), Store (arrays st ++ gs) (dicts st)).
Proof.
  induction obs as [|o obs IH]; intros gs st Hall.
  - apply Forall2_nil_inv_l in Hall as ->. rewrite app_nil_r. by destruct st.
  - apply Forall2_cons_inv_l in Hall
      as (g & gs' & (d & b & bl & my & Hobs & Hg) & Hall & ->).
    cbn [for_eachM]. rewrite bind_run, (preprocess_board_run K st o d b bl my Hobs).
    unfold coded_grid in Hg. revert Hg.
    destruct (bool_decide (my ∈ alive d)); intros Hg; rewrite ?Hg;
      try (injection Hg as Hg; rewrite Hg).
    all: rewrite bind_run, (IH gs' (Store (arrays st ++ [g]) (dicts st))).
    all: try (cbn [arrays dicts length]; rewrite length_app, Nat.add_1_r;
              by rewrite <- app_assoc).
    all: eapply list.Forall2_impl; [exact Hall|];
      intros o' g' (d' & b' & bl' & my' & Hobs' & Hg');
      exists d', b', bl', my'; split; [by apply observed_extend|done].
Qed.

Section frames.
Context (K NB : nat) (A0 : Z).
Context {sim : Type} (Pomme_board_size : sim → nat).

Lemma redraw_run (self : PommeGraphic sim) obs st :
  redraw K NB A0 Pomme_board_size self obs st
  = draw_frames K NB (renres self) (sprite_size self) (Pomme_board_size (pomme self)) obs
      (Store (arrays st) (inject_sprites A0 0 obs (dicts st))).
Proof.
  unfold redraw. rewrite bind_run.
  pose proof (set_loop_run A0 0 obs st) as Hloop. cbn [Nat.add] in Hloop.
  by rewrite Hloop.
Qed.

Lemma redraw_store (self : PommeGraphic sim) obs st :
  untouched (Store (arrays st) (inject_sprites A0 0 obs (dicts st)))
    (redraw K NB A0 Pomme_board_size self obs st).2.
Proof.
  rewrite redraw_run.
  destruct (draw_frames _ _ _ _ _ _ _) as [r st'] eqn:Hrun.
  eapply framed_draw_frames; [apply untouched_refl|exact Hrun].
Qed.

(** X22: whenever redraw returns, it returns exactly one frame per
    observation, whatever the observations hold. *)
Theorem redraw_one_frame_per_observation (self : PommeGraphic sim) obs st views :
  (redraw K NB A0 Pomme_board_size self obs st).1 = Ok views →
  length views = length obs.
Proof.
  rewrite redraw_run. destruct (draw_frames _ _ _ _ _ _ _) as [r st'] eqn:Hrun.
  cbn [fst]. intros ->. by eapply draw_frames_length.
Qed.

(** X23: redraw, whether it returns or raises, changes no array that was in
    the store and no key of an observation dict other than 'my_sprite';
    the dicts of observations not in the list are as they were; and when no
    observation occurs twice in the list, the dict of the i-th one ends
    with 'my_sprite' = Agent0 + i. *)
Theorem redraw_footprint (self : PommeGraphic sim) obs st :
  (∀ l a, arrays st !! l = Some a →
     arrays (redraw K NB A0 Pomme_board_size self obs st).2 !! l = Some a) ∧
  length (dicts (redraw K NB A0 Pomme_board_size self obs st).2) = length (dicts st) ∧
  (∀ (o : nat) d, dicts st !! o = Some d →
     ∃ d', dicts (redraw K NB A0 Pomme_board_size self obs st).2 !! o = Some d' ∧
       same_raw_fields d d' ∧ (o ∉ obs → d' = d)) ∧
  (NoDup obs → ∀ i (o : nat) d, obs !! i = Some o → dicts st !! o = Some d →
     ∃ d', dicts (redraw K NB A0 Pomme_board_size self obs st).2 !! o = Some d' ∧
       my_sprite d' = Some (A0 + Z.of_nat i)%Z).
Proof.
  pose proof (redraw_store self obs st) as Hkept.
  pose proof Hkept as [Hd _]. cbn [dicts] in Hd. rewrite Hd.
  split; [|split; [|split]].
  - intros l a Hl. by apply (untouched_lookup _ _ _ _ Hkept).
  - apply inject_sprites_length.
  - intros o d Ho. by apply inject_sprites_lookup.
  - intros Hnd i o d Hi Ho. eexists. split.
    + by apply (inject_sprites_sprite A0 0 obs (dicts st) i o d).
    + done.
Qed.

Lemma redraw_stages (self : PommeGraphic sim) obs st parts :
  NoDup obs → length parts = length obs →
  (∀ i o p, obs !! i = Some o → parts !! i = Some p →
     drawn K NB A0 (renres self) (sprite_size self) (Pomme_board_size (pomme self))
       st i o p) →
  redraw K NB A0 Pomme_board_size self obs st
  = (Ok (fp_frame <$> parts),
     Store (arrays st ++ (fp_grid <$> parts)) (inject_sprites A0 0 obs (dicts st))).
Proof.
  intros Hnd Hlen Hdrawn. rewrite redraw_run.
  set (ds1 := inject_sprites A0 0 obs (dicts st)).
  assert (Hds : ∀ i (o : nat) p, obs !! i = Some o → parts !! i = Some p →
            ds1 !! o = Some (with_sprite (A0 + Z.of_nat i) (fp_dict p))).
  { intros i o p Hi Hp. destruct (Hdrawn i o p Hi Hp)
         as [Ddict Dboard Dbombs Dshape Dlength Dgrid Drendered Dview Ddash Dframe].
    apply (inject_sprites_sprite A0 0 obs (dicts st) i o); done. }
  unfold draw_frames. rewrite bind_run.
  rewrite (preprocess_all K obs (fp_grid <$> parts)).
  2: { apply Forall2_same_length_lookup_2; [by rewrite length_fmap|].
       intros i o g Hi Hg. rewrite list_lookup_fmap in Hg.
       destruct (parts !! i) as [p|] eqn:Hp; [|done]. injection Hg as <-.
       pose proof (Hds i o p Hi Hp) as Hd.
       destruct (Hdrawn i o p Hi Hp)
         as [Ddict Dboard Dbombs Dshape Dlength Dgrid Drendered Dview Ddash Dframe].
       exists (with_sprite (A0 + Z.of_nat i) (fp_dict p)), (fp_board p), (fp_bombs p),
         (A0 + Z.of_nat i)%Z.
       split; [by constructor|done]. }
  cbn [arrays dicts].
  set (st2 := Store (arrays st ++ (fp_grid <$> parts)) ds1).
  rewrite bind_run.
  rewrite (for_eachM_pure _ _ (fp_view <$> parts) st2).
  2: { apply Forall2_same_length_lookup_2.
       { rewrite length_zip_with, length_seq, length_fmap. lia. }
       intros i po v Hpo Hv.
       apply lookup_zip_with_Some in Hpo as (l & o & -> & Hl & Hi).
       apply lookup_seq in Hl as [-> _].
       rewrite list_lookup_fmap in Hv.
       destruct (parts !! i) as [p|] eqn:Hp; [|done]. injection Hv as <-.
       pose proof (Hds i o p Hi Hp) as Hd.
       destruct (Hdrawn i o p Hi Hp)
         as [Ddict Dboard Dbombs Dshape Dlength Dgrid Drendered Dview Ddash Dframe].
       cbn [fst snd]. rewrite bind_run. unfold load at 1. unfold st2 at 1. cbn [arrays].
       rewrite lookup_app_r by lia.
       replace (length (arrays st) + i - length (arrays st)) with i by lia.
       rewrite list_lookup_fmap, Hp. cbn [fmap option_fmap option_map].
       rewrite bind_run. unfold lift at 1. rewrite Drendered.
       rewrite bind_run. unfold st2 at 1. rewrite (obs_get_run _ _ _ _ _ Hd).
       cbn [with_sprite bomb_life].
       rewrite bind_run. unfold load at 1. cbn [arrays].
       rewrite (lookup_app_l_Some _ _ _ _ Dbombs).
       unfold lift. by rewrite Dview. }
  rewrite bind_run.
  rewrite (for_eachM_pure _ _ (fp_dash <$> parts) st2).
  2: { apply Forall2_same_length_lookup_2; [by rewrite length_fmap|].
       intros i o v Hi Hv. rewrite list_lookup_fmap in Hv.
       destruct (parts !! i) as [p|] eqn:Hp; [|done]. injection Hv as <-.
       pose proof (Hds i o p Hi Hp) as Hd.
       destruct (Hdrawn i o p Hi Hp)
         as [Ddict Dboard Dbombs Dshape Dlength Dgrid Drendered Dview Ddash Dframe].
       rewrite bind_run. unfold st2 at 1. rewrite (obs_get_run _ _ _ _ _ Hd).
       unfold lift, id.
       change (prepare_dashboard NB (with_sprite (A0 + Z.of_nat i) (fp_dict p)))
         with (prepare_dashboard NB (fp_dict p)).
       by rewrite Ddash. }
  apply for_eachM_pure.
  apply Forall2_same_length_lookup_2.
  { rewrite length_zip_with, !length_fmap. lia. }
  intros i bd f Hbd Hf.
  apply lookup_zip_with_Some in Hbd as (v & dsh & -> & Hv & Hdsh).
  rewrite list_lookup_fmap in Hv, Hdsh, Hf.
  destruct (parts !! i) as [p|] eqn:Hp; [|done].
  injection Hv as <-. injection Hdsh as <-. injection Hf as <-.
  destruct (lookup_lt_is_Some_2 obs i) as [o Hi].
  { rewrite <- Hlen. by eapply lookup_lt_Some. }
  destruct (Hdrawn i o p Hi Hp)
         as [Ddict Dboard Dbombs Dshape Dlength Dgrid Drendered Dview Ddash Dframe].
  unfold lift. cbn [fst snd]. by rewrite Dframe.
Qed.

End frames.

Section reset_frames.
Context (K NB : nat) (A0 : Z).
Context {sim : Type}.
Context (Pomme_reset : sim → store → list ref * sim * store).
Context (Pomme_board_size : sim → nat).

(** X24: the raw observations that get_last_step_raw returns after a reset
    are the dicts redraw wrote to: for a simulator whose observation list
    has no dict twice, the i-th one carries 'my_sprite' = Agent0 + i and is
    otherwise as the simulator made it, whether or not the redraw raised. *)
Theorem reset_raw_observations_carry_sprite (self : PommeGraphic sim) st obs s' st1
    i (o : nat) d :
  Pomme_reset (pomme self) st = (obs, s', st1) → NoDup obs →
  obs !! i = Some o → dicts st1 !! o = Some d →
  get_last_step_raw (reset K NB A0 Pomme_reset Pomme_board_size self st).1.2 = Ok obs ∧
  ∃ d', dicts (reset K NB A0 Pomme_reset Pomme_board_size self st).2 !! o = Some d' ∧
    my_sprite d' = Some (A0 + Z.of_nat i)%Z ∧ same_raw_fields d d'.
Proof.
  intros Hsim Hnd Hi Ho. unfold reset. rewrite Hsim.
  set (self' := {| pomme := s'; sprite_size := sprite_size self;
                   renres := renres self; lastobs_raw := Some obs |}).
  pose proof (redraw_store K NB A0 Pomme_board_size self' obs st1) as [Hd _].
  cbn [dicts] in Hd.
  destruct (redraw K NB A0 Pomme_board_size self' obs st1) as [views st2].
  cbn [fst snd] in *. split.
  - unfold get_last_step_raw. cbn [lastobs_raw self'].
    rewrite bool_decide_eq_false_2; [done|]. by intros ->.
  - rewrite Hd. eexists. split.
    + by apply (inject_sprites_sprite A0 0 obs (dicts st1) i o d).
    + split; [done|]. apply with_sprite_raw.
Qed.
(** X25: when the stages of every agent's frame succeed on the
    observations the simulator's reset put into the store, and no
    observation occurs twice, reset returns exactly the stacked frames, in
    the order of the agents; it caches the observation list, reads the
    board size from the simulator after the reset, and leaves in the store
    the coded grids as the only new arrays. *)
Theorem reset_draws_frames (self : PommeGraphic sim) st obs s' st1 parts :
  Pomme_reset (pomme self) st = (obs, s', st1) → NoDup obs →
  length parts = length obs →
  (∀ i o p, obs !! i = Some o → parts !! i = Some p →
     drawn K NB A0 (renres self) (sprite_size self) (Pomme_board_size s') st1 i o p) →
  reset K NB A0 Pomme_reset Pomme_board_size self st
  = (Ok (fp_frame <$> parts),
     {| pomme := s'; sprite_size := sprite_size self; renres := renres self;
        lastobs_raw := Some obs |},
     Store (arrays st1 ++ (fp_grid <$> parts)) (inject_sprites A0 0 obs (dicts st1))).
Proof.
  intros Hsim Hnd Hlen Hdrawn. unfold reset. rewrite Hsim.
  by rewrite (redraw_stages K NB A0 Pomme_board_size
               {| pomme := s'; sprite_size := sprite_size self; renres := renres self;
                  lastobs_raw := Some obs |} obs st1 parts Hnd Hlen Hdrawn).
Qed.

End reset_frames.

Section step_frames.
Context (K NB : nat) (A0 : Z).
Context {sim action extra : Type}.
Context (Pomme_step : action → sim → store → list ref * extra * sim * store).
Context (Pomme_board_size : sim → nat).

(** X26: under the same conditions step returns the stacked frames
    together with the reward, done flag and info of the simulator's step,
    unchanged, and caches the new observation list. *)
Theorem step_draws_frames (self : PommeGraphic sim) actions st obs rest s' st1 parts :
  Pomme_step actions (pomme self) st = (obs, rest, s', st1) → NoDup obs →
  length parts = length obs →
  (∀ i o p, obs !! i = Some o → parts !! i = Some p →
     drawn K NB A0 (renres self) (sprite_size self) (Pomme_board_size s') st1 i o p) →
  step K NB A0 Pomme_step Pomme_board_size self actions st
  = (Ok (fp_frame <$> parts, rest),
     {| pomme := s'; sprite_size := sprite_size self; renres := renres self;
        lastobs_raw := Some obs |},
     Store (arrays st1 ++ (fp_grid <$> parts)) (inject_sprites A0 0 obs (dicts st1))).
Proof.
  intros Hsim Hnd Hlen Hdrawn. unfold step. rewrite Hsim.
  by rewrite (redraw_stages K NB A0 Pomme_board_size
               {| pomme := s'; sprite_size := sprite_size self; renres := renres self;
                  lastobs_raw := Some obs |} obs st1 parts Hnd Hlen Hdrawn).
Qed.

End step_frames.

(** ** The layout of a frame *)

Lemma postprocess_board_Ok (K : nat) rendered res bombs ppboard R C N s :
  shape res = [N; s; s; 3] → wf_array res → 0 < s →
  shape rendered = [R * s; C * s; 3] → wf_array rendered →
  shape bombs = [R; C] → wf_array bombs →
  shape ppboard = [R; C] → wf_array ppboard →
  (∀ p code bomb, data ppboard !! p = Some code → data bombs !! p = Some bomb →
     (9 ≤ code ≤ 13)%Z → bomb ≠ 0%Z → (0 ≤ Z.of_nat K + bomb < Z.of_nat N)%Z) →
  ∃ out, postprocess_board K rendered res bombs ppboard = Ok out ∧
    shape out = [R * s; C * s; 3] ∧ length (data out) = R * s * (C * s) * 3.
Proof.
  intros Hres Hwf Hs Hrend Hwr Hbombs Hwb Hpp Hwp Hvalid.
  unfold wf_array in Hwr, Hwb, Hwp. rewrite Hrend in Hwr. rewrite Hbombs in Hwb.
  rewrite Hpp in Hwp.
  assert (Hlr : length (data rendered) = R * s * (C * s) * 3) by (rewrite Hwr; simpl; ring).
  assert (Hlb : length (data bombs) = R * C) by (rewrite Hwb; simpl; ring).
  assert (Hlp : length (data ppboard) = R * C) by (rewrite Hwp; simpl; ring).
  unfold postprocess_board, shape_at. rewrite Hres, Hrend.
  cbn [lookup list_lookup mbind result_bind].
  replace (s =? 0) with false by (symmetry; apply Nat.eqb_neq; lia).
  unfold __where_agent, nonzero. cbn [bshape __has_players]. rewrite Hpp.
  set (ps := filter _ _).
  destruct (postprocess_loop K res bombs s R C N ps rendered)
    as (out & Hout & Hso & Hlo & Hko); try done.
  { apply list.Forall_forall. intros p [code [Hcode Hplayer]]%player_positions.
    assert (Hp : p < R * C) by (rewrite <- Hlp; by eapply lookup_lt_Some).
    split; [done|]. intros Hb.
    destruct (lookup_lt_is_Some_2 (data bombs) p) as [v Hv]; [lia|].
    rewrite nth_lookup, Hv in Hb |- *.
    change (default 0%Z (Some v)) with v in *. by eapply Hvalid. }
  exists out. split; [done|]. split; [done|]. by rewrite Hlo.
Qed.

Lemma coded_grid_valid (K NB : nat) b bl my al pos n :
  shape b = [n; n] → wf_array b → shape bl = [n; n] → wf_array bl →
  Forall (λ v, (0 ≤ v < Z.of_nat K)%Z) (data b) →
  Forall (λ v, (0 ≤ v ≤ Z.of_nat NB)%Z) (data bl) →
  (0 ≤ my < Z.of_nat K)%Z → 11 < K →
  (my ∈ al → (- Z.of_nat n ≤ pos.1 < Z.of_nat n)%Z ∧
             (- Z.of_nat n ≤ pos.2 < Z.of_nat n)%Z) →
  ∃ g, coded_grid K b bl my al pos = Ok g ∧ shape g = [n; n] ∧
    length (data g) = n * n ∧
    Forall (λ v, (0 ≤ v < Z.of_nat (K + NB + 1))%Z) (data g).
Proof.
  intros Hsb Hwb Hsl Hwl Hcells Hbombs Hmy HK Hpos.
  unfold wf_array in Hwb, Hwl. rewrite Hsb in Hwb. rewrite Hsl in Hwl.
  assert (Hlb : length (data b) = n * n) by (rewrite Hwb; simpl; ring).
  assert (Hll : length (data bl) = n * n) by (rewrite Hwl; simpl; ring).
  assert (Hsub : Forall (λ v, (0 ≤ v < Z.of_nat (K + NB + 1))%Z)
                   (data (substituted K b bl my))).
  { unfold substituted. cbn [data]. apply Forall_fmap, Forall_lookup.
    intros i v Hv. apply lookup_zip_with_Some in Hv as (bomb & cell & -> & Hbomb & Hcell).
    rewrite Forall_lookup in Hcells, Hbombs.
    pose proof (mark_bomb_range K NB bomb cell (Hcells _ _ Hcell) (Hbombs _ _ Hbomb)).
    cbn. unfold substitute_other. destruct (_ =? _)%Z; lia. }
  assert (Hlsub : length (data (substituted K b bl my)) = n * n).
  { unfold substituted. cbn [data].
    by rewrite length_fmap, length_zip_with, Hll, Hlb, Nat.min_id. }
  unfold coded_grid. case_bool_decide as Hal.
  - destruct (Hpos Hal) as [H1 H2]. unfold set_item2.
    change (shape (substituted K b bl my)) with (shape b). rewrite Hsb.
    rewrite (norm_index_wrap n pos.1 H1), (norm_index_wrap n pos.2 H2).
    cbn [mbind result_bind]. eexists. split; [done|]. cbn [shape data].
    split; [done|]. split; [by rewrite length_insert|].
    apply list.Forall_insert; [done|]. unfold KEEP_MY_AGENT_SPRITE. lia.
  - eexists. split; [done|]. split; [done|]. done.
Qed.

Lemma list_choice {A B} (l : list A) : ∀ (P : nat → A → B → Prop),
  (∀ i x, l !! i = Some x → ∃ y, P i x y) →
  ∃ ys, length ys = length l ∧ ∀ i x y, l !! i = Some x → ys !! i = Some y → P i x y.
Proof.
  induction l as [|x l IH]; intros P H.
  - exists []. split; [done|]. by intros i x y Hx.
  - destruct (H 0 x eq_refl) as [y Hy].
    destruct (IH (λ i, P (S i))) as (ys & Hlen & Hys).
    { intros i x' Hx'. by apply (H (S i)). }
    exists (y :: ys). split; [by cbn; rewrite Hlen|].
    intros [|i] x' y' Hx' Hy'; cbn in *.
    + by simplify_eq.
    + by apply Hys.
Qed.

Lemma drawn_layout (K NB : nat) (A0 : Z) res s n st i (o : nat) :
  shape res = [K + NB + 1; s; s; 3] → wf_array res → 0 < s → 0 < n → 11 < K →
  well_formed_observation K NB A0 n st i o →
  ∃ p, drawn K NB A0 res s n st i o p ∧
    shape (fp_frame p) = [(n + 1) * s; n * s; 3] ∧
    (∀ y x k, y < n * s → x < n * s → k < 3 →
       item (fp_frame p) [y; x; k] = item (fp_view p) [y; x; k]) ∧
    (∀ y x k, y < s → x < n * s → k < 3 →
       item (fp_frame p) [n * s + y; x; k] = item (fp_dash p) [y; x; k]).
Proof.
  intros Hres Hwf Hs Hn HK (d & b & bl & Hd & Hb & Hbl & Hsb & Hwb & Hsl & Hwl & Hcells &
                             Hbombs & Hmy & Hpos).
  destruct (coded_grid_valid K NB b bl (A0 + Z.of_nat i) (alive d) (position d) n)
    as (g & Hg & Hsg & Hlg & Hrange); try done.
  assert (Hwg : wf_array g) by (unfold wf_array; rewrite Hsg, Hlg; simpl; lia).
  destruct (render_preprocessed_board_pixels g res n n (K + NB + 1) s s 3)
    as (img & Himg & Hsi & Hwi & _); try done.
  { eapply List.Forall_impl; [|exact Hrange]. cbn. lia. }
  destruct (postprocess_board_Ok K img res bl g n n (K + NB + 1) s)
    as (view & Hview & Hsv & Hlv); try done.
  { intros p code bomb _ Hbomb _ Hne. rewrite Forall_lookup in Hbombs.
    pose proof (Hbombs _ _ Hbomb). lia. }
  destruct (prepare_dashboard_pixels NB d res s n (K + NB + 1))
    as (codes & dash & _ & Hdash & Hsd & _); try done; [lia|].
  exists (FrameParts d b bl g img view dash
            (NDArray [n * s + 1 * s; n * s; 3] (data view ++ data dash))).
  split.
  { constructor; cbn [fp_dict fp_board fp_bombs fp_grid fp_rendered fp_view fp_dash fp_frame];
      try done.
    - congruence.
    - unfold wf_array in Hwb, Hwl. rewrite Hsb in Hwb. rewrite Hsl in Hwl. congruence.
    - unfold concatenate0. rewrite Hsv, Hsd. by rewrite decide_True. }
  cbn [fp_frame fp_view fp_dash]. split; [cbn [shape]; f_equal; lia|]. split.
  - intros y x k Hy Hx Hk.
    rewrite (item3 _ (n * s + 1 * s) (n * s) 3), (item3 view (n * s) (n * s) 3)
      by (done || lia).
    cbn [data]. apply lookup_app_l. rewrite Hlv. by apply ravel3_lt.
  - intros y x k Hy Hx Hk.
    rewrite (item3 _ (n * s + 1 * s) (n * s) 3), (item3 dash (1 * s) (n * s) 3)
      by (done || lia).
    cbn [data].
    replace (((n * s + y) * (n * s) + x) * 3 + k)
      with (n * s * (n * s) * 3 + ((y * (n * s) + x) * 3 + k)) by ring.
    rewrite lookup_app_r by (rewrite Hlv; lia). f_equal. rewrite Hlv. lia.
Qed.

Section layout.
Context (K NB : nat) (A0 : Z).
Context {sim : Type} (Pomme_board_size : sim → nat).

(** X27: for a list without repetitions of observations of an n x n board
    that are well formed (codes below len(FILE_NAMES), countdowns at most
    the number of bomb sprites, agent code Agent0 + i below
    len(FILE_NAMES), a living agent on the board) and an atlas of
    len(FILE_NAMES) + len(BOMB_FILE_NAMES) + 1 sprites of s x s pixels,
    redraw returns one frame per observation.  Frame i has (n + 1) * s rows
    and n * s columns; its first n * s rows are the board view, rendered
    and overlaid from the i-th grid that redraw added to the store, and
    its last s rows are the dashboard of the observation. *)
Theorem redraw_frame_layout (self : PommeGraphic sim) obs st s n :
  shape (renres self) = [K + NB + 1; s; s; 3] → wf_array (renres self) →
  sprite_size self = s → Pomme_board_size (pomme self) = n →
  0 < s → 0 < n → 11 < K → NoDup obs →
  (∀ i o, obs !! i = Some o → well_formed_observation K NB A0 n st i o) →
  ∃ frames,
    (redraw K NB A0 Pomme_board_size self obs st).1 = Ok frames ∧
    length frames = length obs ∧
    ∀ i (o : ref) d f,
      obs !! i = Some o → dicts st !! o = Some d → frames !! i = Some f →
      shape f = [(n + 1) * s; n * s; 3] ∧
      ∃ g bl rendered view dash,
        arrays (redraw K NB A0 Pomme_board_size self obs st).2
          !! (length (arrays st) + i) = Some g ∧
        arrays st !! bomb_life d = Some bl ∧
        render_preprocessed_board g (renres self) = Ok rendered ∧
        postprocess_board K rendered (renres self) bl g = Ok view ∧
        prepare_dashboard NB d (renres self) s n = Ok dash ∧
        (∀ y x k, y < n * s → x < n * s → k < 3 →
           item f [y; x; k] = item view [y; x; k]) ∧
        (∀ y x k, y < s → x < n * s → k < 3 →
           item f [n * s + y; x; k] = item dash [y; x; k]).
Proof.
  intros Hres Hwf Hsize Hboard Hs Hn HK Hnd Hall.
  destruct (list_choice obs
              (λ i o p, drawn K NB A0 (renres self) s n st i o p ∧
                 shape (fp_frame p) = [(n + 1) * s; n * s; 3] ∧
                 (∀ y x k, y < n * s → x < n * s → k < 3 →
                    item (fp_frame p) [y; x; k] = item (fp_view p) [y; x; k]) ∧
                 (∀ y x k, y < s → x < n * s → k < 3 →
                    item (fp_frame p) [n * s + y; x; k] = item (fp_dash p) [y; x; k])))
    as (parts & Hlen & Hparts).
  { intros i o Hi. apply drawn_layout; try done. by apply Hall. }
  rewrite (redraw_stages K NB A0 Pomme_board_size self obs st parts Hnd Hlen).
  2: { intros i o p Hi Hp. rewrite Hsize, Hboard. by apply (Hparts i o p). }
  cbn [fst snd arrays].
  exists (fp_frame <$> parts). split; [done|]. split; [by rewrite length_fmap|].
  intros i o d f Hi Hd Hf. rewrite list_lookup_fmap in Hf.
  destruct (parts !! i) as [p|] eqn:Hp; [|done]. injection Hf as <-.
  destruct (Hparts i o p Hi Hp) as ([Ddict Dboard Dbombs Dshape Dlength Dgrid Drendered
                                       Dview Ddash Dframe] & Hshape & Htop & Hbottom).
  assert (fp_dict p = d) as Hdp by congruence.
  split; [done|].
  exists (fp_grid p), (fp_bombs p), (fp_rendered p), (fp_view p), (fp_dash p).
  rewrite <- Hdp.
  split.
  { rewrite lookup_app_r by lia.
    replace (length (arrays st) + i - length (arrays st)) with i by lia.
    by rewrite list_lookup_fmap, Hp. }
  done.
Qed.
End layout.


(** ** The boards and bombs of the observations *)

Lemma board_and_bombs_run (o : ref) st :
  (b ← obs_get o board; bl ← obs_get o bomb_life; mret (b, bl)) st
  = match dicts st !! o with
    | Some d => (Ok (board d, bomb_life d), st)
    | None => (Raise KeyError, st)
    end.
Proof.
  rewrite bind_run. unfold obs_get at 1. destruct (dicts st !! o) as [d|] eqn:Hd; [|done].
  rewrite bind_run. unfold obs_get. by rewrite Hd.
Qed.

Lemma get_board_and_bombs_store obs st : (get_board_and_bombs obs st).2 = st.
Proof.
  unfold get_board_and_bombs. revert st. induction obs as [|o obs IH]; intros st; [done|].
  cbn [for_eachM]. rewrite bind_run. cbv beta. rewrite board_and_bombs_run.
  destruct (dicts st !! o) as [d|]; [|done].
  rewrite bind_run. specialize (IH st).
  destruct (for_eachM _ obs st) as [[ys|e] st']; cbn [snd] in IH; by subst.
Qed.

(** X28: get_board_and_bombs changes nothing in the store and copies no
    array: when every observation is a dict of the store, the i-th pair it
    returns holds the references of that dict's own board and bomb_life
    arrays. *)
Theorem get_board_and_bombs_aliases obs st :
  (get_board_and_bombs obs st).2 = st ∧
  ((∀ o : ref, o ∈ obs → is_Some (dicts st !! o)) →
   ∃ pairs, (get_board_and_bombs obs st).1 = Ok pairs ∧ length pairs = length obs ∧
     ∀ i (o : ref) d, obs !! i = Some o → dicts st !! o = Some d →
       pairs !! i = Some (board d, bomb_life d)).
Proof.
  split; [apply get_board_and_bombs_store|].
  unfold get_board_and_bombs. induction obs as [|o obs IH]; intros Hall.
  - exists []. by split.
  - destruct IH as (pairs & Hrun & Hlen & Hpairs).
    { intros o' Ho'. apply Hall. by right. }
    destruct (Hall o) as [d Hd]; [by left|].
    pose proof (get_board_and_bombs_store obs st) as Hst.
    unfold get_board_and_bombs in Hst.
    cbn [for_eachM]. rewrite bind_run. cbv beta. rewrite board_and_bombs_run, Hd.
    rewrite bind_run.
    destruct (for_eachM _ obs st) as [[ys|e] st'] eqn:Hloop; cbn [fst snd] in *; [|done].
    injection Hrun as ->. subst st'.
    exists ((board d, bomb_life d) :: pairs). split; [done|].
    split; [by cbn; rewrite Hlen|].
    intros [|i] o' d' Hi Ho'.
    + injection Hi as <-. rewrite Hd in Ho'. by injection Ho' as <-.
    + by apply (Hpairs i o' d').
Qed.

Lemma redraw_one_frame_per_observation_witness :
  length (fp_frame <$> two_agent_parts) = length [0; 1].
Proof.
  apply (redraw_one_frame_per_observation 14 5 10 (λ _ : unit, 2) two_agent_env [0; 1]
           two_agent_store).
  vm_compute. reflexivity.
Defined.

Lemma reset_raw_observations_carry_sprite_witness :
  get_last_step_raw
    (reset 14 5 10 two_agent_reset (λ _ : unit, 2) two_agent_env two_agent_store).1.2
  = Ok [0; 1] ∧
  ∃ d', dicts (reset 14 5 10 two_agent_reset (λ _ : unit, 2) two_agent_env
                 two_agent_store).2 !! 1 = Some d' ∧
    my_sprite d' = Some (10 + Z.of_nat 1)%Z ∧ same_raw_fields raw_obs1 d'.
Proof.
  apply (reset_raw_observations_carry_sprite 14 5 10 two_agent_reset (λ _ : unit, 2)
           two_agent_env two_agent_store [0; 1] tt two_agent_store 1 1 raw_obs1).
  - reflexivity.
  - apply (bool_decide_unpack _). vm_compute. exact I.
  - reflexivity.
  - reflexivity.
Defined.

Lemma two_agent_drawn i (o : ref) p :
  [0; 1] !! i = Some o → two_agent_parts !! i = Some p →
  drawn 14 5 10 uniform_atlas 2 2 two_agent_store i o p.
Proof.
  destruct i as [|[|i]]; intros Hi Hp; [| |done].
  - injection Hi as <-. injection Hp as <-. constructor; vm_compute; reflexivity.
  - injection Hi as <-. injection Hp as <-. constructor; vm_compute; reflexivity.
Defined.

Lemma reset_draws_frames_witness :
  reset 14 5 10 two_agent_reset (λ _ : unit, 2) two_agent_env two_agent_store
  = (Ok (fp_frame <$> two_agent_parts),
     {| pomme := tt; sprite_size := 2; renres := uniform_atlas;
        lastobs_raw := Some [0; 1] |},
     Store (arrays two_agent_store ++ (fp_grid <$> two_agent_parts))
       (inject_sprites 10 0 [0; 1] (dicts two_agent_store))).
Proof.
  apply (reset_draws_frames 14 5 10 two_agent_reset (λ _ : unit, 2) two_agent_env
           two_agent_store [0; 1] tt two_agent_store two_agent_parts).
  - reflexivity.
  - apply (bool_decide_unpack _). vm_compute. exact I.
  - reflexivity.
  - apply two_agent_drawn.
Defined.

Lemma step_draws_frames_witness :
  step 14 5 10 two_agent_step (λ _ : unit, 2) two_agent_env tt two_agent_store
  = (Ok (fp_frame <$> two_agent_parts, tt),
     {| pomme := tt; sprite_size := 2; renres := uniform_atlas;
        lastobs_raw := Some [0; 1] |},
     Store (arrays two_agent_store ++ (fp_grid <$> two_agent_parts))
       (inject_sprites 10 0 [0; 1] (dicts two_agent_store))).
Proof.
  apply (step_draws_frames 14 5 10 two_agent_step (λ _ : unit, 2) two_agent_env tt
           two_agent_store [0; 1] tt tt two_agent_store two_agent_parts).
  - reflexivity.
  - apply (bool_decide_unpack _). vm_compute. exact I.
  - reflexivity.
  - apply two_agent_drawn.
Defined.

Lemma redraw_frame_layout_witness :
  ∃ frames,
    (redraw 14 5 10 (λ _ : unit, 2) two_agent_env [0; 1] two_agent_store).1 = Ok frames ∧
    length frames = length [0; 1] ∧
    ∀ i (o : ref) d f,
      [0; 1] !! i = Some o → dicts two_agent_store !! o = Some d → frames !! i = Some f →
      shape f = [(2 + 1) * 2; 2 * 2; 3] ∧
      ∃ g bl rendered view dash,
        arrays (redraw 14 5 10 (λ _ : unit, 2) two_agent_env [0; 1] two_agent_store).2
          !! (length (arrays two_agent_store) + i) = Some g ∧
        arrays two_agent_store !! bomb_life d = Some bl ∧
        render_preprocessed_board g (renres two_agent_env) = Ok rendered ∧
        postprocess_board 14 rendered (renres two_agent_env) bl g = Ok view ∧
        prepare_dashboard 5 d (renres two_agent_env) 2 2 = Ok dash ∧
        (∀ y x k, y < 2 * 2 → x < 2 * 2 → k < 3 →
           item f [y; x; k] = item view [y; x; k]) ∧
        (∀ y x k, y < 2 → x < 2 * 2 → k < 3 →
           item f [2 * 2 + y; x; k] = item dash [y; x; k]).
Proof.
  apply (redraw_frame_layout 14 5 10 (λ _ : unit, 2) two_agent_env [0; 1] two_agent_store
           2 2).
  - reflexivity.
  - vm_compute. reflexivity.
  - reflexivity.
  - reflexivity.
  - lia.
  - lia.
  - lia.
  - apply (bool_decide_unpack _). vm_compute. exact I.
  - intros [|[|i]] o Hi; [| |done]; injection Hi as <-.
    + exists raw_obs0, sample_board, sample_bombs.
      do 10 (split; [first [reflexivity | lia
                           | repeat (constructor; [lia|]); constructor]|]).
      intros _. cbn. lia.
    + exists raw_obs1, sample_board, sample_bombs.
      do 10 (split; [first [reflexivity | lia
                           | repeat (constructor; [lia|]); constructor]|]).
      intros _. cbn. lia.
Defined.

(** ** Further instances *)

Lemma set_num_board_params_accepts_witness :
  (set_num_board_params true (BoardParams 36 36 20) 4 12 (-1)).2 = BoardParams 4 12 20.
Proof.
  apply (proj2 (set_num_board_params_accepts true (BoardParams 36 36 20) 4 12 (-1))).
  reflexivity.
Defined.

Lemma preprocess_board_never_mutates_witness :
  arrays (preprocess_board 14 0 alive_store).2 !! 0 = Some sample_board.
Proof.
  apply (proj1 (proj2 (preprocess_board_never_mutates 14 0 alive_store))).
  reflexivity.
Defined.

Lemma tile_four_images_arity_witness :
  tile_four_images [dot 1; dot 2; dot 3] = Raise IndexError.
Proof.
  apply (proj1 (tile_four_images_arity [dot 1; dot 2; dot 3])). simpl. lia.
Defined.

Lemma redraw_footprint_witness :
  ∃ d', dicts (redraw 14 5 10 (λ _ : unit, 2) two_agent_env [0; 1] two_agent_store).2 !! 1
        = Some d' ∧ my_sprite d' = Some (10 + Z.of_nat 1)%Z.
Proof.
  assert (Hnd : NoDup [0; 1]) by (apply (bool_decide_unpack _); vm_compute; exact I).
  apply (proj2 (proj2 (proj2 (redraw_footprint 14 5 10 (λ _ : unit, 2) two_agent_env
                                [0; 1] two_agent_store))) Hnd 1 1 raw_obs1).
  - reflexivity.
  - reflexivity.
Defined.

Lemma get_board_and_bombs_aliases_witness :
  ∃ pairs, (get_board_and_bombs [0; 1] two_agent_store).1 = Ok pairs ∧
    length pairs = length [0; 1] ∧
    ∀ i (o : ref) d, [0; 1] !! i = Some o → dicts two_agent_store !! o = Some d →
      pairs !! i = Some (board d, bomb_life d).
Proof.
  apply (proj2 (get_board_and_bombs_aliases [0; 1] two_agent_store)).
  intros o Ho. apply elem_of_cons in Ho as [->|Ho]; [by eexists|].
  apply list_elem_of_singleton in Ho as ->. by eexists.
Defined.
